(** * Zapier browser client: dual-path request executor and result normalizer

    A shallow embedding of [zapier-browser-client.ts] (class
    [ZapierBrowserClient]).  The client drives a Playwright browser, calls the
    vendor's internal JSON API through the page, and falls back to page
    interception or UI automation.

    Layout of the development:
    - [Js]: the fragment of JavaScript's dynamic semantics the client
      relies on (truthiness, [||], property reads, [String(..)], [includes],
      [substring], [URLSearchParams]);
    - the client itself (section [Browser]), as a state-and-exception monad
      over an arbitrary browser/network environment, function by function;
    - the vocabulary of the properties;
    - [Sim]: a small scripted environment, to run the client on concrete
      inputs;
    - lemmas about runs of the client and the properties of the
      specification, one theorem each (section [Runs]);
    - sample runs.

    Modelling conventions.
    - Strings are byte strings; they agree with JavaScript strings on ASCII
      text, which is what every literal of the client is.
    - Numbers are the integer-valued ones (ids, counts, lengths, HTTP status
      codes, millisecond clocks), of magnitude below 2^53: the integers a
      JSON document and a double hold exactly, and which JavaScript prints
      in plain decimal.  The model is silent on larger numbers.
    - A JSON object is an association list in document order; a property read
      takes the first binding of the key.
    - The session files live on an ideal file system: writing and unlinking a
      file succeed.
    - A response listener installed with [page.on] is modelled by what it
      does to each response; the world reports, at the point where the
      promise is awaited, the responses the listener handled before the
      15-second timer fired.
    - Output on the debug console ([console.error]) is not part of the model.
*)

From Stdlib Require Import String Ascii ZArith List Bool Lia.
From Stdlib Require Import DecimalString.
Import ListNotations.
Local Open Scope string_scope.

Set Implicit Arguments.
Set Warnings "-register-all".

(* ===================================================================== *)
(** * JavaScript values and the operations the client applies to them    *)
(* ===================================================================== *)

Module Js.

(** A parsed JSON document, plus [undefined] for absent properties. *)
Inductive value : Type :=
| VUndefined
| VNull
| VBool (b : bool)
| VNum (n : Z)
| VStr (s : string)
| VArr (items : list value)
| VObj (fields : list (string * value)).

(** Exceptions carry the [message] the [catch] blocks inspect. *)
Inductive exn : Type :=
| Error (msg : string)
| TypeError (msg : string).

Definition message (e : exn) : string :=
  match e with Error m | TypeError m => m end.

Inductive result (A : Type) : Type :=
| Ok (a : A)
| Throw (e : exn).
Arguments Ok {A} a.
Arguments Throw {A} e.

Definition rbind {A B} (r : result A) (k : A -> result B) : result B :=
  match r with Ok a => k a | Throw e => Throw e end.

Declare Scope js_scope.
Delimit Scope js_scope with js.
Notation "x <~ r ;; k" := (rbind r (fun x => k))
  (at level 100, r at next level, right associativity) : js_scope.
Local Open Scope js_scope.

(** [mapR f l] is [l.map(f)] for a callback that may throw: the first
    exception aborts the traversal. *)
Fixpoint mapR {A B} (f : A -> result B) (l : list A) : result (list B) :=
  match l with
  | [] => Ok []
  | x :: rest => y <~ f x ;; ys <~ mapR f rest ;; Ok (y :: ys)
  end.

(** ** Truthiness and [||] *)

Definition truthy (v : value) : bool :=
  match v with
  | VUndefined | VNull => false
  | VBool b => b
  | VNum n => negb (n =? 0)%Z
  | VStr s => negb (s =? "")
  | VArr _ | VObj _ => true
  end.

Definition js_or (a b : value) : value := if truthy a then a else b.
Infix "|||" := js_or (at level 50, left associativity) : js_scope.

(** ** Property reads *)

Fixpoint assoc (k : string) (fs : list (string * value)) : option value :=
  match fs with
  | [] => None
  | (k', v) :: rest => if k' =? k then Some v else assoc k rest
  end.

Definition cannot_read (what k : string) : exn :=
  TypeError ("Cannot read properties of " ++ what ++ " (reading '" ++ k ++ "')").

(** [get v k] is [v.k].  None of the names the client reads ([id], [title],
    [status], [objects], ...) lives on a built-in prototype, so on a
    primitive or an array the read yields [undefined], except for [length]. *)
Definition get (v : value) (k : string) : result value :=
  match v with
  | VUndefined => Throw (cannot_read "undefined" k)
  | VNull => Throw (cannot_read "null" k)
  | VObj fs => Ok (match assoc k fs with Some x => x | None => VUndefined end)
  | VArr l => Ok (if k =? "length" then VNum (Z.of_nat (List.length l)) else VUndefined)
  | VStr s => Ok (if k =? "length" then VNum (Z.of_nat (String.length s)) else VUndefined)
  | VBool _ | VNum _ => Ok VUndefined
  end.

(** [opt_get v k] is [v?.k]. *)
Definition opt_get (v : value) (k : string) : value :=
  match v with
  | VUndefined | VNull => VUndefined
  | _ => match get v k with Ok x => x | Throw _ => VUndefined end
  end.

Definition isArray (v : value) : bool :=
  match v with VArr _ => true | _ => false end.

(** ** [String(v)] *)

Definition string_of_Z (n : Z) : string := NilZero.string_of_int (Z.to_int n).

Definition has_own (k : string) (fs : list (string * value)) : bool :=
  match assoc k fs with Some _ => true | None => false end.

(** A number prints its decimal digits, which is what [String(..)] gives
    for the numbers of the model (integers of magnitude below 2^53); of a
    larger number JavaScript prints a rounded value, which the model does
    not describe.  An object prints as [[object Object]]; one that carries
    its own [toString] entry (never callable in JSON) cannot be converted.
    An array prints its elements separated by commas, [null] and
    [undefined] as the empty string. *)
Fixpoint js_String (v : value) : result string :=
  match v with
  | VUndefined => Ok "undefined"
  | VNull => Ok "null"
  | VBool true => Ok "true"
  | VBool false => Ok "false"
  | VNum n => Ok (string_of_Z n)
  | VStr s => Ok s
  | VArr l =>
      (fix join (l : list value) : result string :=
         match l with
         | [] => Ok ""
         | x :: rest =>
             sx <~ match x with
                   | VUndefined | VNull => Ok ""
                   | _ => js_String x
                   end ;;
             match rest with
             | [] => Ok sx
             | _ => sr <~ join rest ;; Ok (sx ++ "," ++ sr)
             end
         end) l
  | VObj fs =>
      if has_own "toString" fs
      then Throw (TypeError "Cannot convert object to primitive value")
      else Ok "[object Object]"
  end.

(** ** Strings *)

(** [includes s sub] is [s.includes(sub)]. *)
Fixpoint includes (s sub : string) : bool :=
  if String.prefix sub s then true
  else match s with
       | EmptyString => false
       | String _ rest => includes rest sub
       end.

(** [s.substring(0, n)] for [0 <= n]. *)
Definition substring0 (n : nat) (s : string) : string := String.substring 0 n s.

Definition lower_ascii (c : ascii) : ascii :=
  let n := nat_of_ascii c in
  if (65 <=? n)%nat && (n <=? 90)%nat then ascii_of_nat (n + 32) else c.

(** [s.toLowerCase()]. *)
Fixpoint toLowerCase (s : string) : string :=
  match s with
  | EmptyString => EmptyString
  | String c rest => String (lower_ascii c) (toLowerCase rest)
  end.

(** ** [new URLSearchParams(params).toString()] *)

Definition hex_digit (n : nat) : ascii :=
  if (n <? 10)%nat then ascii_of_nat (48 + n) else ascii_of_nat (55 + n).

(** The [application/x-www-form-urlencoded] byte serializer: alphanumerics
    and [*-._] stay, a space becomes [+], any other byte is percent-encoded. *)
Definition form_unreserved (n : nat) : bool :=
  ((48 <=? n) && (n <=? 57) || (65 <=? n) && (n <=? 90) || (97 <=? n) && (n <=? 122)
   || (n =? 42) || (n =? 45) || (n =? 46) || (n =? 95))%nat.

Fixpoint form_encode (s : string) : string :=
  match s with
  | EmptyString => EmptyString
  | String c rest =>
      let n := nat_of_ascii c in
      if form_unreserved n then String c (form_encode rest)
      else if (n =? 32)%nat then String "+" (form_encode rest)
      else String "%" (String (hex_digit (n / 16)) (String (hex_digit (n mod 16))
                                                      (form_encode rest)))
  end.

Fixpoint search_params (ps : list (string * string)) : string :=
  match ps with
  | [] => ""
  | (k, v) :: rest =>
      let kv := form_encode k ++ "=" ++ form_encode v in
      match rest with
      | [] => kv
      | _ => kv ++ "&" ++ search_params rest
      end
  end.

(** A double-quoted piece of a CSS selector or of a message. *)
Definition dq : string := String (ascii_of_nat 34) EmptyString.
Definition q (s : string) : string := dq ++ s ++ dq.

End Js.
Import Js.
Local Open Scope js_scope.


(* ===================================================================== *)
(** * The browser client                                                  *)
(* ===================================================================== *)

(** ** Constants *)

Definition SESSION_DIR := "YOUR_CREDENTIALS_PATH/sessions".
Definition SCREENSHOT_DIR := "/home/USER/biz/.playwright-mcp".
Definition ZAPIER_LOGIN_URL := "https://zapier.com/app/login".
Definition ZAPIER_ZAPS_URL := "https://zapier.com/app/zaps".
Definition ZAPIER_HISTORY_URL := "https://zapier.com/app/history".
Definition ZAPIER_BASE := "https://zapier.com".

Module API.
Definition me := "/api/v3/me".
Definition zaps := "/api/v4/zaps".
Definition zapRuns := "/api/v4/zap-runs".
Definition zapRunDetail (runId : string) := "/api/v4/zap-runs/" ++ runId.
Definition toggleZap (zapId : string) := "/api/v4/zaps/" ++ zapId.
End API.

(** ** Public types.  Only the fields built with [String(..)] are statically
  strings; every other field holds whatever the vendor payload held. *)

Module ZapInfo.
Record t := make
  { id : string; title : value; status : value;
    lastRun : value; stepCount : value; updatedAt : value }.
End ZapInfo.

Module ZapRun.
Record t := make
  { id : string; zapId : string; zapTitle : value; status : value;
    startedAt : value; finishedAt : value; errorMessage : value }.
End ZapRun.

Module Step.
Record t := make
  { name : value; app : value; status : value;
    errorMessage : value; inputData : value; outputData : value }.
End Step.

Module ZapRunDetail.
Record t := make
  { id : string; zapId : string; zapTitle : value; status : value;
    startedAt : value; finishedAt : value; steps : list Step.t }.
End ZapRunDetail.

(** The result of [replayRun] and [toggleZap]. *)
Module OpResult.
Record t := make
  { success : bool; message : string; screenshot : option string }.
End OpResult.

(** [options?: { zapId?: string; limit?: number }]; every use goes through
  [options?.], so an absent [options] is the record with both fields absent. *)
Record history_options := { opt_zapId : option string; opt_limit : option Z }.

(** ** The environment: Playwright, the network and the clock *)

Definition handle := nat.

(** An HTTP response as the client observes it. *)
Record response :=
  { resp_url : string;
    resp_status : Z;
    resp_statusText : string;
    resp_text : result string;     (* [response.text()] *)
    resp_json : result value }.    (* [response.json()] *)

(** [APIResponse.ok()]: the status is in the range 200-299. *)
Definition ok (r : response) : bool :=
  ((200 <=? resp_status r) && (resp_status r <=? 299))%Z.

(** What [connectOverCDP] finds in the browser it attaches to. *)
Inductive cdp_shape := NoContext | ContextNoPage | ContextWithPage.

(** The calls the client makes on its environment, indexed by what they
    return; a call that may reject returns a [result]. *)
Inductive browserE : Type -> Type :=
| ConnectOverCDP (wsEndpoint : value) : browserE (result cdp_shape)
| Launch (headless : bool) : browserE (result unit)
| NewContext (storageState : option string) : browserE (result unit)
| NewPage : browserE (result unit)
| WsEndpoint : browserE (option string)
| StorageState : browserE (result string)
| DateNow : browserE Z
| DateISO : browserE string
| Goto (url : string) (timeout : Z) : browserE (result unit)
| WaitForTimeout (ms : Z) : browserE (result unit)
| Screenshot (path : string) : browserE (result unit)
| WaitForSelector (selector : string) (timeout : Z) : browserE (result (option handle))
| Query (selector : string) : browserE (result (option handle))
| Click (h : handle) : browserE (result unit)
| Fill (h : handle) (text : value) : browserE (result unit)
| Press (h : handle) (key : string) : browserE (result unit)
| IsVisible (h : handle) : browserE (result bool)
| WaitForLoggedInURL (timeout : Z) : browserE (result unit)
| PageUrl : browserE string
| TextContent (selector : string) : browserE (result (option string))
| EvaluateFindToggle (zapId : string) : browserE (result bool)
| RequestGet (url : string) : browserE (result response)
| RequestPatch (url : string) (data : value) : browserE (result response)
| RequestPost (url : string) : browserE (result response)
| Responses (timeout : Z) : browserE (list response).

Inductive event : Type := Ev : forall T, browserE T -> event.
Arguments Ev {T} _.

(** The two session artifacts under [SESSION_DIR].  The CDP file holds JSON:
    [Some None] is a file whose content does not parse. *)
Record session_files :=
  { cdp_session : option (option value);     (* zapier-session.json *)
    storage_state : option string }.         (* zapier-storage-state.json *)

Definition no_files : session_files :=
  {| cdp_session := None; storage_state := None |}.

Declare Scope client_scope.

Section Browser.

(** The environment is arbitrary: a type of worlds and the answer the world
    gives to each call. *)
Variable W : Type.
Variable respond : forall T, browserE T -> W -> T * W.

(** [x > 0] for a string [x] goes through JavaScript's string-to-number
    conversion, which is left to the runtime. *)
Variable string_gt0 : string -> bool.

Record state :=
  { config_zapier : value;        (* [this.config.zapier] *)
    debug : bool;
    browser : bool;               (* [this.browser !== null] *)
    context : bool;
    page : bool;
    files : session_files;
    world : W;
    trace : list event }.

Definition M (A : Type) : Type := state -> result A * state.

Definition ret {A} (a : A) : M A := fun s => (Ok a, s).
Definition throw {A} (e : exn) : M A := fun s => (Throw e, s).
Definition lift {A} (r : result A) : M A := fun s => (r, s).

Definition bind {A B} (m : M A) (k : A -> M B) : M B :=
  fun s => match m s with
           | (Ok a, s') => k a s'
           | (Throw e, s') => (Throw e, s')
           end.

(** [try { m } catch (e) { h e }] *)
Definition try_catch {A} (m : M A) (h : exn -> M A) : M A :=
  fun s => match m s with
           | (Ok a, s') => (Ok a, s')
           | (Throw e, s') => h e s'
           end.

Definition gets {A} (f : state -> A) : M A := fun s => (Ok (f s), s).
Definition modify (f : state -> state) : M unit := fun s => (Ok tt, f s).

(** The state after the world answered a call: only the world and the
    trace move. *)
Definition answered (s : state) (ev : event) (w : W) : state :=
  {| config_zapier := config_zapier s; debug := debug s;
     browser := browser s; context := context s; page := page s;
     files := files s; world := w; trace := trace s ++ [ev] |}.

(** One call on the environment, recorded in the trace. *)
Definition perform {T} (e : browserE T) : M T :=
  fun s => let (t, w) := respond e (world s) in (Ok t, answered s (Ev e) w).

Definition await {X} (e : browserE (result X)) : M X := bind (perform e) lift.

Notation "x <- m ;; k" := (bind m (fun x => k))
  (at level 100, m at next level, right associativity) : client_scope.
Notation "m ;; k" := (bind m (fun _ => k))
  (at level 100, right associativity) : client_scope.
Local Open Scope client_scope.

Definition when (b : bool) (m : M unit) : M unit := if b then m else ret tt.

Definition set_browser (b : bool) : M unit :=
  modify (fun s => {| config_zapier := config_zapier s; debug := debug s;
                      browser := b; context := context s; page := page s;
                      files := files s; world := world s; trace := trace s |}).
Definition set_context (b : bool) : M unit :=
  modify (fun s => {| config_zapier := config_zapier s; debug := debug s;
                      browser := browser s; context := b; page := page s;
                      files := files s; world := world s; trace := trace s |}).
Definition set_page (b : bool) : M unit :=
  modify (fun s => {| config_zapier := config_zapier s; debug := debug s;
                      browser := browser s; context := context s; page := b;
                      files := files s; world := world s; trace := trace s |}).
Definition with_files (f : session_files) (s : state) : state :=
  {| config_zapier := config_zapier s; debug := debug s;
     browser := browser s; context := context s; page := page s;
     files := f; world := world s; trace := trace s |}.
Definition set_files (f : session_files) : M unit := modify (with_files f).

(** [`${SCREENSHOT_DIR}/${name}${Date.now()}.png`] followed by
    [page.screenshot({ path, fullPage: true })]; returns the path. *)
Definition screenshot_path (name : string) (t : Z) : string :=
  SCREENSHOT_DIR ++ "/" ++ name ++ string_of_Z t ++ ".png".

Definition shot (name : string) : M string :=
  t <- perform DateNow ;;
  await (Screenshot (screenshot_path name t)) ;;
  ret (screenshot_path name t).

(** [this.page!.member]: dereferencing the page when none is held. *)
Definition the_page (member : string) : M unit :=
  p <- gets page ;;
  if p then ret tt else throw (cannot_read "null" member).

(** *** Config and session files (lines 141-165, 236-252) *)

Definition credentials_missing : exn :=
  Error ("Zapier credentials not found in config.json. " ++
         "Add a " ++ q "zapier" ++ " section with " ++ q "email" ++
         " and " ++ q "password" ++ " fields.").

(** [this.config.zapier?.email && this.config.zapier?.password] *)
Definition has_credentials (zapier : value) : bool :=
  truthy (opt_get zapier "email") && truthy (opt_get zapier "password").

Definition getCredentials : M (value * value) :=
  zapier <- gets config_zapier ;;
  if has_credentials zapier
  then ret (opt_get zapier "email", opt_get zapier "password")
  else throw credentials_missing.

Definition saveCDPSession (wsEndpoint : string) : M unit :=
  createdAt <- perform DateISO ;;
  f <- gets files ;;
  set_files {| cdp_session :=
                 Some (Some (VObj [("wsEndpoint", VStr wsEndpoint);
                                   ("createdAt", VStr createdAt)]));
               storage_state := storage_state f |}.

Definition loadCDPSession : M value :=
  f <- gets files ;;
  ret match cdp_session f with
      | None => VNull
      | Some None => VNull
      | Some (Some v) => v
      end.

Definition cleanupSessionFiles : M unit := set_files no_files.

Definition saveStorageState : M unit :=
  c <- gets context ;;
  when c (snapshot <- await StorageState ;;
          f <- gets files ;;
          set_files {| cdp_session := cdp_session f; storage_state := Some snapshot |}).

(** *** Browser lifecycle (lines 179-234) *)

(** The fast path; [true] when it returned the reconnected page. *)
Definition reconnect (cdpSession : value) : M bool :=
  try_catch
    (ws <- lift (get cdpSession "wsEndpoint") ;;
     shape <- await (ConnectOverCDP ws) ;;
     set_browser true ;;
     match shape with
     | NoContext => ret false
     | ContextNoPage => set_context true ;; ret false
     | ContextWithPage => set_context true ;; set_page true ;; ret true
     end)
    (fun _ => cleanupSessionFiles ;; ret false).

Definition launchBrowser : M unit :=
  d <- gets debug ;;
  await (Launch (negb d)) ;;
  set_browser true ;;
  f <- gets files ;;
  await (NewContext (storage_state f)) ;;
  set_context true ;;
  await NewPage ;;
  set_page true ;;
  wsEndpoint <- perform WsEndpoint ;;
  match wsEndpoint with
  | Some ws => when (negb (ws =? "")) (saveCDPSession ws)
  | None => ret tt
  end.

Definition ensureBrowser : M unit :=
  cdpSession <- loadCDPSession ;;
  b <- gets browser ;;
  returned <- (if truthy cdpSession && negb b then reconnect cdpSession else ret false) ;;
  if returned then ret tt
  else
    p <- gets page ;;
    if p then ret tt else launchBrowser.

(** *** Authentication (lines 262-448) *)

Definition isSessionValid : M bool :=
  p <- gets page ;;
  if negb p then ret false
  else try_catch
         (response <- await (RequestGet (ZAPIER_BASE ++ API.me)) ;;
          ret (ok response))
         (fun _ => ret false).

Definition emailSelectors : list string :=
  [ "input[name=" ++ q "email" ++ "]";
    "input[type=" ++ q "email" ++ "]";
    "input[id=" ++ q "email" ++ "]";
    "input[placeholder*=" ++ q "email" ++ " i]" ].

(** The [for] loop over the candidate selectors: the first selector that
    yields an element wins, a rejected wait moves on to the next one. *)
Fixpoint findEmailField (selectors : list string) : M (option handle) :=
  match selectors with
  | [] => ret None
  | selector :: rest =>
      found <- try_catch (await (WaitForSelector selector 8000)) (fun _ => ret None) ;;
      match found with
      | Some h => ret (Some h)
      | None => findEmailField rest
      end
  end.

Definition dismissCookieBanner : M unit :=
  try_catch
    (cookieBtn <- await (Query
       ("button:has-text(" ++ q "Accept all cookies" ++ "), button:has-text("
        ++ q "Accept All" ++ ")")) ;;
     match cookieBtn with
     | Some b => await (Click b) ;; await (WaitForTimeout 1000)
     | None => ret tt
     end)
    (fun _ => ret tt).

(** Click the submit control if there is one, else press Enter in the field. *)
Definition submitStep (buttonSelector : string) (field : handle) : M unit :=
  btn <- await (Query buttonSelector) ;;
  match btn with
  | Some b => await (Click b)
  | None => await (Press field "Enter")
  end.

Definition mentions (pageContent : option string) (needle : string) : bool :=
  match pageContent with
  | Some c => includes (toLowerCase c) needle
  | None => false
  end.

(** The [catch] block of the post-login wait: no navigation away from the
    login page within 60s. *)
Definition loginStuck : M unit :=
  pageUrl <- perform PageUrl ;;
  content <- perform (TextContent "body") ;;
  let pageContent := match content with Ok c => c | Throw _ => Some "" end in
  if mentions pageContent "two-factor" || mentions pageContent "verification code"
     || mentions pageContent "2fa" || mentions pageContent "authentication code"
     || mentions pageContent "verify your identity"
  then
    tfaScreenshot <- shot "zapier-2fa-" ;;
    d <- gets debug ;;
    if d then
      try_catch
        (await (WaitForLoggedInURL 120000) ;; saveStorageState)
        (fun _ => throw (Error ("2FA not completed within 120s. Screenshot: " ++ tfaScreenshot)))
    else
      throw (Error ("2FA required. Screenshot: " ++ tfaScreenshot ++ ". " ++
                    "Run with --debug flag and complete 2FA manually, then retry."))
  else if mentions pageContent "captcha" || mentions pageContent "challenge"
          || mentions pageContent "cloudflare"
  then
    captchaScreenshot <- shot "zapier-captcha-" ;;
    throw (Error ("CAPTCHA/challenge detected. Screenshot: " ++ captchaScreenshot ++ ". " ++
                  "Run with --debug flag and solve manually."))
  else
    errorScreenshot <- shot "zapier-login-failed-" ;;
    throw (Error ("Login failed (stuck at " ++ pageUrl ++ "). Screenshot: " ++ errorScreenshot)).

Definition continueSelector : string :=
  "button:text-is(" ++ q "Continue" ++ "), button[type=" ++ q "submit"
  ++ "]:not(:has-text(" ++ q "Continue with" ++ "))".

(** The login procedure proper, from the navigation to the login page on
    (lines 293-447). *)
Definition login (creds : value * value) : M unit :=
  await (Goto ZAPIER_LOGIN_URL 60000) ;;
  await (WaitForTimeout 3000) ;;
  shot "zapier-login-" ;;
  emailField <- findEmailField emailSelectors ;;
  match emailField with
  | None =>
      errorScreenshot <- shot "zapier-login-error-no-email-" ;;
      throw (Error ("Could not find email field. Screenshot: " ++ errorScreenshot))
  | Some emailField =>
      dismissCookieBanner ;;
      await (Fill emailField (fst creds)) ;;
      submitStep continueSelector emailField ;;
      await (WaitForTimeout 4000) ;;
      d <- gets debug ;;
      when d (shot "zapier-after-continue-" ;; ret tt) ;;
      passwordField <-
        try_catch
          (await (WaitForSelector ("input[type=" ++ q "password" ++ "]") 15000))
          (fun _ =>
             errorScreenshot <- shot "zapier-login-error-no-password-" ;;
             throw (Error ("Could not find password field after clicking Continue. Screenshot: "
                           ++ errorScreenshot))) ;;
      match passwordField with
      | None => throw (TypeError "Cannot read properties of null (reading 'fill')")
      | Some passwordField =>
          await (Fill passwordField (snd creds)) ;;
          submitStep
            (continueSelector ++ ", button:has-text(" ++ q "Log in"
             ++ "), button:has-text(" ++ q "Sign in" ++ ")")
            passwordField ;;
          landed <- try_catch (await (WaitForLoggedInURL 60000) ;; ret true)
                              (fun _ => ret false) ;;
          if landed then saveStorageState else loginStuck
      end
  end.

Definition ensureLoggedIn : M unit :=
  ensureBrowser ;;
  valid <- isSessionValid ;;
  if valid then ret tt
  else
    creds <- getCredentials ;;
    login creds.

(** *** API helpers (lines 458-520) *)

Definition authentication_failed (status : Z) : exn :=
  Error ("Authentication failed (" ++ string_of_Z status
         ++ "). Session cleared — retry to re-login.").

(** The [if (!response.ok())] block shared, up to the verb in the message,
    by [apiGet] and [apiPatch]. *)
Definition rejectResponse (what : string) (response : response) : M value :=
  let status := resp_status response in
  let body := match resp_text response with Ok b => b | Throw _ => "" end in
  if (status =? 401)%Z || (status =? 403)%Z then
    cleanupSessionFiles ;;
    throw (authentication_failed status)
  else
    throw (Error (what ++ " failed: " ++ string_of_Z status ++ " "
                  ++ resp_statusText response ++ " — " ++ substring0 500 body)).

(** The URL [apiGet] requests (lines 461-465). *)
Definition getUrl (path : string) (params : option (list (string * string))) : string :=
  ZAPIER_BASE ++ path ++
  match params with
  | Some ps => "?" ++ search_params ps
  | None => ""
  end.

Definition apiGet (path : string) (params : option (list (string * string))) : M value :=
  ensureLoggedIn ;;
  let url := getUrl path params in
  the_page "request" ;;
  response <- await (RequestGet url) ;;
  if negb (ok response) then rejectResponse "API request" response
  else lift (resp_json response).

Definition apiPatch (path : string) (data : value) : M value :=
  ensureLoggedIn ;;
  the_page "request" ;;
  response <- await (RequestPatch (ZAPIER_BASE ++ path) data) ;;
  if negb (ok response) then rejectResponse "API PATCH" response
  else lift (resp_json response).

(** *** Result normalizer *)

(** [data.objects || data.results || data.data || (Array.isArray(data) ? data : dflt)] *)
Definition item_list (data dflt : value) : result value :=
  objects <~ get data "objects" ;;
  results <~ get data "results" ;;
  data' <~ get data "data" ;;
  Ok (objects ||| results ||| data' ||| (if isArray data then data else dflt)).

(** [v.map(f)]; [what] is the text of the receiver in the error message. *)
Definition js_map {B} (what : string) (f : value -> result B) (v : value) : result (list B) :=
  match v with
  | VArr l => mapR f l
  | _ => Throw (TypeError (what ++ ".map is not a function"))
  end.

(** The callback of lines 539-546, repeated verbatim at lines 591-598. *)
Definition zapInfo (z : value) : result ZapInfo.t :=
  id <~ get z "id" ;;
  id_string <~ js_String id ;;
  title <~ get z "title" ;;
  name <~ get z "name" ;;
  status <~ get z "status" ;;
  state <~ get z "state" ;;
  last_successful_run_date <~ get z "last_successful_run_date" ;;
  last_run_at <~ get z "last_run_at" ;;
  updated_at <~ get z "updated_at" ;;
  step_count <~ get z "step_count" ;;
  steps <~ get z "steps" ;;
  Ok {| ZapInfo.id := id_string;
        ZapInfo.title := title ||| name ||| VStr "Untitled";
        ZapInfo.status := status ||| state ||| VStr "unknown";
        ZapInfo.lastRun := last_successful_run_date ||| last_run_at ||| updated_at;
        ZapInfo.stepCount := step_count ||| opt_get steps "length";
        ZapInfo.updatedAt := updated_at |}.

(** The callback of lines 616-624, repeated verbatim at lines 675-683. *)
Definition zapRun (r : value) : result ZapRun.t :=
  id <~ get r "id" ;;
  id_string <~ js_String id ;;
  zap <~ get r "zap" ;;
  zap_id <~ get r "zap_id" ;;
  zapId_string <~ js_String (opt_get zap "id" ||| zap_id ||| VStr "") ;;
  zap_title <~ get r "zap_title" ;;
  status <~ get r "status" ;;
  start_time <~ get r "start_time" ;;
  started_at <~ get r "started_at" ;;
  created_at <~ get r "created_at" ;;
  end_time <~ get r "end_time" ;;
  finished_at <~ get r "finished_at" ;;
  error_message <~ get r "error_message" ;;
  error <~ get r "error" ;;
  Ok {| ZapRun.id := id_string;
        ZapRun.zapId := zapId_string;
        ZapRun.zapTitle := opt_get zap "title" ||| zap_title ||| VStr "";
        ZapRun.status := status ||| VStr "unknown";
        ZapRun.startedAt := start_time ||| started_at ||| created_at ||| VStr "";
        ZapRun.finishedAt := end_time ||| finished_at;
        ZapRun.errorMessage := error_message ||| opt_get error "message" |}.

(** The callback of lines 694-701, repeated verbatim at lines 778-785. *)
Definition stepInfo (s : value) : result Step.t :=
  title <~ get s "title" ;;
  action_type <~ get s "action_type" ;;
  name <~ get s "name" ;;
  app <~ get s "app" ;;
  selected_api <~ get s "selected_api" ;;
  status <~ get s "status" ;;
  error_message <~ get s "error_message" ;;
  error <~ get s "error" ;;
  input_data <~ get s "input_data" ;;
  input <~ get s "input" ;;
  output_data <~ get s "output_data" ;;
  output <~ get s "output" ;;
  Ok {| Step.name := title ||| action_type ||| name ||| VStr "Unknown step";
        Step.app := app ||| selected_api ||| VStr "";
        Step.status := status ||| VStr "unknown";
        Step.errorMessage := error_message ||| opt_get error "message";
        Step.inputData := input_data ||| input;
        Step.outputData := output_data ||| output |}.

(** Lines 694-711, repeated verbatim at lines 778-795. *)
Definition runDetail (data : value) : result ZapRunDetail.t :=
  steps_field <~ get data "steps" ;;
  action_log <~ get data "action_log" ;;
  steps <~ js_map "(data.steps || data.action_log || [])" stepInfo
             (steps_field ||| action_log ||| VArr []) ;;
  id <~ get data "id" ;;
  id_string <~ js_String id ;;
  zap <~ get data "zap" ;;
  zap_id <~ get data "zap_id" ;;
  zapId_string <~ js_String (opt_get zap "id" ||| zap_id ||| VStr "") ;;
  zap_title <~ get data "zap_title" ;;
  status <~ get data "status" ;;
  start_time <~ get data "start_time" ;;
  started_at <~ get data "started_at" ;;
  end_time <~ get data "end_time" ;;
  finished_at <~ get data "finished_at" ;;
  Ok {| ZapRunDetail.id := id_string;
        ZapRunDetail.zapId := zapId_string;
        ZapRunDetail.zapTitle := opt_get zap "title" ||| zap_title ||| VStr "";
        ZapRunDetail.status := status ||| VStr "unknown";
        ZapRunDetail.startedAt := start_time ||| started_at ||| VStr "";
        ZapRunDetail.finishedAt := end_time ||| finished_at;
        ZapRunDetail.steps := steps |}.

(** *** Page interception *)

(** [x > 0]: the operand is converted to a primitive, then to a number. *)
Definition js_gt0 (v : value) : result bool :=
  match v with
  | VUndefined | VNull => Ok false
  | VBool b => Ok b
  | VNum n => Ok (0 <? n)%Z
  | VStr s => Ok (string_gt0 s)
  | VArr _ | VObj _ => s <~ js_String v ;; Ok (string_gt0 s)
  end.

(** The body of a list listener once the response parsed: the item list the
    promise is resolved with, if it is resolved. *)
Definition interceptedList (json : value) : result (option value) :=
  items <~ item_list json VNull ;;
  if truthy items then
    len <~ get items "length" ;;
    positive <~ js_gt0 len ;;
    Ok (if positive then Some items else None)
  else Ok None.

(** A listener as a function of the response: what it resolves the promise
    with, if anything.  An exception inside the listener's [try] block
    (not JSON, or a conversion failure) skips the response. *)
Definition listener (urlMatches : string -> bool) (body : value -> result (option value))
    (r : response) : option value :=
  if urlMatches (resp_url r) && (resp_status r =? 200)%Z then
    match (json <~ resp_json r ;; body json) with
    | Ok resolved => resolved
    | Throw _ => None
    end
  else None.

Definition zapsListener : response -> option value :=
  listener (fun url => includes url "/zap" && includes url "api") interceptedList.

Definition runsListener : response -> option value :=
  listener (fun url => (includes url "run" || includes url "history") && includes url "api")
           interceptedList.

Definition detailListener (runId : string) : response -> option value :=
  listener (fun url => includes url runId)
           (fun json =>
              id <~ get json "id" ;;
              status <~ get json "status" ;;
              Ok (if truthy (id ||| status) then Some json else None)).

(** A promise is resolved once: by the first response its listener accepts. *)
Fixpoint firstResolved (l : response -> option value) (rs : list response) : option value :=
  match rs with
  | [] => None
  | r :: rest =>
      match l r with
      | Some v => Some v
      | None => firstResolved l rest
      end
  end.

(** [await promise]: the world reports the responses the listener handled,
    in the order it handled them, before the 15-second timer fired. *)
Definition awaitIntercepted (l : response -> option value) : M (option value) :=
  rs <- perform (Responses 15000) ;;
  ret (firstResolved l rs).

(** *** Read operations (lines 532-796) *)

(** [apiError.message.includes("404") || apiError.message.includes("Not Found")] *)
Definition notFound (apiError : exn) : bool :=
  includes (message apiError) "404" || includes (message apiError) "Not Found".

Definition listZapsFromPage : M (list ZapInfo.t) :=
  ensureLoggedIn ;;
  the_page "on" ;;
  await (Goto ZAPIER_ZAPS_URL 30000) ;;
  await (WaitForTimeout 5000) ;;
  resolved <- awaitIntercepted zapsListener ;;
  let zaps := match resolved with Some v => v | None => VArr [] end in
  lift (js_map "zaps" zapInfo zaps).

Definition listZaps : M (list ZapInfo.t) :=
  try_catch
    (data <- apiGet API.zaps None ;;
     lift (zaps <~ item_list data (VArr []) ;;
           js_map "zaps" zapInfo zaps))
    (fun apiError =>
       if notFound apiError then listZapsFromPage else throw apiError).

(** [runs.slice(0, limit)]: a negative [limit] counts from the end. *)
Definition slice0 {A} (limit : Z) (l : list A) : list A :=
  let len := Z.of_nat (List.length l) in
  let stop := if (limit <? 0)%Z then Z.max (len + limit) 0 else Z.min limit len in
  firstn (Z.to_nat stop) l.

Definition js_slice0 (what : string) (limit : Z) (v : value) : result value :=
  match v with
  | VArr l => Ok (VArr (slice0 limit l))
  | VStr s => Ok (VStr (substring0 (List.length (slice0 limit (list_ascii_of_string s))) s))
  | _ => Throw (TypeError (what ++ ".slice is not a function"))
  end.

(** [options?.limit || 25] *)
Definition effectiveLimit (options : history_options) : Z :=
  match opt_limit options with
  | Some n => if (n =? 0)%Z then 25%Z else n
  | None => 25%Z
  end.

Definition truthyString (o : option string) : option string :=
  match o with
  | Some s => if s =? "" then None else Some s
  | None => None
  end.

(** The page [viewHistoryFromPage] opens (lines 665-666). *)
Definition historyPageUrl (options : history_options) : string :=
  ZAPIER_HISTORY_URL ++
  match truthyString (opt_zapId options) with
  | Some zapId => "?zap=" ++ zapId
  | None => ""
  end.

Definition viewHistoryFromPage (options : history_options) : M (list ZapRun.t) :=
  ensureLoggedIn ;;
  the_page "on" ;;
  let url := historyPageUrl options in
  await (Goto url 30000) ;;
  await (WaitForTimeout 5000) ;;
  resolved <- awaitIntercepted runsListener ;;
  let runs := match resolved with Some v => v | None => VArr [] end in
  let limit := effectiveLimit options in
  lift (sliced <~ js_slice0 "runs" limit runs ;;
        js_map "runs.slice(...)" zapRun sliced).

(** The query parameters of lines 608-610. *)
Definition historyParams (options : history_options) : list (string * string) :=
  match truthyString (opt_zapId options) with
  | Some zapId => [("zap", zapId)]
  | None => []
  end ++
  match opt_limit options with
  | Some n => if (n =? 0)%Z then [] else [("limit", string_of_Z n)]
  | None => []
  end.

Definition viewHistory (options : history_options) : M (list ZapRun.t) :=
  let params := historyParams options in
  try_catch
    (data <- apiGet API.zapRuns (Some params) ;;
     lift (runs <~ item_list data (VArr []) ;;
           js_map "runs" zapRun runs))
    (fun apiError =>
       if notFound apiError then viewHistoryFromPage options else throw apiError).

(** The last resort of [viewErrorFromPage]: the page text as a single step. *)
Definition pageContentDetail (runId text : string) : ZapRunDetail.t :=
  {| ZapRunDetail.id := runId;
     ZapRunDetail.zapId := "";
     ZapRunDetail.zapTitle := VStr "";
     ZapRunDetail.status := VStr "unknown";
     ZapRunDetail.startedAt := VStr "";
     ZapRunDetail.finishedAt := VUndefined;
     ZapRunDetail.steps :=
       [ {| Step.name := VStr "Page content";
            Step.app := VStr "";
            Step.status := VStr "error";
            Step.errorMessage := VStr (substring0 2000 text);
            Step.inputData := VUndefined;
            Step.outputData := VUndefined |} ] |}.

Definition viewErrorFromPage (runId : string) : M ZapRunDetail.t :=
  ensureLoggedIn ;;
  the_page "on" ;;
  await (Goto (ZAPIER_BASE ++ "/app/history/run/" ++ runId) 30000) ;;
  await (WaitForTimeout 5000) ;;
  data <- awaitIntercepted (detailListener runId) ;;
  match data with
  | None =>
      shot "zapier-error-detail-" ;;
      content <- perform (TextContent "body") ;;
      let text := match content with
                  | Ok (Some c) => c
                  | Ok None | Throw _ => ""
                  end in
      ret (pageContentDetail runId text)
  | Some data => lift (runDetail data)
  end.

Definition viewError (runId : string) : M ZapRunDetail.t :=
  try_catch
    (data <- apiGet (API.zapRunDetail runId) None ;;
     lift (runDetail data))
    (fun apiError =>
       if notFound apiError then viewErrorFromPage runId else throw apiError).

(** *** Mutating operations (lines 808-979) *)

(** The secondary confirmation dialog: confirmed when its button is there
    and visible. *)
Definition confirmDialog (selector : string) : M unit :=
  confirmBtn <- await (Query selector) ;;
  match confirmBtn with
  | Some b =>
      visible <- await (IsVisible b) ;;
      when visible (await (Click b) ;; await (WaitForTimeout 2000))
  | None => ret tt
  end.

Definition replayConfirmSelector : string :=
  "button:has-text(" ++ q "Confirm" ++ "), button:has-text(" ++ q "Yes"
  ++ "), button:has-text(" ++ q "OK" ++ ")".

Definition toggleConfirmSelector : string :=
  "button:has-text(" ++ q "Turn off" ++ "), button:has-text(" ++ q "Confirm"
  ++ "), button:has-text(" ++ q "Yes" ++ ")".

Definition replaySelectors : list string :=
  [ "button:has-text(" ++ q "Replay" ++ ")";
    "button:has-text(" ++ q "Re-run" ++ ")";
    "button:has-text(" ++ q "Retry" ++ ")";
    "[data-testid*=" ++ q "replay" ++ "]";
    "a:has-text(" ++ q "Replay" ++ ")" ].

(** Lines 841-851: click the first candidate that is present and visible. *)
Fixpoint clickReplay (selectors : list string) : M bool :=
  match selectors with
  | [] => ret false
  | selector :: rest =>
      clicked <- try_catch
                   (btn <- await (Query selector) ;;
                    match btn with
                    | Some b =>
                        visible <- await (IsVisible b) ;;
                        if visible then await (Click b) ;; ret true else ret false
                    | None => ret false
                    end)
                   (fun _ => ret false) ;;
      if clicked then ret true else clickReplay rest
  end.

(** Lines 811-822: the API attempt; [None] when it falls through to the UI. *)
Definition replayViaApi (runId : string) : M (option OpResult.t) :=
  try_catch
    (the_page "request" ;;
     response <- await (RequestPost (ZAPIER_BASE ++ API.zapRunDetail runId ++ "/replay")) ;;
     if ok response then
       ret (Some {| OpResult.success := true;
                    OpResult.message := "Run " ++ runId ++ " replayed successfully via API.";
                    OpResult.screenshot := None |})
     else ret None)
    (fun _ => ret None).

(** Lines 825-851: navigate to the run and look for the Replay control. *)
Definition replayLocate (runId : string) : M bool :=
  the_page "goto" ;;
  await (Goto (ZAPIER_BASE ++ "/app/history/run/" ++ runId) 30000) ;;
  await (WaitForTimeout 3000) ;;
  clickReplay replaySelectors.

(** Lines 853-879. *)
Definition replayReport (runId : string) (clicked : bool) : M OpResult.t :=
  await (WaitForTimeout 3000) ;;
  screenshot <- shot "zapier-replay-" ;;
  if negb clicked then
    ret {| OpResult.success := false;
           OpResult.message := "Could not find Replay button for run " ++ runId
                               ++ ". See screenshot.";
           OpResult.screenshot := Some screenshot |}
  else
    confirmDialog replayConfirmSelector ;;
    confirmScreenshot <- shot "zapier-replay-confirm-" ;;
    ret {| OpResult.success := true;
           OpResult.message := "Run " ++ runId ++ " replay initiated via UI.";
           OpResult.screenshot := Some confirmScreenshot |}.

Definition replayViaUi (runId : string) : M OpResult.t :=
  clicked <- replayLocate runId ;;
  replayReport runId clicked.

Definition replayRun (runId : string) : M OpResult.t :=
  ensureLoggedIn ;;
  viaApi <- replayViaApi runId ;;
  match viaApi with
  | Some done => ret done
  | None => replayViaUi runId
  end.

Definition enabledWord (enable : bool) : string :=
  if enable then "enabled" else "disabled".

(** The body of the PATCH request: [{ status: enable ? "on" : "off" }]. *)
Definition toggleData (enable : bool) : value :=
  VObj [("status", VStr (if enable then "on" else "off"))].

(** Lines 894-905: the API attempt; [None] when it falls through to the UI. *)
Definition toggleViaApi (zapId : string) (enable : bool) : M (option OpResult.t) :=
  try_catch
    (apiPatch (API.toggleZap zapId) (toggleData enable) ;;
     ret (Some {| OpResult.success := true;
                  OpResult.message := "Zap " ++ zapId ++ " " ++ enabledWord enable ++ " via API.";
                  OpResult.screenshot := None |}))
    (fun _ => ret None).

Definition toggleSelectors (zapId : string) : list string :=
  [ "[data-zap-id=" ++ q zapId ++ "] input[type=" ++ q "checkbox" ++ "]";
    "[data-zap-id=" ++ q zapId ++ "] [role=" ++ q "switch" ++ "]";
    "[data-zap-id=" ++ q zapId ++ "] button[aria-label*=" ++ q "toggle" ++ " i]" ].

(** Lines 923-933: click the first candidate that is present. *)
Fixpoint clickToggle (selectors : list string) : M bool :=
  match selectors with
  | [] => ret false
  | selector :: rest =>
      toggled <- try_catch
                   (toggle <- await (Query selector) ;;
                    match toggle with
                    | Some t => await (Click t) ;; ret true
                    | None => ret false
                    end)
                   (fun _ => ret false) ;;
      if toggled then ret true else clickToggle rest
  end.

(** Lines 908-950: navigate to the Zap list and look for the toggle, by
    selector first, then by the content of the rows. *)
Definition toggleLocate (zapId : string) : M bool :=
  the_page "goto" ;;
  await (Goto ZAPIER_ZAPS_URL 30000) ;;
  await (WaitForTimeout 5000) ;;
  toggled <- clickToggle (toggleSelectors zapId) ;;
  if negb toggled then await (EvaluateFindToggle zapId) else ret toggled.

(** Lines 952-979. *)
Definition toggleReport (zapId : string) (enable toggled : bool) : M OpResult.t :=
  await (WaitForTimeout 3000) ;;
  screenshot <- shot "zapier-toggle-" ;;
  if negb toggled then
    ret {| OpResult.success := false;
           OpResult.message := "Could not find toggle for Zap " ++ zapId ++ ". See screenshot.";
           OpResult.screenshot := Some screenshot |}
  else
    confirmDialog toggleConfirmSelector ;;
    confirmScreenshot <- shot "zapier-toggle-confirm-" ;;
    ret {| OpResult.success := true;
           OpResult.message := "Zap " ++ zapId ++ " " ++ enabledWord enable ++ " via UI.";
           OpResult.screenshot := Some confirmScreenshot |}.

Definition toggleViaUi (zapId : string) (enable : bool) : M OpResult.t :=
  toggled <- toggleLocate zapId ;;
  toggleReport zapId enable toggled.

Definition toggleZap (zapId : string) (enable : bool) : M OpResult.t :=
  ensureLoggedIn ;;
  viaApi <- toggleViaApi zapId enable ;;
  match viaApi with
  | Some done => ret done
  | None => toggleViaUi zapId enable
  end.

End Browser.

Arguments state W : clear implicits.
Arguments M W A : clear implicits.

Notation "x <- m ;; k" := (bind m (fun x => k))
  (at level 100, m at next level, right associativity) : client_scope.
Notation "m ;; k" := (bind m (fun _ => k))
  (at level 100, right associativity) : client_scope.

(* ===================================================================== *)
(** * The vocabulary of the properties                                    *)
(* ===================================================================== *)

(** ** What a run leaves in place

    No modelled operation changes the configuration or the debug flag,
    drops the page, or rewrites the trace: a run only extends the trace. *)

Definition steady {W} (s s' : state W) : Prop :=
  config_zapier s' = config_zapier s
  /\ debug s' = debug s
  /\ (page s = true -> page s' = true)
  /\ exists more, trace s' = (trace s ++ more)%list.

Definition keeps {W A} (m : M W A) : Prop :=
  forall s r s', m s = (r, s') -> steady s s'.

(** ** Zap status *)

(** The four lifecycle values of a Zap Summary. *)
Definition lifecycle (v : value) : Prop :=
  v = VStr "on" \/ v = VStr "off" \/ v = VStr "draft" \/ v = VStr "error".

(** The status rule of [zapInfo]: the first truthy of [status] and
    [state], else the sentinel. *)
Definition status_rule (z : value) (info : ZapInfo.t) : Prop :=
  exists status state,
    get z "status" = Ok status /\ get z "state" = Ok state
    /\ (truthy status = true -> ZapInfo.status info = status)
    /\ (truthy status = false -> truthy state = true -> ZapInfo.status info = state)
    /\ (truthy status = false -> truthy state = false ->
        ZapInfo.status info = VStr "unknown").

(** ** Numeric identifiers *)

(** The integers a double holds exactly ([Number.isSafeInteger]): a JSON
    number in this range is read as it is written, and [String(..)] prints
    its decimal digits. *)
Definition safe_integer (n : Z) : Prop := (Z.abs n < 2 ^ 53)%Z.

(** ** Field-name synonyms *)

(** The normalizers and what they produce. *)
Inductive normalizer := ZapSummary | RunRecord | StepRecord | RunDetail.

Inductive record :=
| RZap (info : ZapInfo.t)
| RRun (run : ZapRun.t)
| RStep (step : Step.t)
| RDetail (detail : ZapRunDetail.t).

Definition rmap {A B} (f : A -> B) (r : result A) : result B :=
  match r with Ok a => Ok (f a) | Throw e => Throw e end.

Definition normalize (n : normalizer) (item : value) : result record :=
  match n with
  | ZapSummary => rmap RZap (zapInfo item)
  | RunRecord => rmap RRun (zapRun item)
  | StepRecord => rmap RStep (stepInfo item)
  | RunDetail => rmap RDetail (runDetail item)
  end.

(** A vendor field: a name, or a path through nested objects
    ([zap.id], [error.message]). *)
Definition field := list string.

(** The groups of fields each normalizer reads as one logical attribute,
    in the order of its [||] chain. *)
Definition synonyms (n : normalizer) : list (list field) :=
  match n with
  | ZapSummary =>
      [ [["title"]; ["name"]];
        [["status"]; ["state"]];
        [["last_successful_run_date"]; ["last_run_at"]] ]
  | RunRecord =>
      [ [["zap"; "id"]; ["zap_id"]];
        [["zap"; "title"]; ["zap_title"]];
        [["start_time"]; ["started_at"]; ["created_at"]];
        [["end_time"]; ["finished_at"]];
        [["error_message"]; ["error"; "message"]] ]
  | StepRecord =>
      [ [["title"]; ["action_type"]; ["name"]];
        [["app"]; ["selected_api"]];
        [["error_message"]; ["error"; "message"]];
        [["input_data"]; ["input"]];
        [["output_data"]; ["output"]] ]
  | RunDetail =>
      [ [["steps"]; ["action_log"]];
        [["zap"; "id"]; ["zap_id"]];
        [["zap"; "title"]; ["zap_title"]];
        [["start_time"]; ["started_at"]];
        [["end_time"]; ["finished_at"]] ]
  end.

(** The fields [lastRun] is read from; the last one is also the source of
    [updatedAt]. *)
Definition lastRun_fields : list field :=
  [["last_successful_run_date"]; ["last_run_at"]; ["updated_at"]].

(** [read f item] is [item?.k1?.k2...] for the path [f]. *)
Fixpoint read (f : field) (item : value) : value :=
  match f with
  | [] => item
  | k :: rest => read rest (opt_get item k)
  end.

Fixpoint field_eqb (f g : field) : bool :=
  match f, g with
  | [], [] => true
  | k :: f', k' :: g' => (k =? k') && field_eqb f' g'
  | _, _ => false
  end.

Definition in_group (f : field) (group : list field) : bool :=
  existsb (field_eqb f) group.

(** Every field a normalizer reads from an item. *)
Definition reads (n : normalizer) : list field :=
  match n with
  | ZapSummary =>
      [ ["id"]; ["title"]; ["name"]; ["status"]; ["state"];
        ["last_successful_run_date"]; ["last_run_at"]; ["updated_at"];
        ["step_count"]; ["steps"; "length"] ]
  | RunRecord =>
      [ ["id"]; ["zap"; "id"]; ["zap_id"]; ["zap"; "title"]; ["zap_title"]; ["status"];
        ["start_time"]; ["started_at"]; ["created_at"]; ["end_time"]; ["finished_at"];
        ["error_message"]; ["error"; "message"] ]
  | StepRecord =>
      [ ["title"]; ["action_type"]; ["name"]; ["app"]; ["selected_api"]; ["status"];
        ["error_message"]; ["error"; "message"]; ["input_data"]; ["input"];
        ["output_data"]; ["output"] ]
  | RunDetail =>
      [ ["steps"]; ["action_log"]; ["id"]; ["zap"; "id"]; ["zap_id"]; ["zap"; "title"];
        ["zap_title"]; ["status"]; ["start_time"]; ["started_at"]; ["end_time"];
        ["finished_at"] ]
  end.

(** [item] carries [v] under the field [f] of the group, and nothing
    truthy under the other fields of the group. *)
Fixpoint carries (group : list field) (f : field) (v : value) (item : value) : Prop :=
  match group with
  | [] => True
  | g :: rest =>
      (if field_eqb g f then read g item = v else truthy (read g item) = false)
      /\ carries rest f v item
  end.

(** The two items read alike under every field of [fs] outside the group. *)
Fixpoint agree (fs : list field) (group : list field) (item1 item2 : value) : Prop :=
  match fs with
  | [] => True
  | f :: rest =>
      (if in_group f group then True else read f item1 = read f item2)
      /\ agree rest group item1 item2
  end.

(* ===================================================================== *)
(** * A scripted environment                                              *)
(* ===================================================================== *)

(** A world whose answers are fixed by a script; its only state is the
    millisecond clock, which each reading of the time advances. *)
Module Sim.

Record script :=
  { on_get : string -> result response;
    on_patch : string -> value -> result response;
    on_post : string -> result response;
    on_query : string -> result (option handle);
    on_wait : string -> result (option handle);
    on_visible : handle -> result bool;
    on_find_toggle : result bool;
    on_goto : string -> result unit;
    on_logged_in : result unit;
    on_cdp : result cdp_shape;
    ws_endpoint : option string;
    body_text : result (option string);
    intercepted : list response }.

Definition respond (sc : script) (T : Type) (e : browserE T) (clock : Z) : T * Z :=
  match e in browserE T return T * Z with
  | ConnectOverCDP _ => (on_cdp sc, clock)
  | Launch _ => (Ok tt, clock)
  | NewContext _ => (Ok tt, clock)
  | NewPage => (Ok tt, clock)
  | WsEndpoint => (ws_endpoint sc, clock)
  | StorageState => (Ok "cookies", clock)
  | DateNow => (clock, (clock + 1)%Z)
  | DateISO => ("2024-01-01T00:00:00.000Z", clock)
  | Goto url _ => (on_goto sc url, clock)
  | WaitForTimeout _ => (Ok tt, clock)
  | Screenshot _ => (Ok tt, clock)
  | WaitForSelector selector _ => (on_wait sc selector, clock)
  | Query selector => (on_query sc selector, clock)
  | Click _ => (Ok tt, clock)
  | Fill _ _ => (Ok tt, clock)
  | Press _ _ => (Ok tt, clock)
  | IsVisible h => (on_visible sc h, clock)
  | WaitForLoggedInURL _ => (on_logged_in sc, clock)
  | PageUrl => (ZAPIER_LOGIN_URL, clock)
  | TextContent _ => (body_text sc, clock)
  | EvaluateFindToggle _ => (on_find_toggle sc, clock)
  | RequestGet url => (on_get sc url, clock)
  | RequestPatch url data => (on_patch sc url data, clock)
  | RequestPost url => (on_post sc url, clock)
  | Responses _ => (intercepted sc, clock)
  end.

(** String-to-number for the strings of decimal digits. *)
Fixpoint digits_gt0 (s : string) : bool :=
  match s with
  | EmptyString => false
  | String c rest =>
      let n := nat_of_ascii c in
      if (n =? 48)%nat then digits_gt0 rest
      else (49 <=? n)%nat && (n <=? 57)%nat
           && forallb (fun d => (48 <=? nat_of_ascii d)%nat && (nat_of_ascii d <=? 57)%nat)
                      (list_ascii_of_string rest)
  end.

Definition reply (status : Z) (statusText : string) (body : result value) : response :=
  {| resp_url := ""; resp_status := status; resp_statusText := statusText;
     resp_text := Ok ""; resp_json := body |}.

Definition reply_at (url : string) (body : value) : response :=
  {| resp_url := url; resp_status := 200; resp_statusText := "OK";
     resp_text := Ok ""; resp_json := Ok body |}.

Definition not_json : result value :=
  Throw (Error "Unexpected end of JSON input").

(** A quiet page: the session probe succeeds, every other endpoint is
    absent, no control is on the page and nothing is intercepted. *)
Definition quiet : script :=
  {| on_get := fun url => if url =? ZAPIER_BASE ++ API.me
                          then Ok (reply 200 "OK" (Ok (VObj [])))
                          else Ok (reply 404 "Not Found" not_json);
     on_patch := fun _ _ => Ok (reply 404 "Not Found" not_json);
     on_post := fun _ => Ok (reply 404 "Not Found" not_json);
     on_query := fun _ => Ok None;
     on_wait := fun _ => Throw (Error "Timeout 8000ms exceeded.");
     on_visible := fun _ => Ok true;
     on_find_toggle := Ok false;
     on_goto := fun _ => Ok tt;
     on_logged_in := Throw (Error "Timeout 60000ms exceeded.");
     on_cdp := Throw (Error "connect ECONNREFUSED");
     ws_endpoint := None;
     body_text := Ok (Some "");
     intercepted := [] |}.

(** A client that already holds a page, with both session files present. *)
Definition warm (zapier : value) : state Z :=
  {| config_zapier := zapier; debug := false;
     browser := true; context := true; page := true;
     files := {| cdp_session := Some (Some (VObj [("wsEndpoint", VStr "ws://127.0.0.1:9222")]));
                 storage_state := Some "cookies" |};
     world := 1700000000000%Z; trace := [] |}.

(** A freshly constructed client: no browser, no session files. *)
Definition cold (zapier : value) : state Z :=
  {| config_zapier := zapier; debug := false;
     browser := false; context := false; page := false;
     files := no_files;
     world := 1700000000000%Z; trace := [] |}.

Definition credentials : value :=
  VObj [("email", VStr "ops@example.com"); ("password", VStr "hunter2")].

(** Variations of a script. *)

Definition serving (url : string) (r : response) (sc : script) : script :=
  {| on_get := fun u => if u =? url then Ok r else on_get sc u;
     on_patch := on_patch sc; on_post := on_post sc; on_query := on_query sc;
     on_wait := on_wait sc; on_visible := on_visible sc;
     on_find_toggle := on_find_toggle sc; on_goto := on_goto sc;
     on_logged_in := on_logged_in sc; on_cdp := on_cdp sc;
     ws_endpoint := ws_endpoint sc; body_text := body_text sc;
     intercepted := intercepted sc |}.

Definition patching (r : response) (sc : script) : script :=
  {| on_get := on_get sc;
     on_patch := fun _ _ => Ok r; on_post := on_post sc; on_query := on_query sc;
     on_wait := on_wait sc; on_visible := on_visible sc;
     on_find_toggle := on_find_toggle sc; on_goto := on_goto sc;
     on_logged_in := on_logged_in sc; on_cdp := on_cdp sc;
     ws_endpoint := ws_endpoint sc; body_text := body_text sc;
     intercepted := intercepted sc |}.

Definition posting (r : response) (sc : script) : script :=
  {| on_get := on_get sc;
     on_patch := on_patch sc; on_post := fun _ => Ok r; on_query := on_query sc;
     on_wait := on_wait sc; on_visible := on_visible sc;
     on_find_toggle := on_find_toggle sc; on_goto := on_goto sc;
     on_logged_in := on_logged_in sc; on_cdp := on_cdp sc;
     ws_endpoint := ws_endpoint sc; body_text := body_text sc;
     intercepted := intercepted sc |}.

Definition showing (selector : string) (h : handle) (sc : script) : script :=
  {| on_get := on_get sc;
     on_patch := on_patch sc; on_post := on_post sc;
     on_query := fun sel => if sel =? selector then Ok (Some h) else on_query sc sel;
     on_wait := on_wait sc; on_visible := on_visible sc;
     on_find_toggle := on_find_toggle sc; on_goto := on_goto sc;
     on_logged_in := on_logged_in sc; on_cdp := on_cdp sc;
     ws_endpoint := ws_endpoint sc; body_text := body_text sc;
     intercepted := intercepted sc |}.

Definition intercepting (rs : list response) (sc : script) : script :=
  {| on_get := on_get sc;
     on_patch := on_patch sc; on_post := on_post sc; on_query := on_query sc;
     on_wait := on_wait sc; on_visible := on_visible sc;
     on_find_toggle := on_find_toggle sc; on_goto := on_goto sc;
     on_logged_in := on_logged_in sc; on_cdp := on_cdp sc;
     ws_endpoint := ws_endpoint sc; body_text := body_text sc;
     intercepted := rs |}.

(** The state [ensureLoggedIn] leaves when the client holds a page and the
    probe goes through: one request more in the trace. *)
Definition probed (st : state Z) : state Z :=
  answered st (Ev (RequestGet (ZAPIER_BASE ++ API.me))) (world st).

(** The state [ensureBrowser] leaves when it launches a browser that
    exposes no CDP endpoint. *)
Definition launched (st : state Z) : state Z :=
  {| config_zapier := config_zapier st; debug := debug st;
     browser := true; context := true; page := true;
     files := files st; world := world st;
     trace := trace st ++ [ Ev (Launch (negb (debug st)));
                            Ev (NewContext (storage_state (files st)));
                            Ev NewPage; Ev WsEndpoint ] |}.

(** Sample payloads. *)

Definition three_runs : list value :=
  [ VObj [("id", VNum 1); ("zap_id", VNum 7); ("status", VStr "success")];
    VObj [("id", VNum 2); ("zap_id", VNum 7); ("status", VStr "error")];
    VObj [("id", VNum 3); ("zap_id", VNum 7); ("status", VStr "success")] ].

Definition paused_zap : value :=
  VObj [("id", VNum 1); ("title", VStr "Leads to CRM"); ("status", VStr "paused")].

Definition scenario_history_options : history_options :=
  {| opt_zapId := Some "123"; opt_limit := Some 10%Z |}.

Definition scenario_history_payload : value :=
  VObj [("objects",
         VArr [VObj [("id", VNum 9); ("zap_id", VStr "123"); ("status", VStr "error");
                     ("start_time", VStr "2024-01-01T00:00:00Z")]])].

(** The scripts of the sample runs. *)

(** The Zap list holds a paused Zap: on the primary path ... *)
Definition paused_primary : script :=
  serving (ZAPIER_BASE ++ API.zaps)
          (reply 200 "OK" (Ok (VObj [("objects", VArr [paused_zap])]))) quiet.

(** ... and in the traffic of the Zaps page, the API endpoint being absent. *)
Definition paused_fallback : script :=
  intercepting [reply_at "https://zapier.com/api/v4/zaps?page=1"
                         (VObj [("results", VArr [paused_zap])])] quiet.

(** The session cookie is accepted by the probe and refused by every
    endpoint of the API. *)
Definition expired : script :=
  serving (ZAPIER_BASE ++ API.zaps) (reply 401 "Unauthorized" not_json)
    (patching (reply 401 "Unauthorized" not_json)
       (posting (reply 401 "Unauthorized" not_json) quiet)).

(** The probe itself is refused: there is no session. *)
Definition no_session : script :=
  serving (ZAPIER_BASE ++ API.me) (reply 401 "Unauthorized" not_json) quiet.

Definition history_scenario : script :=
  serving "https://zapier.com/api/v4/zap-runs?zap=123&limit=10"
          (reply 200 "OK" (Ok scenario_history_payload)) quiet.

(** The PATCH endpoint fails and the Zaps page shows a switch for Zap 55. *)
Definition toggle_in_ui : script :=
  patching (reply 500 "Internal Server Error" not_json)
    (showing ("[data-zap-id=" ++ q "55" ++ "] [role=" ++ q "switch" ++ "]") 4 quiet).

(** Traffic none of which a list listener accepts: an empty list from the
    API, and a stylesheet. *)
Definition nothing_accepted : script :=
  intercepting
    [ reply_at "https://zapier.com/api/v4/zaps" (VObj [("objects", VArr [])]);
      {| resp_url := "https://zapier.com/static/app.css"; resp_status := 200;
         resp_statusText := "OK"; resp_text := Ok "body{}"; resp_json := not_json |} ]
    quiet.

(** Three runs, served by the API for [limit=2] and seen in the traffic of
    the history page. *)
Definition three_runs_served : script :=
  serving "https://zapier.com/api/v4/zap-runs?limit=2"
          (reply 200 "OK" (Ok (VObj [("results", VArr three_runs)])))
    (intercepting [reply_at "https://zapier.com/api/v4/zap-runs" (VArr three_runs)] quiet).

(** Three runs in the traffic of the history page, the API endpoint being
    absent. *)
Definition three_runs_intercepted : script :=
  intercepting [reply_at "https://zapier.com/api/v4/zap-runs" (VArr three_runs)] quiet.

Definition limit_two : history_options := {| opt_zapId := None; opt_limit := Some 2%Z |}.
Definition limit_zero : history_options := {| opt_zapId := None; opt_limit := Some 0%Z |}.

End Sim.

(* ===================================================================== *)
(** * Further operations and vocabulary                                   *)
(* ===================================================================== *)

(** ** [reset] (lines 1051-1066) *)

(** The result of [reset]. *)
Module ResetResult.
Record t := make { success : bool; message : string }.
End ResetResult.

Section Reset.

Variable W : Type.

(** [this.browser.close()], answered by the world; it is no call of
    [browserE] and leaves the trace alone. *)
Variable close : W -> result unit * W.

Local Open Scope client_scope.

Definition with_world (w : W) (s : state W) : state W :=
  {| config_zapier := config_zapier s; debug := debug s;
     browser := browser s; context := context s; page := page s;
     files := files s; world := w; trace := trace s |}.

Definition closeBrowser : M W unit :=
  fun s => let (r, w) := close (world s) in (r, with_world w s).

Definition reset : M W ResetResult.t :=
  try_catch
    (b <- gets (@browser W) ;;
     when b (closeBrowser ;;
             set_browser false ;;
             set_context false ;;
             set_page false) ;;
     @cleanupSessionFiles W ;;
     ret {| ResetResult.success := true;
            ResetResult.message := "Browser session closed and cleared." |})
    (fun error =>
       ret {| ResetResult.success := false;
              ResetResult.message := "Reset failed: " ++ message error |}).

End Reset.

(** ** Relations between the state before and after a run *)

(** A run [respects] a relation when it relates the state it starts in to
    the state it ends in, however it ends. *)
Definition respects {W A} (R : state W -> state W -> Prop) (m : M W A) : Prop :=
  forall s r s', m s = (r, s') -> R s s'.

(** The browser objects held are the same, the CDP session file is the
    same, and an authentication snapshot that existed still exists. *)
Definition calm {W} (s s' : state W) : Prop :=
  browser s' = browser s
  /\ context s' = context s
  /\ page s' = page s
  /\ cdp_session (files s') = cdp_session (files s)
  /\ (storage_state (files s) <> None -> storage_state (files s') <> None).

(** A run that, when it returns from a state holding a context, leaves an
    authentication snapshot behind. *)
Definition saves_snapshot {W A} (m : M W A) : Prop :=
  forall s a s', m s = (Ok a, s') -> context s = true ->
                 storage_state (files s') <> None.

(** ** The text of a stuck login page *)




(** The authentication snapshot is neither written nor deleted. *)
Definition same_snapshot {W} (s s' : state W) : Prop :=
  storage_state (files s') = storage_state (files s).

(** ** What is typed into the page *)

(** The text a call types into a field, if it types any. *)
Definition filled (ev : event) : option value :=
  match ev with
  | Ev e => match e with
            | Fill _ text => Some text
            | _ => None
            end
  end.

(** A run that only adds calls to the trace, and types nothing but texts
    satisfying [P]. *)
Definition types_only {W} (P : value -> Prop) (s s' : state W) : Prop :=
  exists more, trace s' = (trace s ++ more)%list
               /\ forall ev text, In ev more -> filled ev = Some text -> P text.

(** ** Further scripted environments *)

Module Cases.

(** Variations of a script. *)

Definition waiting (answer : string -> result (option handle)) (sc : Sim.script)
    : Sim.script :=
  {| Sim.on_get := Sim.on_get sc;
     Sim.on_patch := Sim.on_patch sc; Sim.on_post := Sim.on_post sc;
     Sim.on_query := Sim.on_query sc;
     Sim.on_wait := answer; Sim.on_visible := Sim.on_visible sc;
     Sim.on_find_toggle := Sim.on_find_toggle sc; Sim.on_goto := Sim.on_goto sc;
     Sim.on_logged_in := Sim.on_logged_in sc; Sim.on_cdp := Sim.on_cdp sc;
     Sim.ws_endpoint := Sim.ws_endpoint sc; Sim.body_text := Sim.body_text sc;
     Sim.intercepted := Sim.intercepted sc |}.

Definition landing (r : result unit) (sc : Sim.script) : Sim.script :=
  {| Sim.on_get := Sim.on_get sc;
     Sim.on_patch := Sim.on_patch sc; Sim.on_post := Sim.on_post sc;
     Sim.on_query := Sim.on_query sc;
     Sim.on_wait := Sim.on_wait sc; Sim.on_visible := Sim.on_visible sc;
     Sim.on_find_toggle := Sim.on_find_toggle sc; Sim.on_goto := Sim.on_goto sc;
     Sim.on_logged_in := r; Sim.on_cdp := Sim.on_cdp sc;
     Sim.ws_endpoint := Sim.ws_endpoint sc; Sim.body_text := Sim.body_text sc;
     Sim.intercepted := Sim.intercepted sc |}.

Definition reading (text : result (option string)) (sc : Sim.script) : Sim.script :=
  {| Sim.on_get := Sim.on_get sc;
     Sim.on_patch := Sim.on_patch sc; Sim.on_post := Sim.on_post sc;
     Sim.on_query := Sim.on_query sc;
     Sim.on_wait := Sim.on_wait sc; Sim.on_visible := Sim.on_visible sc;
     Sim.on_find_toggle := Sim.on_find_toggle sc; Sim.on_goto := Sim.on_goto sc;
     Sim.on_logged_in := Sim.on_logged_in sc; Sim.on_cdp := Sim.on_cdp sc;
     Sim.ws_endpoint := Sim.ws_endpoint sc; Sim.body_text := text;
     Sim.intercepted := Sim.intercepted sc |}.

Definition attaching (r : result cdp_shape) (sc : Sim.script) : Sim.script :=
  {| Sim.on_get := Sim.on_get sc;
     Sim.on_patch := Sim.on_patch sc; Sim.on_post := Sim.on_post sc;
     Sim.on_query := Sim.on_query sc;
     Sim.on_wait := Sim.on_wait sc; Sim.on_visible := Sim.on_visible sc;
     Sim.on_find_toggle := Sim.on_find_toggle sc; Sim.on_goto := Sim.on_goto sc;
     Sim.on_logged_in := Sim.on_logged_in sc; Sim.on_cdp := r;
     Sim.ws_endpoint := Sim.ws_endpoint sc; Sim.body_text := Sim.body_text sc;
     Sim.intercepted := Sim.intercepted sc |}.

Definition exposing (ws : option string) (sc : Sim.script) : Sim.script :=
  {| Sim.on_get := Sim.on_get sc;
     Sim.on_patch := Sim.on_patch sc; Sim.on_post := Sim.on_post sc;
     Sim.on_query := Sim.on_query sc;
     Sim.on_wait := Sim.on_wait sc; Sim.on_visible := Sim.on_visible sc;
     Sim.on_find_toggle := Sim.on_find_toggle sc; Sim.on_goto := Sim.on_goto sc;
     Sim.on_logged_in := Sim.on_logged_in sc; Sim.on_cdp := Sim.on_cdp sc;
     Sim.ws_endpoint := ws; Sim.body_text := Sim.body_text sc;
     Sim.intercepted := Sim.intercepted sc |}.

(** Variations of a state. *)


(** The client of a new process: the session files are there, nothing is
    held. *)
Definition restarted (st : state Z) : state Z :=
  {| config_zapier := config_zapier st; debug := debug st;
     browser := false; context := false; page := false;
     files := files st; world := world st; trace := trace st |}.

(** A rejected request with a body. *)
Definition reply_text (status : Z) (statusText body : string) : response :=
  {| resp_url := ""; resp_status := status; resp_statusText := statusText;
     resp_text := Ok body; resp_json := Sim.not_json |}.

(** The scripts of the sample runs. *)

(** There is no session, and the login page works: its fields are found
    and the login lands. *)
Definition login_page : Sim.script :=
  landing (Ok tt) (waiting (fun _ => Ok (Some 1%nat)) Sim.no_session).


(** The browser named by the CDP session file is still there. *)
Definition attached : Sim.script := attaching (Ok ContextWithPage) Sim.quiet.

(** The launched browser exposes a CDP endpoint. *)
Definition exposed : Sim.script := exposing (Some "ws://127.0.0.1:9333") Sim.quiet.

(** The Zap list endpoint answers with [null] ... *)
Definition null_payload : Sim.script :=
  Sim.serving (ZAPIER_BASE ++ API.zaps) (Sim.reply 200 "OK" (Ok VNull)) Sim.quiet.

(** ... or with a server error. *)
Definition server_error : Sim.script :=
  Sim.serving (ZAPIER_BASE ++ API.zaps)
              (reply_text 500 "Internal Server Error" "upstream timeout") Sim.quiet.

(** ... or with a server error whose body says [Not Found]. *)
Definition misleading_error : Sim.script :=
  Sim.serving (ZAPIER_BASE ++ API.zaps)
              (reply_text 500 "Internal Server Error" "Resource Not Found") Sim.quiet.


(** The replay endpoint accepts the request. *)
Definition replay_accepted : Sim.script :=
  Sim.posting (Sim.reply 202 "Accepted" Sim.not_json) Sim.quiet.

(** The run page shows a text and none of its traffic is a run detail. *)
Definition plain_page : Sim.script :=
  reading (Ok (Some "This run could not be loaded.")) Sim.quiet.

End Cases.

(* ===================================================================== *)
(** * Reasoning about runs of the client                                  *)
(* ===================================================================== *)

Section Runs.

Variable W : Type.
Variable respond : forall T, browserE T -> W -> T * W.

Local Open Scope client_scope.
Unset Implicit Arguments.

Lemma bind_ok A B (m : M W A) (k : A -> M W B) s a s1 :
  m s = (Ok a, s1) -> bind m k s = k a s1.
Proof. intros H. unfold bind. rewrite H. reflexivity. Qed.

Lemma bind_throw A B (m : M W A) (k : A -> M W B) s e s1 :
  m s = (Throw e, s1) -> bind m k s = (Throw e, s1).
Proof. intros H. unfold bind. rewrite H. reflexivity. Qed.

Lemma bind_inv A B (m : M W A) (k : A -> M W B) s b s2 :
  bind m k s = (Ok b, s2) -> exists a s1, m s = (Ok a, s1) /\ k a s1 = (Ok b, s2).
Proof.
  unfold bind. destruct (m s) as [[a|e] s1]; intros H.
  - exists a, s1. split; [reflexivity | exact H].
  - discriminate.
Qed.

Lemma try_ok A (m : M W A) h s a s1 :
  m s = (Ok a, s1) -> try_catch m h s = (Ok a, s1).
Proof. intros H. unfold try_catch. rewrite H. reflexivity. Qed.

Lemma try_throw A (m : M W A) h s e s1 :
  m s = (Throw e, s1) -> try_catch m h s = h e s1.
Proof. intros H. unfold try_catch. rewrite H. reflexivity. Qed.

Lemma perform_eq T (e : browserE T) s t w :
  respond e (world s) = (t, w) -> perform respond e s = (Ok t, answered s (Ev e) w).
Proof. intros H. unfold perform. rewrite H. reflexivity. Qed.

Lemma await_ok X (e : browserE (result X)) s x w :
  respond e (world s) = (Ok x, w) -> await respond e s = (Ok x, answered s (Ev e) w).
Proof.
  intros H. unfold await, bind, perform. rewrite H. reflexivity.
Qed.

Lemma await_throw X (e : browserE (result X)) s err w :
  respond e (world s) = (Throw err, w) ->
  await respond e s = (Throw err, answered s (Ev e) w).
Proof.
  intros H. unfold await, bind, perform. rewrite H. reflexivity.
Qed.

(** ** Every operation is steady

    In particular the non-null assertions [this.page!] of the source are
    justified after [ensureLoggedIn]. *)

Lemma steady_refl (s : state W) : steady s s.
Proof.
  repeat split; auto. exists []. symmetry. apply app_nil_r.
Qed.

Lemma steady_trans (s1 s2 s3 : state W) : steady s1 s2 -> steady s2 s3 -> steady s1 s3.
Proof.
  intros (Hc1 & Hd1 & Hp1 & m1 & Ht1) (Hc2 & Hd2 & Hp2 & m2 & Ht2).
  repeat split.
  - congruence.
  - congruence.
  - auto.
  - exists (m1 ++ m2)%list. rewrite Ht2, Ht1. symmetry. apply app_assoc.
Qed.

Lemma keeps_ret A (a : A) : keeps (W := W) (ret a).
Proof. intros s r s' H; inversion H; subst; apply steady_refl. Qed.

Lemma keeps_throw A e : keeps (W := W) (throw (A := A) e).
Proof. intros s r s' H; inversion H; subst; apply steady_refl. Qed.

Lemma keeps_lift A (r : result A) : keeps (W := W) (lift r).
Proof. intros s r' s' H; inversion H; subst; apply steady_refl. Qed.

Lemma keeps_gets A (f : state W -> A) : keeps (gets f).
Proof. intros s r s' H; inversion H; subst; apply steady_refl. Qed.

Lemma keeps_bind A B (m : M W A) (k : A -> M W B) :
  keeps m -> (forall a, keeps (k a)) -> keeps (bind m k).
Proof.
  intros Hm Hk s r s' H. unfold bind in H.
  destruct (m s) as [[a|e] s1] eqn:E.
  - eapply steady_trans; [eapply Hm | eapply Hk]; eauto.
  - inversion H; subst. eapply Hm; eauto.
Qed.

Lemma keeps_try A (m : M W A) h :
  keeps m -> (forall e, keeps (h e)) -> keeps (try_catch m h).
Proof.
  intros Hm Hh s r s' H. unfold try_catch in H.
  destruct (m s) as [[a|e] s1] eqn:E.
  - inversion H; subst. eapply Hm; eauto.
  - eapply steady_trans; [eapply Hm | eapply Hh]; eauto.
Qed.

Lemma steady_answered (s : state W) ev w : steady s (answered s ev w).
Proof. repeat split; auto. exists [ev]. reflexivity. Qed.

Lemma keeps_perform T (e : browserE T) : keeps (perform respond e).
Proof.
  intros s r s' H. unfold perform in H.
  destruct (respond e (world s)); inversion H; subst. apply steady_answered.
Qed.

Ltac keeps_field :=
  let s := fresh "s" in
  let r := fresh "r" in
  let s' := fresh "s'" in
  let H := fresh "H" in
  intros s r s' H; inversion H; subst;
  repeat split; auto; exists []; symmetry; apply app_nil_r.

Lemma keeps_set_browser b : keeps (@set_browser W b).
Proof. keeps_field. Qed.

Lemma keeps_set_context b : keeps (@set_context W b).
Proof. keeps_field. Qed.

Lemma keeps_set_page : keeps (@set_page W true).
Proof. keeps_field. Qed.

Lemma keeps_set_files f : keeps (@set_files W f).
Proof. keeps_field. Qed.

Create HintDb steady.
#[local] Hint Resolve keeps_ret keeps_throw keeps_lift keeps_gets keeps_perform
  keeps_set_browser keeps_set_context keeps_set_page keeps_set_files : steady.

(** Walks down a computation built from the combinators, splitting on the
    data each [match] and [if] inspects. *)
Ltac keeps :=
  repeat first
    [ progress intros
    | progress cbv beta
    | solve [auto with steady]
    | apply keeps_bind
    | apply keeps_try
    | match goal with
      | |- keeps (match ?x with _ => _ end) => destruct x
      | |- keeps (when ?b _) => unfold when
      | |- keeps (await _ _) => unfold await
      | |- keeps (the_page _) => unfold the_page
      | |- keeps (shot _ _) => unfold shot
      | |- keeps (@cleanupSessionFiles _) => unfold cleanupSessionFiles
      end ].

Lemma keeps_saveStorageState : keeps (saveStorageState respond).
Proof. unfold saveStorageState. keeps. Qed.
#[local] Hint Resolve keeps_saveStorageState : steady.

Lemma keeps_getCredentials : keeps (@getCredentials W).
Proof. unfold getCredentials. keeps. Qed.

Lemma keeps_isSessionValid : keeps (isSessionValid respond).
Proof. unfold isSessionValid. keeps. Qed.

Lemma keeps_findEmailField sels : keeps (findEmailField respond sels).
Proof. induction sels as [|sel rest IH]; simpl; keeps. Qed.
#[local] Hint Resolve keeps_getCredentials keeps_isSessionValid keeps_findEmailField : steady.

Lemma keeps_loginStuck : keeps (loginStuck respond).
Proof. unfold loginStuck. keeps. Qed.
#[local] Hint Resolve keeps_loginStuck : steady.

Lemma keeps_login creds : keeps (login respond creds).
Proof. unfold login, dismissCookieBanner, submitStep. keeps. Qed.
#[local] Hint Resolve keeps_login : steady.

Lemma keeps_reconnect cdpSession : keeps (reconnect respond cdpSession).
Proof. unfold reconnect. keeps. Qed.

Lemma keeps_launchBrowser : keeps (launchBrowser respond).
Proof. unfold launchBrowser, saveCDPSession. keeps. Qed.
#[local] Hint Resolve keeps_reconnect keeps_launchBrowser : steady.

Lemma keeps_ensureBrowser : keeps (ensureBrowser respond).
Proof. unfold ensureBrowser, loadCDPSession. keeps. Qed.
#[local] Hint Resolve keeps_ensureBrowser : steady.

Lemma keeps_ensureLoggedIn : keeps (ensureLoggedIn respond).
Proof. unfold ensureLoggedIn. keeps. Qed.

(** ** [ensureBrowser] returns with a page held *)

Ltac inv_bind H :=
  let a := fresh "a" in
  let s := fresh "s" in
  let E := fresh "E" in
  apply bind_inv in H; destruct H as (a & s & E & H).

Ltac inv_pure H := unfold ret, gets, modify, lift in H; inversion H; subst; clear H.

Lemma reconnect_page cdpSession s s' :
  reconnect respond cdpSession s = (Ok true, s') -> page s' = true.
Proof.
  unfold reconnect, try_catch, await, perform, bind, lift.
  destruct (get cdpSession "wsEndpoint") as [ws|e]; simpl.
  - destruct (respond (ConnectOverCDP ws) (world s)) as [[[ | | ]|e] w]; simpl;
      intros H; inversion H; reflexivity.
  - intros H; inversion H.
Qed.

Lemma launchBrowser_page s s' :
  launchBrowser respond s = (Ok tt, s') -> page s' = true.
Proof.
  unfold launchBrowser. intros H.
  do 8 inv_bind H.
  assert (Hp : page s7 = true) by (unfold set_page in E6; inv_pure E6; reflexivity).
  assert (Hk : keeps (wsEndpoint <- perform respond WsEndpoint ;;
                      match wsEndpoint with
                      | Some ws => when (negb (ws =? "")) (saveCDPSession respond ws)
                      | None => ret tt
                      end)) by (unfold saveCDPSession; keeps).
  apply (Hk _ _ _ H). exact Hp.
Qed.

Lemma ensureBrowser_page s s' :
  ensureBrowser respond s = (Ok tt, s') -> page s' = true.
Proof.
  unfold ensureBrowser. intros H.
  do 3 inv_bind H.
  destruct a1.
  - inv_pure H. destruct (truthy a && negb a0).
    + eapply reconnect_page; eauto.
    + inv_pure E1.
  - inv_bind H. inv_pure E2. destruct (page s3) eqn:Hp.
    + inv_pure H. exact Hp.
    + eapply launchBrowser_page; eauto.
Qed.

Lemma ensureLoggedIn_page s s' :
  ensureLoggedIn respond s = (Ok tt, s') -> page s' = true.
Proof.
  unfold ensureLoggedIn. intros H.
  inv_bind H. destruct a. apply ensureBrowser_page in E.
  assert (Hk : keeps (valid <- isSessionValid respond ;;
                      if valid then ret tt
                      else creds <- @getCredentials W ;; login respond creds)) by keeps.
  apply (Hk _ _ _ H). exact E.
Qed.

(** After [ensureLoggedIn], [this.page!] is the page. *)
Lemma the_page_ok member (s : state W) :
  page s = true -> the_page member s = (Ok tt, s).
Proof. intros H. unfold the_page, bind, gets. rewrite H. reflexivity. Qed.

(** ** The primary path, one response at a time *)

(** Advance a run by a step whose outcome is known. *)
Ltac run_ok H := erewrite bind_ok; [ | exact H].
Ltac run_throw H := erewrite bind_throw; [ | exact H].

Variable string_gt0 : string -> bool.

Lemma append_assoc (a b c : string) : (a ++ b) ++ c = a ++ (b ++ c).
Proof. induction a as [|x a IH]; simpl; [reflexivity | rewrite IH; reflexivity]. Qed.

Lemma prefix_app (sub rest : string) : String.prefix sub (sub ++ rest) = true.
Proof.
  induction sub as [|c sub IH]; simpl.
  - destruct rest; reflexivity.
  - destruct (ascii_dec c c) as [_|n]; [exact IH | contradiction].
Qed.

Lemma includes_prefix (s sub : string) : String.prefix sub s = true -> includes s sub = true.
Proof. intros H. destruct s; cbn [includes]; rewrite H; reflexivity. Qed.

Lemma includes_app (before sub rest : string) : includes (before ++ sub ++ rest) sub = true.
Proof.
  induction before as [|c before IH].
  - cbn [append]. apply includes_prefix. apply prefix_app.
  - cbn [append includes]. rewrite IH.
    destruct (String.prefix sub (String c (before ++ sub ++ rest))); reflexivity.
Qed.

(** A 404 is announced in the message, whatever the status text and body. *)
Lemma notFound_404 what statusText body :
  notFound (Error (what ++ " failed: " ++ string_of_Z 404 ++ " "
                   ++ statusText ++ " — " ++ body)) = true.
Proof.
  unfold notFound, message.
  replace (what ++ " failed: " ++ string_of_Z 404 ++ " " ++ statusText ++ " — " ++ body)
    with ((what ++ " failed: ") ++ "404" ++ (" " ++ statusText ++ " — " ++ body)).
  - rewrite includes_app. reflexivity.
  - change (string_of_Z 404) with "404".
    rewrite append_assoc. reflexivity.
Qed.

Lemma notFound_authentication status :
  status = 401%Z \/ status = 403%Z -> notFound (authentication_failed status) = false.
Proof. intros [-> | ->]; reflexivity. Qed.

Lemma rejectResponse_auth what resp (s : state W) :
  resp_status resp = 401%Z \/ resp_status resp = 403%Z ->
  rejectResponse what resp s
  = (Throw (authentication_failed (resp_status resp)), with_files no_files s).
Proof.
  intros H. unfold rejectResponse.
  replace ((resp_status resp =? 401)%Z || (resp_status resp =? 403)%Z) with true
    by (destruct H as [-> | ->]; reflexivity).
  reflexivity.
Qed.

Lemma rejectResponse_404 what resp (s : state W) :
  resp_status resp = 404%Z ->
  exists e, rejectResponse what resp s = (Throw e, s) /\ notFound e = true.
Proof.
  intros H. unfold rejectResponse. rewrite H. simpl.
  eexists. split; [reflexivity | apply notFound_404].
Qed.

Lemma not_ok_above_299 resp : (299 < resp_status resp)%Z -> ok resp = false.
Proof. intros H. unfold ok. apply andb_false_intro2. apply Z.leb_gt. exact H. Qed.

(** [apiGet] up to the response: the session is ensured, the request sent,
    and the response classified in the state the request left. *)
Lemma apiGet_run path params s s1 resp w2 :
  ensureLoggedIn respond s = (Ok tt, s1) ->
  respond (RequestGet (getUrl path params)) (world s1) = (Ok resp, w2) ->
  apiGet respond path params s
  = (if negb (ok resp) then rejectResponse "API request" resp else lift (resp_json resp))
      (answered s1 (Ev (RequestGet (getUrl path params))) w2).
Proof.
  intros Hlogin Hget. unfold apiGet.
  run_ok Hlogin.
  pose proof Hlogin as Hpage. apply ensureLoggedIn_page in Hpage.
  apply (the_page_ok "request") in Hpage. run_ok Hpage.
  apply await_ok in Hget. run_ok Hget.
  reflexivity.
Qed.

Lemma apiPatch_run path data s s1 resp w2 :
  ensureLoggedIn respond s = (Ok tt, s1) ->
  respond (RequestPatch (ZAPIER_BASE ++ path) data) (world s1) = (Ok resp, w2) ->
  apiPatch respond path data s
  = (if negb (ok resp) then rejectResponse "API PATCH" resp else lift (resp_json resp))
      (answered s1 (Ev (RequestPatch (ZAPIER_BASE ++ path) data)) w2).
Proof.
  intros Hlogin Hpatch. unfold apiPatch.
  run_ok Hlogin.
  pose proof Hlogin as Hpage. apply ensureLoggedIn_page in Hpage.
  apply (the_page_ok "request") in Hpage. run_ok Hpage.
  apply await_ok in Hpatch. run_ok Hpatch.
  reflexivity.
Qed.

(** ** C4: a 404 on the primary path *)

(** C4.  For each read operation ([listZaps], [viewHistory], [viewError]):
    when the session is ensured and the primary-path request is answered
    with status 404, the rest of the run is exactly one run of the
    operation's fallback, started in the state the request left.  That state
    differs from the one before the request only by the world and the trace:
    the client's fields and the session files are untouched, and the 404
    raises nothing to the caller. *)
Theorem not_found_hands_over_to_fallback :
  forall s s1, ensureLoggedIn respond s = (Ok tt, s1) ->
  forall path params resp w2,
    respond (RequestGet (getUrl path params)) (world s1) = (Ok resp, w2) ->
    resp_status resp = 404%Z ->
    let s2 := answered s1 (Ev (RequestGet (getUrl path params))) w2 in
    files s2 = files s1
    /\ (path = API.zaps -> params = None ->
        listZaps respond string_gt0 s = listZapsFromPage respond string_gt0 s2)
    /\ (forall options,
          path = API.zapRuns -> params = Some (historyParams options) ->
          viewHistory respond string_gt0 options s
          = viewHistoryFromPage respond string_gt0 options s2)
    /\ (forall runId,
          path = API.zapRunDetail runId -> params = None ->
          viewError respond runId s = viewErrorFromPage respond runId s2).
Proof.
  intros s s1 Hlogin path params resp w2 Hget H404 s2.
  assert (Hapi : exists e, apiGet respond path params s = (Throw e, s2) /\ notFound e = true).
  { erewrite apiGet_run by eassumption.
    rewrite not_ok_above_299 by (rewrite H404; reflexivity).
    apply rejectResponse_404. exact H404. }
  destruct Hapi as (e & Hapi & Hnf).
  split; [reflexivity | split; [ | split]].
  - intros -> ->. unfold listZaps.
    erewrite try_throw by (run_throw Hapi; reflexivity).
    rewrite Hnf. reflexivity.
  - intros options -> ->. unfold viewHistory.
    erewrite try_throw by (run_throw Hapi; reflexivity).
    rewrite Hnf. reflexivity.
  - intros runId -> ->. unfold viewError.
    erewrite try_throw by (run_throw Hapi; reflexivity).
    rewrite Hnf. reflexivity.
Qed.

(** ** C2: a 401 or 403 on the primary path *)

(** C2 (amended).  When the session is ensured and the primary-path request
    is answered with status 401 or 403:
    - each read operation ([listZaps], [viewHistory], [viewError]) removes
      both session files and raises the authentication-failure error that
      tells the caller to retry;
    - [toggleZap] removes both session files too, but raises nothing: the
      error is caught and the run continues with the UI fallback;
    - [replayRun] raises nothing either and continues with the UI fallback
      in the state the request left. *)
Theorem session_expiry_on_primary_path :
  forall s s1, ensureLoggedIn respond s = (Ok tt, s1) ->
  forall status, status = 401%Z \/ status = 403%Z ->
  (forall path params resp w2,
     respond (RequestGet (getUrl path params)) (world s1) = (Ok resp, w2) ->
     resp_status resp = status ->
     let s2 := with_files no_files (answered s1 (Ev (RequestGet (getUrl path params))) w2) in
     files s2 = no_files
     /\ (path = API.zaps -> params = None ->
         listZaps respond string_gt0 s = (Throw (authentication_failed status), s2))
     /\ (forall options,
           path = API.zapRuns -> params = Some (historyParams options) ->
           viewHistory respond string_gt0 options s
           = (Throw (authentication_failed status), s2))
     /\ (forall runId,
           path = API.zapRunDetail runId -> params = None ->
           viewError respond runId s = (Throw (authentication_failed status), s2)))
  /\ (forall zapId enable s2 resp w3,
        ensureLoggedIn respond s1 = (Ok tt, s2) ->
        respond (RequestPatch (ZAPIER_BASE ++ API.toggleZap zapId) (toggleData enable))
                (world s2) = (Ok resp, w3) ->
        resp_status resp = status ->
        let s3 := with_files no_files
                    (answered s2 (Ev (RequestPatch (ZAPIER_BASE ++ API.toggleZap zapId)
                                                   (toggleData enable))) w3) in
        files s3 = no_files
        /\ toggleZap respond zapId enable s = toggleViaUi respond zapId enable s3)
  /\ (forall runId resp w2,
        respond (RequestPost (ZAPIER_BASE ++ API.zapRunDetail runId ++ "/replay"))
                (world s1) = (Ok resp, w2) ->
        resp_status resp = status ->
        replayRun respond runId s
        = replayViaUi respond runId
            (answered s1 (Ev (RequestPost (ZAPIER_BASE ++ API.zapRunDetail runId ++ "/replay")))
                      w2)).
Proof.
  intros s s1 Hlogin status Hstatus.
  assert (Hnot_ok : forall resp, resp_status resp = status -> ok resp = false).
  { intros resp <-. apply not_ok_above_299. destruct Hstatus as [-> | ->]; reflexivity. }
  split; [ | split].
  - intros path params resp w2 Hget Hresp s2.
    assert (Hapi : apiGet respond path params s = (Throw (authentication_failed status), s2)).
    { erewrite apiGet_run by eassumption.
      rewrite (Hnot_ok _ Hresp). cbn [negb].
      rewrite rejectResponse_auth by (rewrite Hresp; exact Hstatus).
      rewrite Hresp. reflexivity. }
    pose proof (notFound_authentication _ Hstatus) as Hnf.
    split; [reflexivity | split; [ | split]].
    + intros -> ->. unfold listZaps.
      erewrite try_throw by (run_throw Hapi; reflexivity).
      rewrite Hnf. reflexivity.
    + intros options -> ->. unfold viewHistory.
      erewrite try_throw by (run_throw Hapi; reflexivity).
      rewrite Hnf. reflexivity.
    + intros runId -> ->. unfold viewError.
      erewrite try_throw by (run_throw Hapi; reflexivity).
      rewrite Hnf. reflexivity.
  - intros zapId enable s2 resp w3 Hlogin2 Hpatch Hresp s3.
    split; [reflexivity | ].
    unfold toggleZap. run_ok Hlogin.
    assert (Hapi : toggleViaApi respond zapId enable s1 = (Ok None, s3)).
    { unfold toggleViaApi.
      erewrite try_throw; [reflexivity | ].
      erewrite bind_throw; [reflexivity | ].
      erewrite apiPatch_run by eassumption.
      rewrite (Hnot_ok _ Hresp). cbn [negb].
      rewrite rejectResponse_auth by (rewrite Hresp; exact Hstatus).
      reflexivity. }
    run_ok Hapi. reflexivity.
  - intros runId resp w2 Hpost Hresp.
    unfold replayRun. run_ok Hlogin.
    assert (Hapi : replayViaApi respond runId s1
                   = (Ok None, answered s1 (Ev (RequestPost (ZAPIER_BASE
                                       ++ API.zapRunDetail runId ++ "/replay"))) w2)).
    { unfold replayViaApi. apply try_ok.
      pose proof Hlogin as Hpage. apply ensureLoggedIn_page in Hpage.
      apply (the_page_ok "request") in Hpage. run_ok Hpage.
      apply await_ok in Hpost. run_ok Hpost.
      rewrite (Hnot_ok _ Hresp). reflexivity. }
    run_ok Hapi. reflexivity.
Qed.

(** ** Steps whose answer is known *)

Lemma await_at X (e : browserE (result X)) (s : state W) w x w' :
  respond e w = (Ok x, w') -> world s = w ->
  await respond e s = (Ok x, answered s (Ev e) w').
Proof. intros H <-. apply await_ok. exact H. Qed.

Lemma perform_at T (e : browserE T) (s : state W) w t w' :
  respond e w = (t, w') -> world s = w ->
  perform respond e s = (Ok t, answered s (Ev e) w').
Proof. intros H <-. apply perform_eq. exact H. Qed.

Ltac run_await :=
  erewrite bind_ok; [ | eapply await_at; [eassumption | reflexivity]].
Ltac run_page Hlogin :=
  let Hpage := fresh "Hpage" in
  pose proof Hlogin as Hpage; apply ensureLoggedIn_page in Hpage;
  erewrite bind_ok; [ | apply the_page_ok; exact Hpage ].

(** ** C5: the history scenario *)

Lemma zapRun_id_is_string r rec :
  zapRun r = Ok rec ->
  exists id, get r "id" = Ok id /\ js_String id = Ok (ZapRun.id rec).
Proof.
  unfold zapRun. intros H.
  destruct (get r "id") as [id|e]; [ | discriminate H].
  exists id. split; [reflexivity | ].
  cbn [rbind] in H. destruct (js_String id) as [ids|e]; [ | discriminate H].
  cbn [rbind] in H.
  repeat match type of H with
         | rbind ?x _ = _ => destruct x; cbn [rbind] in H; [ | discriminate H]
         end.
  inversion H. reflexivity.
Qed.

(** C5.  [viewHistory({zapId: "123", limit: 10})], with the session ensured
    and the primary request answered successfully with the payload of the
    scenario, returns exactly one Run Record, whose [id] is the string "9",
    whose [zapId] is "123" and whose [status] is "error".  In general a
    vendor id that is a number (an integer a double holds exactly) comes
    out as the string of its decimal digits: it is printed, never kept. *)
Theorem history_scenario_one_record :
  (forall s s1 resp w2,
     ensureLoggedIn respond s = (Ok tt, s1) ->
     respond (RequestGet "https://zapier.com/api/v4/zap-runs?zap=123&limit=10") (world s1)
     = (Ok resp, w2) ->
     ok resp = true ->
     resp_json resp = Ok Sim.scenario_history_payload ->
     fst (viewHistory respond string_gt0 Sim.scenario_history_options s)
     = Ok [ {| ZapRun.id := "9";
               ZapRun.zapId := "123";
               ZapRun.zapTitle := VStr "";
               ZapRun.status := VStr "error";
               ZapRun.startedAt := VStr "2024-01-01T00:00:00Z";
               ZapRun.finishedAt := VUndefined;
               ZapRun.errorMessage := VUndefined |} ])
  /\ (forall r rec n,
        zapRun r = Ok rec -> get r "id" = Ok (VNum n) -> safe_integer n ->
        ZapRun.id rec = string_of_Z n).
Proof.
  split.
  - intros s s1 resp w2 Hlogin Hget Hok Hjson.
    assert (Hapi : apiGet respond API.zapRuns (Some (historyParams Sim.scenario_history_options)) s
                   = (Ok Sim.scenario_history_payload,
                      answered s1 (Ev (RequestGet (getUrl API.zapRuns
                                         (Some (historyParams Sim.scenario_history_options))))) w2)).
    { erewrite apiGet_run; [ | exact Hlogin | exact Hget].
      rewrite Hok, Hjson. reflexivity. }
    unfold viewHistory.
    erewrite try_ok; [reflexivity | ].
    run_ok Hapi. reflexivity.
  - intros r rec n Hrun Hid _.
    destruct (zapRun_id_is_string _ _ Hrun) as (id & Hget & Hstr).
    rewrite Hid in Hget. inversion Hget; subst id.
    cbn in Hstr. inversion Hstr. reflexivity.
Qed.

(** ** C6 and C8: the UI fallback of the mutating operations *)

(** A screenshot that was taken names a file of the screenshot directory. *)
Lemma perform_inv T (e : browserE T) (s s' : state W) t :
  perform respond e s = (Ok t, s') -> exists w, s' = answered s (Ev e) w.
Proof.
  unfold perform. destruct (respond e (world s)) as [t' w].
  intros H. inversion H. exists w. reflexivity.
Qed.

Lemma await_inv X (e : browserE (result X)) (s s' : state W) x :
  await respond e s = (Ok x, s') -> exists w, s' = answered s (Ev e) w.
Proof.
  unfold await. intros H. inv_bind H. apply perform_inv in E.
  unfold lift in H. inversion H. subst. exact E.
Qed.

Lemma shot_path name (s s' : state W) path :
  shot respond name s = (Ok path, s') ->
  exists t, path = screenshot_path name t
            /\ In (Ev (Screenshot path)) (trace s').
Proof.
  unfold shot. intros H. do 2 inv_bind H.
  apply await_inv in E0. destruct E0 as (w & ->).
  unfold ret in H. inversion H. subst.
  exists a. split; [reflexivity | ].
  cbn [trace answered]. apply in_or_app. right. left. reflexivity.
Qed.

(** C6.  [toggleZap("55", false)]: when the session is ensured, the PATCH
    call fails (whatever the failure), the UI fallback locates and clicks a
    toggle, and the screenshots and the confirmation dialog go through, the
    operation returns [{success: true, message: "Zap 55 disabled via UI.",
    screenshot: path}], where [path] is the confirmation screenshot, a file
    of the screenshot directory that was captured on the way. *)
Theorem toggle_scenario_disabled_via_ui :
  forall s s1 e s2 s3 s4 first s5 s6 path s7,
    ensureLoggedIn respond s = (Ok tt, s1) ->
    apiPatch respond (API.toggleZap "55") (VObj [("status", VStr "off")]) s1 = (Throw e, s2) ->
    toggleLocate respond "55" s2 = (Ok true, s3) ->
    await respond (WaitForTimeout 3000) s3 = (Ok tt, s4) ->
    shot respond "zapier-toggle-" s4 = (Ok first, s5) ->
    confirmDialog respond toggleConfirmSelector s5 = (Ok tt, s6) ->
    shot respond "zapier-toggle-confirm-" s6 = (Ok path, s7) ->
    toggleZap respond "55" false s
    = (Ok {| OpResult.success := true;
             OpResult.message := "Zap 55 disabled via UI.";
             OpResult.screenshot := Some path |}, s7)
    /\ (exists t, path = screenshot_path "zapier-toggle-confirm-" t)
    /\ In (Ev (Screenshot path)) (trace s7).
Proof.
  intros s s1 e s2 s3 s4 first s5 s6 path s7
         Hlogin Hpatch Hlocate Hwait Hshot Hconfirm Hshot2.
  split.
  - unfold toggleZap. run_ok Hlogin.
    assert (Hapi : toggleViaApi respond "55" false s1 = (Ok None, s2)).
    { unfold toggleViaApi. erewrite try_throw; [reflexivity | ].
      run_throw Hpatch. reflexivity. }
    run_ok Hapi.
    unfold toggleViaUi. run_ok Hlocate.
    unfold toggleReport. run_ok Hwait. run_ok Hshot. cbn [negb].
    run_ok Hconfirm. run_ok Hshot2.
    reflexivity.
  - destruct (shot_path _ _ _ _ Hshot2) as (t & Hpath & Hin).
    split; [exists t; exact Hpath | exact Hin].
Qed.

(** C8.  For both mutating operations: when the session is ensured, the API
    attempt falls through, the UI fallback goes through every candidate
    without finding a control (for [toggleZap], the search by row content
    included), and the diagnostic screenshot is taken, the operation returns
    a result with [success: false] whose [screenshot] names that screenshot;
    nothing is raised. *)
Theorem no_control_is_a_reported_failure :
  forall s s1, ensureLoggedIn respond s = (Ok tt, s1) ->
  (forall runId s2 s3 s4 path s5,
     replayViaApi respond runId s1 = (Ok None, s2) ->
     replayLocate respond runId s2 = (Ok false, s3) ->
     await respond (WaitForTimeout 3000) s3 = (Ok tt, s4) ->
     shot respond "zapier-replay-" s4 = (Ok path, s5) ->
     replayRun respond runId s
     = (Ok {| OpResult.success := false;
              OpResult.message := "Could not find Replay button for run " ++ runId
                                  ++ ". See screenshot.";
              OpResult.screenshot := Some path |}, s5)
     /\ In (Ev (Screenshot path)) (trace s5))
  /\ (forall zapId enable s2 s3 s4 path s5,
        toggleViaApi respond zapId enable s1 = (Ok None, s2) ->
        toggleLocate respond zapId s2 = (Ok false, s3) ->
        await respond (WaitForTimeout 3000) s3 = (Ok tt, s4) ->
        shot respond "zapier-toggle-" s4 = (Ok path, s5) ->
        toggleZap respond zapId enable s
        = (Ok {| OpResult.success := false;
                 OpResult.message := "Could not find toggle for Zap " ++ zapId
                                     ++ ". See screenshot.";
                 OpResult.screenshot := Some path |}, s5)
        /\ In (Ev (Screenshot path)) (trace s5)).
Proof.
  intros s s1 Hlogin. split.
  - intros runId s2 s3 s4 path s5 Hapi Hlocate Hwait Hshot. split.
    + unfold replayRun. run_ok Hlogin. run_ok Hapi.
      unfold replayViaUi. run_ok Hlocate.
      unfold replayReport. run_ok Hwait. run_ok Hshot. reflexivity.
    + destruct (shot_path _ _ _ _ Hshot) as (t & _ & Hin). exact Hin.
  - intros zapId enable s2 s3 s4 path s5 Hapi Hlocate Hwait Hshot. split.
    + unfold toggleZap. run_ok Hlogin. run_ok Hapi.
      unfold toggleViaUi. run_ok Hlocate.
      unfold toggleReport. run_ok Hwait. run_ok Hshot. reflexivity.
    + destruct (shot_path _ _ _ _ Hshot) as (t & _ & Hin). exact Hin.
Qed.

(** ** C7 and C10: page interception *)

Lemma firstResolved_none l rs :
  Forall (fun r => l r = None) rs -> firstResolved l rs = None.
Proof.
  induction 1 as [|r rs Hr _ IH]; simpl; [reflexivity | ].
  rewrite Hr. exact IH.
Qed.

Lemma awaitIntercepted_at l (s : state W) w rs w' :
  respond (Responses 15000) w = (rs, w') -> world s = w ->
  awaitIntercepted respond l s
  = (Ok (firstResolved l rs), answered s (Ev (Responses 15000)) w').
Proof.
  intros H Hw. unfold awaitIntercepted.
  erewrite bind_ok; [ | eapply perform_at; eassumption ]. reflexivity.
Qed.

Ltac run_intercept :=
  erewrite bind_ok; [ | eapply awaitIntercepted_at; [eassumption | reflexivity]].

Lemma slice0_nil A limit : slice0 limit (@nil A) = [].
Proof. unfold slice0. apply firstn_nil. Qed.

(** C7.  On the fallback paths of [listZaps] and [viewHistory]: when the
    session is ensured, the page is opened and the settling wait is over,
    and none of the responses that arrive before the 15-second timer fires
    is accepted by the listener, the operation returns the empty list of
    Zap Summaries, respectively of Run Records; nothing is raised. *)
Theorem interception_timeout_is_empty :
  forall s s1, ensureLoggedIn respond s = (Ok tt, s1) ->
  (forall w2 w3 rs w4,
     respond (Goto ZAPIER_ZAPS_URL 30000) (world s1) = (Ok tt, w2) ->
     respond (WaitForTimeout 5000) w2 = (Ok tt, w3) ->
     respond (Responses 15000) w3 = (rs, w4) ->
     Forall (fun r => zapsListener string_gt0 r = None) rs ->
     fst (listZapsFromPage respond string_gt0 s) = Ok (@nil ZapInfo.t))
  /\ (forall options w2 w3 rs w4,
        respond (Goto (historyPageUrl options) 30000) (world s1) = (Ok tt, w2) ->
        respond (WaitForTimeout 5000) w2 = (Ok tt, w3) ->
        respond (Responses 15000) w3 = (rs, w4) ->
        Forall (fun r => runsListener string_gt0 r = None) rs ->
        fst (viewHistoryFromPage respond string_gt0 options s) = Ok (@nil ZapRun.t)).
Proof.
  intros s s1 Hlogin. split.
  - intros w2 w3 rs w4 Hgoto Hwait Hrs Hnone.
    unfold listZapsFromPage. run_ok Hlogin. run_page Hlogin.
    run_await. run_await. run_intercept.
    rewrite (firstResolved_none _ _ Hnone). reflexivity.
  - intros options w2 w3 rs w4 Hgoto Hwait Hrs Hnone.
    unfold viewHistoryFromPage. run_ok Hlogin. run_page Hlogin.
    cbv zeta. run_await. run_await. run_intercept.
    rewrite (firstResolved_none _ _ Hnone).
    unfold lift, js_slice0. rewrite slice0_nil. reflexivity.
Qed.

Lemma slice0_nonneg A (limit : Z) (l : list A) :
  (0 <= limit)%Z -> slice0 limit l = firstn (Z.to_nat limit) l.
Proof.
  intros H. unfold slice0.
  destruct (Z.ltb_spec limit 0) as [Hneg | _]; [lia | ].
  destruct (Z.le_ge_cases limit (Z.of_nat (List.length l))) as [Hle | Hge].
  - rewrite Z.min_l by exact Hle. reflexivity.
  - rewrite Z.min_r by exact Hge. rewrite Nat2Z.id.
    rewrite firstn_all. symmetry. apply firstn_all2. lia.
Qed.

Lemma mapR_length A B (f : A -> result B) l l' :
  mapR f l = Ok l' -> List.length l' = List.length l.
Proof.
  revert l'. induction l as [|x l IH]; simpl; intros l' H.
  - inversion H. reflexivity.
  - destruct (f x) as [y|e]; [ | discriminate H]. cbn [rbind] in H.
    destruct (mapR f l) as [ys|e]; [ | discriminate H]. cbn [rbind] in H.
    inversion H. simpl. rewrite (IH ys eq_refl). reflexivity.
Qed.

(** C10 (amended).  On the fallback path [viewHistory] keeps the first
    [limit] intercepted runs when [limit] is a positive number, and the
    first 25 when [limit] is absent or 0 (a falsy [limit] counts as not
    given); it returns one record per run kept.  On the primary path nothing
    is truncated: every run of the parsed response yields a record, whatever
    [limit] is. *)
Theorem history_truncation_by_path :
  forall options s s1, ensureLoggedIn respond s = (Ok tt, s1) ->
  (forall w2 w3 rs w4 runs,
     respond (Goto (historyPageUrl options) 30000) (world s1) = (Ok tt, w2) ->
     respond (WaitForTimeout 5000) w2 = (Ok tt, w3) ->
     respond (Responses 15000) w3 = (rs, w4) ->
     firstResolved (runsListener string_gt0) rs = Some (VArr runs) ->
     exists kept,
       fst (viewHistoryFromPage respond string_gt0 options s) = mapR zapRun kept
       /\ (forall recs, mapR zapRun kept = Ok recs -> List.length recs = List.length kept)
       /\ (forall n, opt_limit options = Some n -> (0 < n)%Z ->
             kept = firstn (Z.to_nat n) runs /\ (Z.of_nat (List.length kept) <= n)%Z)
       /\ (opt_limit options = None \/ opt_limit options = Some 0%Z ->
           kept = firstn 25 runs /\ (List.length kept <= 25)%nat))
  /\ (forall resp w2 data runs recs,
        respond (RequestGet (getUrl API.zapRuns (Some (historyParams options)))) (world s1)
        = (Ok resp, w2) ->
        ok resp = true ->
        resp_json resp = Ok data ->
        item_list data (VArr []) = Ok (VArr runs) ->
        mapR zapRun runs = Ok recs ->
        fst (viewHistory respond string_gt0 options s) = Ok recs
        /\ List.length recs = List.length runs).
Proof.
  intros options s s1 Hlogin. split.
  - intros w2 w3 rs w4 runs Hgoto Hwait Hrs Hfirst.
    exists (slice0 (effectiveLimit options) runs).
    split; [ | split; [ | split]].
    + unfold viewHistoryFromPage. run_ok Hlogin. run_page Hlogin.
      cbv zeta. run_await. run_await. run_intercept.
      rewrite Hfirst. reflexivity.
    + intros recs. apply mapR_length.
    + intros n Hn Hpos. unfold effectiveLimit. rewrite Hn.
      destruct (Z.eqb_spec n 0) as [-> | _]; [lia | ].
      rewrite slice0_nonneg by lia.
      split; [reflexivity | ].
      pose proof (firstn_le_length (Z.to_nat n) runs). lia.
    + intros Hn.
      assert (Heff : effectiveLimit options = 25%Z)
        by (unfold effectiveLimit; destruct Hn as [-> | ->]; reflexivity).
      rewrite Heff, slice0_nonneg by lia.
      split; [reflexivity | ].
      apply (firstn_le_length 25 runs).
  - intros resp w2 data runs recs Hget Hok Hjson Hitems Hmap.
    split; [ | apply (mapR_length _ _ _ _ _ Hmap)].
    assert (Hapi : apiGet respond API.zapRuns (Some (historyParams options)) s
                   = (Ok data, answered s1 (Ev (RequestGet (getUrl API.zapRuns
                                                (Some (historyParams options))))) w2)).
    { erewrite apiGet_run; [ | exact Hlogin | exact Hget].
      rewrite Hok, Hjson. reflexivity. }
    unfold viewHistory. cbv zeta.
    erewrite try_ok; [reflexivity | ].
    run_ok Hapi. unfold lift. rewrite Hitems. cbn [rbind js_map]. rewrite Hmap. reflexivity.
Qed.

(** ** C3: missing credentials *)

Lemma await_any X (e : browserE (result X)) (s : state W) :
  exists r w, await respond e s = (r, answered s (Ev e) w).
Proof.
  unfold await, bind, perform, lift.
  destruct (respond e (world s)) as [r w]. exists r, w. reflexivity.
Qed.

Lemma isSessionValid_probe (s : state W) r s' :
  page s = true ->
  isSessionValid respond s = (r, s') ->
  exists w, s' = answered s (Ev (RequestGet (ZAPIER_BASE ++ API.me))) w.
Proof.
  intros Hp. unfold isSessionValid.
  unfold bind at 1. unfold gets. rewrite Hp. cbn [negb].
  destruct (await_any _ (RequestGet (ZAPIER_BASE ++ API.me)) s) as (a & w & Ha).
  unfold try_catch, bind. rewrite Ha.
  destruct a; intros H; inversion H; exists w; reflexivity.
Qed.

Lemma ensureBrowser_launches (s s1 : state W) :
  page s = false -> cdp_session (files s) = None ->
  ensureBrowser respond s = (Ok tt, s1) ->
  exists more, trace s1 = (trace s ++ Ev (Launch (negb (debug s))) :: more)%list.
Proof.
  intros Hp Hcdp. unfold ensureBrowser, loadCDPSession.
  unfold bind at 1 2 3 4. unfold gets, ret. rewrite Hcdp. cbn [truthy andb].
  unfold bind at 1. rewrite Hp.
  unfold launchBrowser. intros H. do 2 inv_bind H. inv_pure E.
  apply await_inv in E0. destruct E0 as (w & ->).
  assert (Hk : forall u : unit, keeps
            (set_browser true ;;
             f <- gets (@files W) ;;
             await respond (NewContext (storage_state f)) ;;
             set_context true ;;
             await respond NewPage ;;
             set_page true ;;
             wsEndpoint <- perform respond WsEndpoint ;;
             match wsEndpoint with
             | Some ws => when (negb (ws =? "")) (saveCDPSession respond ws)
             | None => ret tt
             end)) by (intros u; unfold saveCDPSession; keeps).
  destruct (Hk a0 _ _ _ H) as (_ & _ & _ & more & Htrace).
  exists more. rewrite Htrace. cbn [trace answered].
  rewrite <- app_assoc. reflexivity.
Qed.

(** C3 (amended).  When the configuration has no usable [zapier] record
    (email and password both truthy) and the session probe finds the
    session invalid, [ensureLoggedIn], and with it every operation, raises
    the configuration error.  The error comes right after the probe: the
    login page is never opened and no credential is typed.  It does not come
    before the browser: the browser has been ensured by then, and a client
    that held no page and had no CDP session file to reconnect with has
    launched one. *)
Theorem missing_credentials_after_probe :
  forall s s1 s2,
    has_credentials (config_zapier s) = false ->
    ensureBrowser respond s = (Ok tt, s1) ->
    isSessionValid respond s1 = (Ok false, s2) ->
    (ensureLoggedIn respond s = (Throw credentials_missing, s2)
     /\ listZaps respond string_gt0 s = (Throw credentials_missing, s2)
     /\ (forall options,
           viewHistory respond string_gt0 options s = (Throw credentials_missing, s2))
     /\ (forall runId, viewError respond runId s = (Throw credentials_missing, s2))
     /\ (forall runId, replayRun respond runId s = (Throw credentials_missing, s2))
     /\ (forall zapId enable,
           toggleZap respond zapId enable s = (Throw credentials_missing, s2)))
    /\ (exists w, s2 = answered s1 (Ev (RequestGet (ZAPIER_BASE ++ API.me))) w)
    /\ page s2 = true
    /\ (page s = false -> cdp_session (files s) = None ->
        exists more, trace s2 = (trace s ++ Ev (Launch (negb (debug s))) :: more)%list).
Proof.
  intros s s1 s2 Hcreds Hbrowser Hvalid.
  pose proof (ensureBrowser_page _ _ Hbrowser) as Hpage.
  destruct (isSessionValid_probe _ _ _ Hpage Hvalid) as (w & Hs2).
  assert (Hconfig : config_zapier s2 = config_zapier s).
  { destruct (keeps_ensureBrowser _ _ _ Hbrowser) as (Hc & _).
    rewrite Hs2. cbn [config_zapier answered]. exact Hc. }
  assert (Hlogin : ensureLoggedIn respond s = (Throw credentials_missing, s2)).
  { unfold ensureLoggedIn. run_ok Hbrowser. run_ok Hvalid.
    unfold getCredentials, bind, gets. rewrite Hconfig, Hcreds. reflexivity. }
  assert (Hapi : forall path params,
             apiGet respond path params s = (Throw credentials_missing, s2)).
  { intros path params. unfold apiGet. run_throw Hlogin. reflexivity. }
  split; [ | split; [ | split]].
  - split; [exact Hlogin | ].
    split; [ | split; [ | split; [ | split]]].
    + unfold listZaps.
      erewrite try_throw by (run_throw (Hapi API.zaps None); reflexivity).
      reflexivity.
    + intros options. unfold viewHistory.
      erewrite try_throw by (run_throw (Hapi API.zapRuns (Some (historyParams options)));
                             reflexivity).
      reflexivity.
    + intros runId. unfold viewError.
      erewrite try_throw by (run_throw (Hapi (API.zapRunDetail runId) None); reflexivity).
      reflexivity.
    + intros runId. unfold replayRun. run_throw Hlogin. reflexivity.
    + intros zapId enable. unfold toggleZap. run_throw Hlogin. reflexivity.
  - exists w. exact Hs2.
  - rewrite Hs2. exact Hpage.
  - intros Hp Hcdp.
    destruct (ensureBrowser_launches _ _ Hp Hcdp Hbrowser) as (more & Htrace).
    exists (more ++ [Ev (RequestGet (ZAPIER_BASE ++ API.me))])%list.
    rewrite Hs2. cbn [trace answered]. rewrite Htrace.
    rewrite <- app_assoc. reflexivity.
Qed.

(** ** C1: the status of a Zap Summary *)

Ltac inv_rbind H :=
  match type of H with
  | rbind ?x _ = Ok _ =>
      let E := fresh "E" in
      destruct x eqn:E; cbn [rbind] in H; [ | discriminate H]
  end.

Lemma mapR_Forall2 A B (f : A -> result B) l l' :
  mapR f l = Ok l' -> Forall2 (fun x y => f x = Ok y) l l'.
Proof.
  revert l'. induction l as [|x l IH]; simpl; intros l' H.
  - inversion H. constructor.
  - do 2 inv_rbind H. inversion H; subst. constructor; [assumption | ].
    apply IH. reflexivity.
Qed.

Lemma zapInfo_status z info : zapInfo z = Ok info -> status_rule z info.
Proof.
  unfold zapInfo. intros H.
  do 11 inv_rbind H. inversion H; subst; clear H.
  match goal with
  | Hs : get z "status" = Ok ?status, Ht : get z "state" = Ok ?state |- _ =>
      exists status, state
  end.
  cbn [ZapInfo.status]. unfold js_or.
  repeat split; try assumption.
  - intros Hs. repeat (rewrite Hs; cbv iota). reflexivity.
  - intros Hs Ht. rewrite Hs; cbv iota. rewrite Ht. reflexivity.
  - intros Hs Ht. rewrite Hs; cbv iota. rewrite Ht. reflexivity.
Qed.

Lemma firstResolved_some l rs v :
  firstResolved l rs = Some v -> exists r, In r rs /\ l r = Some v.
Proof.
  induction rs as [|r rs IH]; cbn [firstResolved]; [discriminate | ].
  destruct (l r) as [v'|] eqn:Hr.
  - intros H. inversion H; subst. exists r. split; [left; reflexivity | exact Hr].
  - intros H. destruct (IH H) as (r' & Hin & Hr'). exists r'. split; [right; exact Hin | exact Hr'].
Qed.

(** *** What the normalizers raise *)

Lemma js_String_throw :
  forall v e, js_String v = Throw e ->
              e = TypeError "Cannot convert object to primitive value".
Proof.
  fix IH 1. intros v e. destruct v as [ | | b | n | s | l | fs]; cbn [js_String];
    try discriminate.
  - destruct b; discriminate.
  - revert e. revert l. fix IHl 1. intros l e. destruct l as [|x rest].
    + discriminate.
    + pose proof (IHl rest) as IHrest.
      cbv beta iota.
      match type of IHrest with
      | forall _, ?T = _ -> _ => destruct T as [sr|er]
      end.
      * destruct (match x with VUndefined | VNull => Ok "" | _ => js_String x end)
          as [sx|ex] eqn:Ex; cbn [rbind].
        -- destruct rest; discriminate.
        -- intros H. inversion H; subst.
           assert (Hx : js_String x = Throw e) by (destruct x; try discriminate; exact Ex).
           exact (IH x e Hx).
      * destruct (match x with VUndefined | VNull => Ok "" | _ => js_String x end)
          as [sx|ex] eqn:Ex; cbn [rbind].
        -- destruct rest; [discriminate | ]. cbn [rbind].
           intros H. inversion H; subst. exact (IHrest _ eq_refl).
        -- intros H. inversion H; subst.
           assert (Hx : js_String x = Throw e) by (destruct x; try discriminate; exact Ex).
           exact (IH x e Hx).
  - destruct (has_own "toString" fs); [ | discriminate].
    intros H. inversion H. reflexivity.
Qed.

Lemma mapR_throw A B (f : A -> result B) l e :
  mapR f l = Throw e -> exists x, In x l /\ f x = Throw e.
Proof.
  induction l as [|x rest IH]; cbn [mapR]; [discriminate | ].
  destruct (f x) as [y|ex] eqn:Ex; cbn [rbind].
  - destruct (mapR f rest) as [ys|er]; cbn [rbind]; [discriminate | ].
    intros H. inversion H; subst. destruct (IH eq_refl) as (x' & Hin & Hx').
    exists x'. split; [right; exact Hin | exact Hx'].
  - intros H. inversion H; subst. exists x. split; [left; reflexivity | exact Ex].
Qed.

(** Split on the conversions to string a normalizer makes. *)
Ltac string_conversions H :=
  repeat match type of H with
         | context [rbind (js_String ?x) _] =>
             let E := fresh "E" in
             destruct (js_String x) eqn:E; cbn [rbind] in H;
             [ | apply js_String_throw in E; inversion H; subst; reflexivity ]
         end.

Lemma zapInfo_throw z e : zapInfo z = Throw e -> notFound e = false.
Proof.
  intros H. unfold zapInfo in H.
  destruct z; cbn [get rbind] in H;
    try (inversion H; subst; reflexivity);
    string_conversions H; discriminate.
Qed.

Lemma zapRun_throw r e : zapRun r = Throw e -> notFound e = false.
Proof.
  intros H. unfold zapRun in H.
  destruct r; cbn [get rbind] in H;
    try (inversion H; subst; reflexivity);
    string_conversions H; discriminate.
Qed.

Lemma stepInfo_throw x e : stepInfo x = Throw e -> notFound e = false.
Proof.
  intros H. unfold stepInfo in H.
  destruct x; cbn [get rbind] in H;
    try (inversion H; subst; reflexivity); discriminate.
Qed.

Lemma js_map_throw B what (f : value -> result B) v e :
  js_map what f v = Throw e ->
  e = TypeError (what ++ ".map is not a function")
  \/ exists x, f x = Throw e.
Proof.
  unfold js_map. destruct v; try (intros H; inversion H; left; reflexivity).
  intros H. apply mapR_throw in H. destruct H as (x & _ & Hx). right. exists x. exact Hx.
Qed.

Lemma item_list_throw data dflt e : item_list data dflt = Throw e -> notFound e = false.
Proof.
  unfold item_list. destruct data; cbn [get rbind]; intros H;
    try discriminate; inversion H; subst; reflexivity.
Qed.

Lemma runDetail_throw data e : runDetail data = Throw e -> notFound e = false.
Proof.
  intros H. unfold runDetail in H.
  destruct data; cbn [get rbind] in H;
    try (inversion H; subst; reflexivity);
    match type of H with
    | context [rbind (js_map ?w ?f ?v) _] =>
        let E := fresh "E" in
        destruct (js_map w f v) eqn:E; cbn [rbind] in H;
        [ | inversion H; subst; apply js_map_throw in E;
            destruct E as [-> | (x & Hx)];
            [reflexivity | exact (stepInfo_throw _ _ Hx)] ]
    end;
    string_conversions H; discriminate.
Qed.

(** *** What a list listener accepts *)

Lemma item_list_default json dflt v :
  item_list json VNull = Ok v -> truthy v = true -> item_list json dflt = Ok v.
Proof.
  unfold item_list.
  destruct (get json "objects") as [o|]; cbn [rbind]; [ | discriminate].
  destruct (get json "results") as [r|]; cbn [rbind]; [ | discriminate].
  destruct (get json "data") as [d|]; cbn [rbind]; [ | discriminate].
  generalize (o ||| r ||| d). intros x. unfold js_or.
  destruct (truthy x); [auto | ].
  destruct (isArray json); [auto | ].
  intros H Hv. inversion H; subst. discriminate.
Qed.

Lemma list_listener_accepts urlMatches (r : response) v :
  listener urlMatches (interceptedList string_gt0) r = Some v ->
  urlMatches (resp_url r) = true /\ resp_status r = 200%Z
  /\ exists json, resp_json r = Ok json
                  /\ (forall dflt, item_list json dflt = Ok v)
                  /\ truthy v = true.
Proof.
  unfold listener.
  destruct (urlMatches (resp_url r)); [ | discriminate].
  destruct (resp_status r =? 200)%Z eqn:Hs; [ | discriminate].
  apply Z.eqb_eq in Hs. cbn [andb].
  destruct (resp_json r) as [json|]; cbn [rbind]; [ | discriminate].
  unfold interceptedList.
  destruct (item_list json VNull) as [items|] eqn:Hitems; cbn [rbind]; [ | discriminate].
  destruct (truthy items) eqn:Ht; [ | discriminate].
  destruct (get items "length") as [len|]; cbn [rbind]; [ | discriminate].
  destruct (js_gt0 string_gt0 len) as [[|]|]; cbn [rbind]; try discriminate.
  intros H. inversion H; subst. repeat split; auto.
  exists json. repeat split; auto.
  intros dflt. apply item_list_default; assumption.
Qed.

(** C1 (amended).  What [listZaps] returns is the image of the items of
    the payload, item by item and in order: on the primary path the items
    of the body of the answer, on the fallback path the items of the body
    of the first response the listener accepted.  The [status] of each Zap
    Summary follows the rule, applied to its own raw item: the vendor's
    [status] if it is truthy, else the vendor's [state] if it is truthy,
    else the sentinel ["unknown"].  So a value among [on], [off], [draft],
    [error] is kept, an item with no status at all gets ["unknown"], and
    any other truthy vendor value is passed through as it is; computing the
    status raises nothing. *)
Theorem zap_status_passes_vendor_value :
  (forall s s1 resp w2 data raw,
     ensureLoggedIn respond s = (Ok tt, s1) ->
     respond (RequestGet (getUrl API.zaps None)) (world s1) = (Ok resp, w2) ->
     ok resp = true ->
     resp_json resp = Ok data ->
     item_list data (VArr []) = Ok (VArr raw) ->
     listZaps respond string_gt0 s
     = (mapR zapInfo raw, answered s1 (Ev (RequestGet (getUrl API.zaps None))) w2))
  /\ (forall s s1 w2 w3 rs w4 raw,
        ensureLoggedIn respond s = (Ok tt, s1) ->
        respond (Goto ZAPIER_ZAPS_URL 30000) (world s1) = (Ok tt, w2) ->
        respond (WaitForTimeout 5000) w2 = (Ok tt, w3) ->
        respond (Responses 15000) w3 = (rs, w4) ->
        firstResolved (zapsListener string_gt0) rs = Some (VArr raw) ->
        listZapsFromPage respond string_gt0 s
        = (mapR zapInfo raw,
           answered (answered (answered s1 (Ev (Goto ZAPIER_ZAPS_URL 30000)) w2)
                              (Ev (WaitForTimeout 5000)) w3)
                    (Ev (Responses 15000)) w4)
        /\ exists r json, In r rs /\ resp_json r = Ok json
                          /\ item_list json (VArr []) = Ok (VArr raw))
  /\ (forall raw infos,
        mapR zapInfo raw = Ok infos -> Forall2 status_rule raw infos)
  /\ (forall z info status,
        zapInfo z = Ok info -> get z "status" = Ok status -> lifecycle status ->
        ZapInfo.status info = status)
  /\ (forall fields id_string,
        js_String (match assoc "id" fields with Some v => v | None => VUndefined end)
        = Ok id_string ->
        exists info, zapInfo (VObj fields) = Ok info /\ ZapInfo.id info = id_string).
Proof.
  split; [ | split; [ | split; [ | split]]].
  - intros s s1 resp w2 data raw Hlogin Hget Hok Hjson Hitems.
    assert (Hapi : apiGet respond API.zaps None s
                   = (Ok data, answered s1 (Ev (RequestGet (getUrl API.zaps None))) w2)).
    { erewrite apiGet_run; [ | exact Hlogin | exact Hget].
      rewrite Hok, Hjson. reflexivity. }
    unfold listZaps. destruct (mapR zapInfo raw) as [infos|e] eqn:Hmap.
    + erewrite try_ok; [reflexivity | ].
      run_ok Hapi. unfold lift. rewrite Hitems. cbn [rbind js_map]. rewrite Hmap.
      reflexivity.
    + erewrite try_throw.
      2:{ run_ok Hapi. unfold lift. rewrite Hitems. cbn [rbind js_map]. rewrite Hmap.
          reflexivity. }
      apply mapR_throw in Hmap. destruct Hmap as (x & _ & Hx).
      rewrite (zapInfo_throw _ _ Hx). reflexivity.
  - intros s s1 w2 w3 rs w4 raw Hlogin Hgoto Hwait Hrs Hfirst. split.
    + unfold listZapsFromPage. run_ok Hlogin. run_page Hlogin.
      run_await. run_await. run_intercept. rewrite Hfirst. reflexivity.
    + destruct (firstResolved_some _ _ _ Hfirst) as (r & Hin & Hr).
      apply list_listener_accepts in Hr.
      destruct Hr as (_ & _ & json & Hjson & Hitems & _).
      exists r, json. split; [exact Hin | split; [exact Hjson | apply Hitems]].
  - intros raw infos Hmap. apply mapR_Forall2 in Hmap.
    induction Hmap as [|z info raw infos Hz _ IH]; constructor; [ | exact IH].
    apply zapInfo_status. exact Hz.
  - intros z info status Hz Hstatus Hlife.
    destruct (zapInfo_status _ _ Hz) as (status' & state & Hs & _ & Hkept & _).
    rewrite Hstatus in Hs. injection Hs as <-.
    apply Hkept. destruct Hlife as [-> | [-> | [-> | ->]]]; reflexivity.
  - intros fields id_string Hid. unfold zapInfo. cbn [get rbind].
    rewrite Hid. cbn [rbind]. eexists. split; reflexivity.
Qed.

(** ** C9: field-name synonyms *)

Lemma field_eqb_refl f : field_eqb f f = true.
Proof.
  induction f as [|k f IH]; [reflexivity | ].
  cbn [field_eqb]. rewrite String.eqb_refl. exact IH.
Qed.

Lemma get_defined v k :
  v <> VUndefined -> v <> VNull -> get v k = Ok (opt_get v k).
Proof. destruct v; try reflexivity; intros H1 H2; congruence. Qed.

Lemma read_nullish f v :
  f <> [] -> v = VUndefined \/ v = VNull -> read f v = VUndefined.
Proof.
  induction f as [|k [|k' rest] IH]; intros Hf Hv; [congruence | | ].
  - destruct Hv as [-> | ->]; reflexivity.
  - cbn [read]. destruct Hv as [-> | ->]; cbn [opt_get]; apply IH; try discriminate; auto.
Qed.

Lemma carries_read group f v item :
  In f group -> carries group f v item -> read f item = v.
Proof.
  induction group as [|g rest IH]; intros Hin Hc; [contradiction | ].
  cbn [carries] in Hc. destruct Hc as (Hg & Hrest). destruct Hin as [-> | Hin].
  - rewrite field_eqb_refl in Hg. exact Hg.
  - apply IH; assumption.
Qed.

(** An item that carries a truthy value is neither [undefined] nor
    [null]: the normalizer's reads of it do not raise. *)
Lemma carries_defined group f v item :
  In f group -> f <> [] -> truthy v = true -> carries group f v item ->
  item <> VUndefined /\ item <> VNull.
Proof.
  intros Hin Hf Hv Hc. pose proof (carries_read group f v item Hin Hc) as Hr.
  split; intros ->; rewrite (read_nullish f) in Hr by auto; subst v; discriminate.
Qed.

Ltac split_in H :=
  cbn [In synonyms lastRun_fields] in H;
  repeat match type of H with
         | _ \/ _ => destruct H as [H | H]
         end;
  try contradiction; subst.

Ltac split_and H :=
  repeat match type of H with
         | True => clear H
         | _ /\ _ => let H1 := fresh "Hf" in destruct H as [H1 H]
         end.

(** The premises on an item, one fact per field. *)
Ltac facts H :=
  cbn [carries agree reads lastRun_fields in_group existsb field_eqb
       String.eqb Ascii.eqb Bool.eqb andb orb read] in H;
  split_and H.

(** Evaluate the [||] chains with what is known of the fields. *)
Ltac chain :=
  unfold js_or;
  repeat match goal with
         | H : truthy ?x = _ |- _ => progress (rewrite H; cbv iota)
         end.

Ltac alike :=
  repeat match goal with
         | H : True |- _ => clear H
         | H : opt_get _ _ = _ |- _ => rewrite H; clear H
         end;
  chain; reflexivity.

Lemma zapInfo_lastRun f v item info :
  In f lastRun_fields -> truthy v = true -> carries lastRun_fields f v item ->
  zapInfo item = Ok info -> ZapInfo.lastRun info = v.
Proof.
  intros Hin Hv Hc H.
  assert (Hd : item <> VUndefined /\ item <> VNull).
  { apply (carries_defined lastRun_fields f v); auto. split_in Hin; discriminate. }
  destruct Hd as (Hu & Hn). unfold zapInfo in H.
  rewrite !(get_defined item) in H by assumption. cbn [rbind] in H.
  destruct (js_String (opt_get item "id")); cbn [rbind] in H; [ | discriminate H].
  inversion H; subst; clear H. cbn [ZapInfo.lastRun].
  split_in Hin; facts Hc; alike.
Qed.

(** C9 (amended).  For each normalizer (Zap Summary, Run Record, Step, Run
    Detail) and each group of fields that this normalizer reads as one
    attribute: two items, of any shape, that carry the same truthy value
    under one field of the group each and nothing truthy under the other
    fields of the group, and that read alike under every other field the
    normalizer reads, normalize to the same record.  The fallback of
    [lastRun] to [updated_at] is not such a synonym, since [updated_at] is
    also the source of [updatedAt]: there the [lastRun] attribute itself is
    the value carried, whichever of the three fields carried it. *)
Theorem synonyms_normalize_alike :
  (forall n group, In group (synonyms n) ->
   forall f1 f2, In f1 group -> In f2 group ->
   forall v item1 item2,
     truthy v = true ->
     carries group f1 v item1 -> carries group f2 v item2 ->
     agree (reads n) group item1 item2 ->
     normalize n item1 = normalize n item2)
  /\ (forall f1 f2, In f1 lastRun_fields -> In f2 lastRun_fields ->
      forall v item1 item2 info1 info2,
        truthy v = true ->
        carries lastRun_fields f1 v item1 -> carries lastRun_fields f2 v item2 ->
        zapInfo item1 = Ok info1 -> zapInfo item2 = Ok info2 ->
        ZapInfo.lastRun info1 = v /\ ZapInfo.lastRun info2 = v).
Proof.
  split.
  - intros n group Hgroup f1 f2 H1 H2 v item1 item2 Hv Hc1 Hc2 Ha.
    assert (Hd1 : item1 <> VUndefined /\ item1 <> VNull).
    { apply (carries_defined group f1 v); auto.
      destruct n; split_in Hgroup; split_in H1; discriminate. }
    assert (Hd2 : item2 <> VUndefined /\ item2 <> VNull).
    { apply (carries_defined group f2 v); auto.
      destruct n; split_in Hgroup; split_in H2; discriminate. }
    destruct Hd1 as (Hu1 & Hn1). destruct Hd2 as (Hu2 & Hn2).
    destruct n; split_in Hgroup; split_in H1; split_in H2;
      unfold normalize, zapInfo, zapRun, stepInfo, runDetail;
      rewrite !(get_defined item1) by assumption;
      rewrite !(get_defined item2) by assumption;
      cbn [rbind];
      facts Hc1; facts Hc2; facts Ha;
      alike.
  - intros f1 f2 H1 H2 v item1 item2 info1 info2 Hv Hc1 Hc2 Hz1 Hz2. split.
    + exact (zapInfo_lastRun f1 v item1 info1 H1 Hv Hc1 Hz1).
    + exact (zapInfo_lastRun f2 v item2 info2 H2 Hv Hc2 Hz2).
Qed.

(* ===================================================================== *)
(** * Further properties of the client                                    *)
(* ===================================================================== *)

Ltac run_perform :=
  erewrite bind_ok; [ | eapply perform_at; [eassumption | reflexivity]].

(** ** Runs that respect a relation *)

Section Respect.

Variable R : state W -> state W -> Prop.
Hypothesis R_refl : forall s, R s s.
Hypothesis R_trans : forall s1 s2 s3, R s1 s2 -> R s2 s3 -> R s1 s3.
Hypothesis R_answered : forall s ev w, R s (answered s ev w).

Lemma respects_ret A (a : A) : respects R (ret (W := W) a).
Proof. intros s r s' H; inversion H; subst; apply R_refl. Qed.

Lemma respects_throw A e : respects R (throw (W := W) (A := A) e).
Proof. intros s r s' H; inversion H; subst; apply R_refl. Qed.

Lemma respects_lift A (r : result A) : respects R (lift (W := W) r).
Proof. intros s r' s' H; inversion H; subst; apply R_refl. Qed.

Lemma respects_gets A (f : state W -> A) : respects R (gets f).
Proof. intros s r s' H; inversion H; subst; apply R_refl. Qed.

Lemma respects_bind A B (m : M W A) (k : A -> M W B) :
  respects R m -> (forall a, respects R (k a)) -> respects R (bind m k).
Proof.
  intros Hm Hk s r s' H. unfold bind in H.
  destruct (m s) as [[a|e] s1] eqn:E.
  - eapply R_trans; [eapply Hm | eapply Hk]; eauto.
  - inversion H; subst. eapply Hm; eauto.
Qed.

Lemma respects_try A (m : M W A) h :
  respects R m -> (forall e, respects R (h e)) -> respects R (try_catch m h).
Proof.
  intros Hm Hh s r s' H. unfold try_catch in H.
  destruct (m s) as [[a|e] s1] eqn:E.
  - inversion H; subst. eapply Hm; eauto.
  - eapply R_trans; [eapply Hm | eapply Hh]; eauto.
Qed.

Lemma respects_perform T (e : browserE T) : respects R (perform respond e).
Proof.
  intros s r s' H. unfold perform in H.
  destruct (respond e (world s)); inversion H; subst. apply R_answered.
Qed.

End Respect.

(** ** The login procedure and the session files *)

Lemma calm_refl (s : state W) : calm s s.
Proof. repeat split; auto. Qed.

Lemma calm_trans (s1 s2 s3 : state W) : calm s1 s2 -> calm s2 s3 -> calm s1 s3.
Proof.
  intros (Hb1 & Hc1 & Hp1 & Hf1 & Hs1) (Hb2 & Hc2 & Hp2 & Hf2 & Hs2).
  repeat split; try congruence. auto.
Qed.

Lemma calm_answered (s : state W) ev w : calm s (answered s ev w).
Proof. repeat split; auto. Qed.

Lemma calm_ret A (a : A) : respects calm (ret (W := W) a).
Proof. apply respects_ret, calm_refl. Qed.

Lemma calm_throw A e : respects calm (throw (W := W) (A := A) e).
Proof. apply respects_throw, calm_refl. Qed.

Lemma calm_lift A (r : result A) : respects calm (lift (W := W) r).
Proof. apply respects_lift, calm_refl. Qed.

Lemma calm_gets A (f : state W -> A) : respects calm (gets f).
Proof. apply respects_gets, calm_refl. Qed.

Lemma calm_perform T (e : browserE T) : respects calm (perform respond e).
Proof. apply respects_perform, calm_answered. Qed.

Create HintDb calm.
#[local] Hint Resolve calm_ret calm_throw calm_lift calm_gets calm_perform : calm.

Ltac calm_walk :=
  repeat first
    [ progress intros
    | progress cbv beta
    | solve [auto with calm]
    | apply (respects_bind calm calm_trans)
    | apply (respects_try calm calm_trans)
    | match goal with
      | |- respects _ (match ?x with _ => _ end) => destruct x
      | |- respects _ (when ?b _) => unfold when
      | |- respects _ (await _ _) => unfold await
      | |- respects _ (shot _ _) => unfold shot
      end ].

Lemma calm_saveStorageState : respects calm (saveStorageState respond).
Proof.
  intros s r s' H. unfold saveStorageState in H.
  unfold bind at 1 in H. unfold gets at 1 in H.
  destruct (context s) eqn:Hc; cbn [when] in H.
  - unfold bind at 1 in H.
    destruct (await_any _ StorageState s) as (a & w & Ha). rewrite Ha in H.
    destruct a as [snapshot|e].
    + inversion H; subst. repeat split; try reflexivity.
      cbn. discriminate.
    + inversion H; subst. apply calm_answered.
  - inversion H; subst. apply calm_refl.
Qed.
#[local] Hint Resolve calm_saveStorageState : calm.

Lemma calm_findEmailField sels : respects calm (findEmailField respond sels).
Proof. induction sels as [|sel rest IH]; simpl; calm_walk. Qed.
#[local] Hint Resolve calm_findEmailField : calm.

Lemma calm_loginStuck : respects calm (loginStuck respond).
Proof. unfold loginStuck. calm_walk. Qed.
#[local] Hint Resolve calm_loginStuck : calm.

(** X1.  However the login procedure ends, it holds the same browser
    objects as before, leaves the CDP session file as it was, and deletes no
    authentication snapshot: a failed login costs no saved session. *)
Theorem login_is_calm :
  forall creds s r s', login respond creds s = (r, s') -> calm s s'.
Proof.
  intros creds.
  change (respects calm (login respond creds)).
  unfold login, dismissCookieBanner, submitStep. calm_walk.
Qed.

Lemma saves_throw A e : saves_snapshot (throw (W := W) (A := A) e).
Proof. intros s a s' H. discriminate H. Qed.

Lemma saves_bind A B (m : M W A) (k : A -> M W B) :
  respects calm m -> (forall a, saves_snapshot (k a)) -> saves_snapshot (bind m k).
Proof.
  intros Hm Hk s b s' H Hc. apply bind_inv in H. destruct H as (a & s1 & E & H).
  eapply Hk; [exact H | ].
  destruct (Hm _ _ _ E) as (_ & Hctx & _). rewrite Hctx. exact Hc.
Qed.

Lemma saves_try A (m : M W A) h :
  respects calm m -> saves_snapshot m -> (forall e, saves_snapshot (h e)) ->
  saves_snapshot (try_catch m h).
Proof.
  intros Hcalm Hm Hh s a s' H Hc. unfold try_catch in H.
  destruct (m s) as [[a'|e] s1] eqn:E.
  - inversion H; subst. eapply Hm; eauto.
  - eapply Hh; [exact H | ].
    destruct (Hcalm _ _ _ E) as (_ & Hctx & _). rewrite Hctx. exact Hc.
Qed.

Lemma saves_saveStorageState : saves_snapshot (saveStorageState respond).
Proof.
  intros s a s' H Hc. unfold saveStorageState in H.
  unfold bind at 1 in H. unfold gets at 1 in H. rewrite Hc in H. cbn [when] in H.
  unfold bind at 1 in H.
  destruct (await_any _ StorageState s) as (r & w & Ha). rewrite Ha in H.
  destruct r as [snapshot|e]; [ | discriminate H].
  inversion H; subst. cbn. discriminate.
Qed.

Create HintDb saves.
#[local] Hint Resolve saves_throw saves_saveStorageState : saves.

Ltac saves_walk :=
  repeat first
    [ progress intros
    | progress cbv beta zeta
    | solve [auto with saves]
    | apply saves_bind; [solve [calm_walk] | ]
    | match goal with
      | |- saves_snapshot (match ?x with _ => _ end) => destruct x
      end ].

Lemma saves_loginStuck : saves_snapshot (loginStuck respond).
Proof.
  unfold loginStuck. saves_walk.
  apply saves_try; [calm_walk | saves_walk | saves_walk].
Qed.
#[local] Hint Resolve saves_loginStuck : saves.


(** ** A login that does not land *)



(** ** The session probe *)

(** X5.  What [ensureLoggedIn] does with the probe, once the browser is
    ensured.  A 2xx answer ends it there: no credentials are read, so a
    configuration without credentials is no obstacle to a valid session.
    Any other answer, and a probe that fails outright, lead to the login
    procedure: the failure of the probe itself is never reported. *)
Theorem probe_decides_login :
  forall s s1, ensureBrowser respond s = (Ok tt, s1) ->
  forall answer w,
    respond (RequestGet (ZAPIER_BASE ++ API.me)) (world s1) = (answer, w) ->
    let s2 := answered s1 (Ev (RequestGet (ZAPIER_BASE ++ API.me))) w in
    (forall resp, answer = Ok resp -> ok resp = true ->
                  ensureLoggedIn respond s = (Ok tt, s2))
    /\ ((forall resp, answer = Ok resp -> ok resp = false) ->
        ensureLoggedIn respond s
        = bind (@getCredentials W) (login respond) s2).
Proof.
  intros s s1 Hbrowser answer w Hprobe s2.
  pose proof (ensureBrowser_page _ _ Hbrowser) as Hpage.
  assert (Hvalid : isSessionValid respond s1
                   = (Ok match answer with Ok resp => ok resp | Throw _ => false end, s2)).
  { unfold isSessionValid. unfold bind at 1. unfold gets. rewrite Hpage. cbn [negb].
    destruct answer as [resp|e].
    - apply await_ok in Hprobe. erewrite try_ok; [reflexivity | ].
      run_ok Hprobe. reflexivity.
    - apply await_throw in Hprobe. erewrite try_throw; [reflexivity | ].
      run_throw Hprobe. reflexivity. }
  split.
  - intros resp -> Hok. unfold ensureLoggedIn.
    run_ok Hbrowser. run_ok Hvalid. rewrite Hok. reflexivity.
  - intros Hbad. unfold ensureLoggedIn.
    run_ok Hbrowser. run_ok Hvalid.
    destruct answer as [resp|e]; [rewrite (Hbad resp eq_refl) | ]; reflexivity.
Qed.

(** ** Reconnection and launch *)

Lemma launchBrowser_restores (s s' : state W) :
  launchBrowser respond s = (Ok tt, s') ->
  exists more,
    trace s' = (trace s ++ Ev (Launch (negb (debug s)))
                        :: Ev (NewContext (storage_state (files s))) :: more)%list.
Proof.
  unfold launchBrowser. intros H. do 5 inv_bind H.
  inv_pure E. apply await_inv in E0. destruct E0 as (w & ->).
  unfold set_browser in E1. inv_pure E1. inv_pure E2.
  apply await_inv in E3. destruct E3 as (w' & ->).
  assert (Hk : forall u : unit, keeps
            (set_context true ;;
             await respond NewPage ;;
             set_page true ;;
             wsEndpoint <- perform respond WsEndpoint ;;
             match wsEndpoint with
             | Some ws => when (negb (ws =? "")) (saveCDPSession respond ws)
             | None => ret tt
             end)) by (intros u; unfold saveCDPSession; keeps).
  destruct (Hk a3 _ _ _ H) as (_ & _ & _ & more & Htrace).
  exists more. rewrite Htrace. cbn [trace answered files debug].
  rewrite <- !app_assoc. reflexivity.
Qed.

Lemma launchBrowser_same_snapshot : respects same_snapshot (launchBrowser respond).
Proof.
  assert (Hrefl : forall s : state W, same_snapshot s s) by (intros; reflexivity).
  assert (Htrans : forall s1 s2 s3 : state W,
             same_snapshot s1 s2 -> same_snapshot s2 s3 -> same_snapshot s1 s3)
    by (unfold same_snapshot; intros; congruence).
  assert (Hans : forall (s : state W) ev w, same_snapshot s (answered s ev w))
    by (intros; reflexivity).
  assert (Hset : forall A (f : state W -> state W) (a : A),
             (forall s, same_snapshot s (f s)) ->
             respects same_snapshot (fun s => (Ok a, f s))).
  { intros A f a Hf s r s' H. inversion H; subst. apply Hf. }
  assert (Hsave : forall ws, respects same_snapshot (saveCDPSession respond ws)).
  { intros ws s r s' H.
    unfold saveCDPSession, bind, perform, gets, set_files, modify in H.
    destruct (respond DateISO (world s)) as [iso w].
    inversion H; subst. reflexivity. }
  unfold launchBrowser, when.
  repeat first
    [ progress intros
    | progress cbv beta
    | apply Hsave
    | apply (respects_bind _ Htrans)
    | apply (respects_gets _ Hrefl)
    | apply (respects_ret _ Hrefl)
    | apply (respects_perform _ Hans)
    | apply (respects_lift _ Hrefl)
    | match goal with
      | |- respects _ (await _ _) => unfold await
      | |- respects _ (match ?x with _ => _ end) => destruct x
      | |- respects _ (set_browser _) => apply Hset; reflexivity
      | |- respects _ (set_context _) => apply Hset; reflexivity
      | |- respects _ (set_page _) => apply Hset; reflexivity
      end ].
Qed.

Lemma get_truthy v k : truthy v = true -> get v k = Ok (opt_get v k).
Proof. destruct v; try discriminate; reflexivity. Qed.

Lemma loadCDPSession_file (s : state W) v :
  cdp_session (files s) = Some (Some v) -> loadCDPSession s = (Ok v, s).
Proof. intros H. unfold loadCDPSession, bind, gets, ret. rewrite H. reflexivity. Qed.

(** X6.  A CDP session file that names a browser which can no longer be
    reached costs the authentication snapshot as well: the failed
    connection attempt deletes both session files, and the browser that is
    launched next gets a context created without any stored state. *)
Theorem failed_reconnection_discards_snapshot :
  forall s v e w,
    cdp_session (files s) = Some (Some v) -> truthy v = true ->
    browser s = false -> page s = false ->
    respond (ConnectOverCDP (opt_get v "wsEndpoint")) (world s) = (Throw e, w) ->
    let s1 := with_files no_files
                (answered s (Ev (ConnectOverCDP (opt_get v "wsEndpoint"))) w) in
    ensureBrowser respond s = launchBrowser respond s1
    /\ forall s', ensureBrowser respond s = (Ok tt, s') ->
         exists more,
           trace s' = (trace s ++ Ev (ConnectOverCDP (opt_get v "wsEndpoint"))
                               :: Ev (Launch (negb (debug s)))
                               :: Ev (NewContext None) :: more)%list.
Proof.
  intros s v e w Hfile Hv Hb Hp Hc s1.
  assert (Hrun : ensureBrowser respond s = launchBrowser respond s1).
  { unfold ensureBrowser.
    pose proof (loadCDPSession_file s v Hfile) as Hload. run_ok Hload.
    unfold bind at 1. unfold gets at 1. rewrite Hb, Hv. cbn [andb negb].
    assert (Hre : reconnect respond v s = (Ok false, s1)).
    { unfold reconnect. erewrite try_throw.
      2:{ unfold bind at 1. unfold lift at 1. rewrite (get_truthy v _ Hv).
          apply await_throw in Hc. run_throw Hc. reflexivity. }
      reflexivity. }
    run_ok Hre. unfold bind at 1. unfold gets at 1.
    change (page s1) with (page s). rewrite Hp. reflexivity. }
  split; [exact Hrun | ].
  intros s' H. rewrite Hrun in H. apply launchBrowser_restores in H.
  destruct H as (more & Ht). exists more. rewrite Ht. unfold s1.
  cbn [trace answered with_files files debug storage_state no_files].
  rewrite <- app_assoc. reflexivity.
Qed.

Lemma reconnect_connected s v shape w :
  truthy v = true ->
  respond (ConnectOverCDP (opt_get v "wsEndpoint")) (world s) = (Ok shape, w) ->
  exists s2,
    reconnect respond v s
    = (Ok match shape with ContextWithPage => true | _ => false end, s2)
    /\ browser s2 = true /\ files s2 = files s /\ world s2 = w
    /\ trace s2 = (trace s ++ [Ev (ConnectOverCDP (opt_get v "wsEndpoint"))])%list
    /\ debug s2 = debug s
    /\ page s2 = match shape with ContextWithPage => true | _ => page s end
    /\ (shape = ContextWithPage -> context s2 = true).
Proof.
  intros Hv Hc. unfold reconnect.
  apply await_ok in Hc.
  destruct shape; eexists; (split; [
    erewrite try_ok; [reflexivity | ];
    unfold bind at 1; unfold lift at 1; rewrite (get_truthy v _ Hv);
    run_ok Hc; reflexivity | ]);
    cbn; repeat split; try reflexivity; intros; discriminate.
Qed.

Lemma ensureBrowser_reconnects s v :
  cdp_session (files s) = Some (Some v) -> truthy v = true -> browser s = false ->
  ensureBrowser respond s
  = (returned <- reconnect respond v ;;
     if returned then ret tt
     else p <- gets (@page W) ;; if p then ret tt else launchBrowser respond) s.
Proof.
  intros Hfile Hv Hb. unfold ensureBrowser.
  pose proof (loadCDPSession_file s v Hfile) as Hload. run_ok Hload.
  unfold bind at 1. unfold gets at 1. rewrite Hb, Hv. reflexivity.
Qed.

Lemma ensureBrowser_adopts s v w :
  cdp_session (files s) = Some (Some v) -> truthy v = true -> browser s = false ->
  respond (ConnectOverCDP (opt_get v "wsEndpoint")) (world s) = (Ok ContextWithPage, w) ->
  exists s', ensureBrowser respond s = (Ok tt, s')
             /\ browser s' = true /\ context s' = true /\ page s' = true
             /\ files s' = files s /\ world s' = w
             /\ trace s' = (trace s ++ [Ev (ConnectOverCDP (opt_get v "wsEndpoint"))])%list.
Proof.
  intros Hfile Hv Hb Hc.
  destruct (reconnect_connected s v _ w Hv Hc)
    as (s2 & Hre & Hb2 & Hf2 & Hw2 & Ht2 & Hd2 & Hp2 & Hc2).
  exists s2. rewrite (ensureBrowser_reconnects s v Hfile Hv Hb). run_ok Hre.
  repeat split; auto.
Qed.

(** X7.  What a connection attempt that goes through leads to.  When the
    browser reached has a context with a page, that page is adopted: nothing
    is launched and the session files stay as they are.  When it has no
    page, the connection is abandoned for a launch; the session files are
    intact then, so the new context is created from the authentication
    snapshot. *)
Theorem reconnection_outcomes :
  forall s v shape w,
    cdp_session (files s) = Some (Some v) -> truthy v = true ->
    browser s = false ->
    respond (ConnectOverCDP (opt_get v "wsEndpoint")) (world s) = (Ok shape, w) ->
    (shape = ContextWithPage ->
     exists s', ensureBrowser respond s = (Ok tt, s')
                /\ browser s' = true /\ context s' = true /\ page s' = true
                /\ files s' = files s /\ world s' = w
                /\ trace s'
                   = (trace s ++ [Ev (ConnectOverCDP (opt_get v "wsEndpoint"))])%list)
    /\ (shape <> ContextWithPage -> page s = false ->
        exists s2, ensureBrowser respond s = launchBrowser respond s2
                   /\ browser s2 = true /\ files s2 = files s
                   /\ forall s', ensureBrowser respond s = (Ok tt, s') ->
                        exists more,
                          trace s' = (trace s
                                      ++ Ev (ConnectOverCDP (opt_get v "wsEndpoint"))
                                      :: Ev (Launch (negb (debug s)))
                                      :: Ev (NewContext (storage_state (files s)))
                                      :: more)%list).
Proof.
  intros s v shape w Hfile Hv Hb Hc.
  split.
  - intros ->. apply ensureBrowser_adopts; assumption.
  - intros Hshape Hp.
    destruct (reconnect_connected s v _ w Hv Hc)
      as (s2 & Hre & Hb2 & Hf2 & Hw2 & Ht2 & Hd2 & Hp2 & Hc2).
    exists s2.
    assert (Heq : ensureBrowser respond s = launchBrowser respond s2).
    { rewrite (ensureBrowser_reconnects s v Hfile Hv Hb). run_ok Hre.
      destruct shape; try (exfalso; apply Hshape; reflexivity);
        (unfold bind at 1; unfold gets at 1; rewrite Hp2, Hp; reflexivity). }
    split; [exact Heq | split; [exact Hb2 | split; [exact Hf2 | ]]].
    intros s' H. rewrite Heq in H. apply launchBrowser_restores in H.
    destruct H as (more & Ht). exists more. rewrite Ht, Ht2, Hd2, Hf2.
    rewrite <- app_assoc. reflexivity.
Qed.

Lemma respects_modify (R : state W -> state W -> Prop) f :
  (forall s, R s (f s)) -> respects R (modify f).
Proof. intros Hf s r s' H. inversion H; subst. apply Hf. Qed.

Lemma launchBrowser_browser s s' :
  launchBrowser respond s = (Ok tt, s') -> browser s' = true.
Proof.
  unfold launchBrowser. intros H. do 3 inv_bind H.
  assert (Hb : browser s2 = true) by (unfold set_browser in E1; inv_pure E1; reflexivity).
  set (R := fun s s' : state W => browser s = true -> browser s' = true).
  assert (Hrefl : forall s, R s s) by (intros ? ?; assumption).
  assert (Htrans : forall s1 s2 s3, R s1 s2 -> R s2 s3 -> R s1 s3)
    by (unfold R; intros; auto).
  assert (Hans : forall s ev w, R s (answered s ev w)) by (intros ? ? ? ?; assumption).
  assert (Hk : respects R
            (f <- gets (@files W) ;;
             await respond (NewContext (storage_state f)) ;;
             set_context true ;;
             await respond NewPage ;;
             set_page true ;;
             wsEndpoint <- perform respond WsEndpoint ;;
             match wsEndpoint with
             | Some ws => when (negb (ws =? "")) (saveCDPSession respond ws)
             | None => ret tt
             end)).
  { unfold saveCDPSession, when, set_context, set_page, set_files.
    repeat first
      [ progress intros
      | progress cbv beta
      | apply (respects_bind _ Htrans)
      | apply (respects_gets _ Hrefl)
      | apply (respects_ret _ Hrefl)
      | apply (respects_perform _ Hans)
      | apply (respects_lift _ Hrefl)
      | apply respects_modify; intros ? ?; assumption
      | match goal with
        | |- respects _ (await _ _) => unfold await
        | |- respects _ (match ?x with _ => _ end) => destruct x
        end ]. }
  exact (Hk _ _ _ H Hb).
Qed.

Lemma reconnect_holds v s r s' :
  reconnect respond v s = (Ok r, s') ->
  if r then browser s' = true /\ page s' = true else page s' = page s.
Proof.
  unfold reconnect, try_catch, await, perform, bind, lift.
  destruct (get v "wsEndpoint") as [ws|e]; simpl.
  - destruct (respond (ConnectOverCDP ws) (world s)) as [[[ | | ]|e] w]; simpl;
      intros H; inversion H; subst; auto.
  - intros H; inversion H; subst. reflexivity.
Qed.

Lemma loadCDPSession_any (s : state W) : exists v, loadCDPSession s = (Ok v, s).
Proof. unfold loadCDPSession, bind, gets, ret. eexists. reflexivity. Qed.

(** X8.  [ensureBrowser] settles: once it has returned, the client holds
    a browser and a page, and a second call returns at once, with no call
    on the environment and no change of state.  (The premise excludes a
    client that holds a page without a browser; a fresh client holds
    neither.) *)
Theorem ensureBrowser_settles :
  forall s s1,
    (page s = true -> browser s = true) ->
    ensureBrowser respond s = (Ok tt, s1) ->
    browser s1 = true /\ page s1 = true
    /\ ensureBrowser respond s1 = (Ok tt, s1).
Proof.
  intros s s1 Hinv H.
  pose proof (ensureBrowser_page _ _ H) as Hp.
  assert (Hb : browser s1 = true).
  { unfold ensureBrowser in H.
    destruct (loadCDPSession_any s) as (v & Hl).
    erewrite bind_ok in H by exact Hl.
    unfold bind at 1 in H. unfold gets at 1 in H.
    destruct (truthy v && negb (browser s)) eqn:Hgo.
    - inv_bind H. apply reconnect_holds in E. destruct a.
      + inv_pure H. apply E.
      + inv_bind H. inv_pure E0. destruct (page s2) eqn:Hp0.
        * inv_pure H. apply andb_prop in Hgo. destruct Hgo as (_ & Hnb).
          symmetry in E. apply Hinv in E. rewrite E in Hnb. discriminate.
        * eapply launchBrowser_browser; eauto.
    - inv_bind H. inv_pure E.
      unfold bind at 1 in H. unfold gets at 1 in H.
      destruct (page s0) eqn:Hp0.
      + inv_pure H. auto.
      + eapply launchBrowser_browser; eauto. }
  split; [exact Hb | split; [exact Hp | ]].
  unfold ensureBrowser.
  destruct (loadCDPSession_any s1) as (v & Hl). run_ok Hl.
  unfold bind at 1. unfold gets at 1. rewrite Hb, andb_false_r.
  unfold bind at 1. unfold ret at 1.
  unfold bind at 1. unfold gets at 1. rewrite Hp. reflexivity.
Qed.

(** X9.  The launch and the fast path fit together.  When the launched
    browser exposes a non-empty CDP endpoint, the launch records it in the
    CDP session file (the authentication snapshot is left as it was), and a
    client that finds the files later and holds no browser connects to that
    very endpoint; if the browser still has its page, the client adopts it. *)
Theorem launch_records_endpoint_for_reconnection :
  forall s w1 w2 w3 w4 w5 ws created,
    respond (Launch (negb (debug s))) (world s) = (Ok tt, w1) ->
    respond (NewContext (storage_state (files s))) w1 = (Ok tt, w2) ->
    respond NewPage w2 = (Ok tt, w3) ->
    respond WsEndpoint w3 = (Some ws, w4) ->
    ws <> "" ->
    respond DateISO w4 = (created, w5) ->
    exists s1,
      launchBrowser respond s = (Ok tt, s1)
      /\ files s1 = {| cdp_session := Some (Some (VObj [("wsEndpoint", VStr ws);
                                                       ("createdAt", VStr created)]));
                       storage_state := storage_state (files s) |}
      /\ forall s2 w,
           files s2 = files s1 -> browser s2 = false ->
           respond (ConnectOverCDP (VStr ws)) (world s2) = (Ok ContextWithPage, w) ->
           exists s3, ensureBrowser respond s2 = (Ok tt, s3)
                      /\ page s3 = true /\ files s3 = files s1
                      /\ trace s3 = (trace s2 ++ [Ev (ConnectOverCDP (VStr ws))])%list.
Proof.
  intros s w1 w2 w3 w4 w5 ws created Hlaunch Hctx Hpage Hws Hne Hiso.
  eexists. split; [ | split].
  - unfold launchBrowser.
    unfold bind at 1. unfold gets at 1.
    run_await. unfold set_browser at 1. unfold bind at 1. unfold modify at 1.
    unfold bind at 1. unfold gets at 1. cbn [files].
    run_await. unfold set_context at 1. unfold bind at 1. unfold modify at 1.
    run_await. unfold set_page at 1. unfold bind at 1. unfold modify at 1.
    run_perform. cbv beta iota.
    replace (negb (ws =? "")) with true
      by (symmetry; apply negb_true_iff; apply String.eqb_neq; exact Hne).
    unfold when, saveCDPSession. run_perform.
    unfold bind, gets, set_files, modify. reflexivity.
  - reflexivity.
  - intros s2 w Hf Hb Hc.
    assert (Hfile : cdp_session (files s2)
                    = Some (Some (VObj [("wsEndpoint", VStr ws); ("createdAt", VStr created)])))
      by (rewrite Hf; reflexivity).
    destruct (ensureBrowser_adopts s2 _ w Hfile eq_refl Hb Hc)
      as (s3 & Hrun & _ & _ & Hp3 & Hf3 & _ & Ht3).
    exists s3. rewrite <- Hf. auto.
Qed.

(** ** The primary path of the read operations *)

Lemma prefix_left (sub s rest : string) :
  String.prefix sub s = true -> String.prefix sub (s ++ rest) = true.
Proof.
  revert s. induction sub as [|c sub IH]; intros s H.
  - destruct (s ++ rest); reflexivity.
  - destruct s as [|c' s]; [discriminate H | ].
    cbn [append String.prefix] in *.
    destruct (ascii_dec c c'); [apply IH; exact H | discriminate H].
Qed.

Lemma includes_left (s rest sub : string) :
  includes s sub = true -> includes (s ++ rest) sub = true.
Proof.
  induction s as [|c s IH]; intros H.
  - cbn [includes] in H. destruct (String.prefix sub "") eqn:Hp; [ | discriminate H].
    apply includes_prefix. apply prefix_left. exact Hp.
  - cbn [includes] in H. destruct (String.prefix sub (String c s)) eqn:Hp.
    + apply includes_prefix. apply prefix_left. exact Hp.
    + cbn [append includes]. rewrite (IH H).
      destruct (String.prefix sub (String c (s ++ rest))); reflexivity.
Qed.

Lemma includes_right (before s sub : string) :
  includes s sub = true -> includes (before ++ s) sub = true.
Proof.
  intros H. induction before as [|c before IH]; [exact H | ].
  cbn [append includes]. rewrite IH.
  destruct (String.prefix sub (String c (before ++ s))); reflexivity.
Qed.

(** X10.  The fallback of a read operation is triggered by the text of
    the failure, not by the status of the answer.  A request rejected with
    a status other than 401 and 403 hands over to the fallback whenever
    the status text, or the part of the body shown in the error, contains
    [Not Found] or [404]: a 500 whose body says [Not Found] is treated like
    a missing endpoint, and raises nothing to the caller. *)
Theorem rejection_text_triggers_fallback :
  forall s s1, ensureLoggedIn respond s = (Ok tt, s1) ->
  forall path params resp w2,
    respond (RequestGet (getUrl path params)) (world s1) = (Ok resp, w2) ->
    ok resp = false ->
    resp_status resp <> 401%Z -> resp_status resp <> 403%Z ->
    let shown := substring0 500 match resp_text resp with Ok b => b | Throw _ => "" end in
    includes (resp_statusText resp) "Not Found" = true
    \/ includes (resp_statusText resp) "404" = true
    \/ includes shown "Not Found" = true
    \/ includes shown "404" = true ->
    let s2 := answered s1 (Ev (RequestGet (getUrl path params))) w2 in
    (path = API.zaps -> params = None ->
     listZaps respond string_gt0 s = listZapsFromPage respond string_gt0 s2)
    /\ (forall options,
          path = API.zapRuns -> params = Some (historyParams options) ->
          viewHistory respond string_gt0 options s
          = viewHistoryFromPage respond string_gt0 options s2)
    /\ (forall runId,
          path = API.zapRunDetail runId -> params = None ->
          viewError respond runId s = viewErrorFromPage respond runId s2).
Proof.
  intros s s1 Hlogin path params resp w2 Hget Hok H401 H403 shown Htext s2.
  set (e := Error ("API request" ++ " failed: " ++ string_of_Z (resp_status resp) ++ " "
                   ++ resp_statusText resp ++ " — " ++ shown)).
  assert (Hapi : apiGet respond path params s = (Throw e, s2)).
  { erewrite apiGet_run by eassumption. rewrite Hok. cbn [negb].
    unfold rejectResponse.
    apply Z.eqb_neq in H401. apply Z.eqb_neq in H403. rewrite H401, H403.
    reflexivity. }
  assert (Hnf : notFound e = true).
  { unfold notFound, e, message. apply orb_true_iff.
    destruct Htext as [H | [H | [H | H]]].
    - right. do 4 apply includes_right. apply includes_left. exact H.
    - left. do 4 apply includes_right. apply includes_left. exact H.
    - right. do 5 apply includes_right. exact H.
    - left. do 5 apply includes_right. exact H. }
  split; [ | split].
  - intros -> ->. unfold listZaps.
    erewrite try_throw by (run_throw Hapi; reflexivity).
    rewrite Hnf. reflexivity.
  - intros options -> ->. unfold viewHistory.
    erewrite try_throw by (run_throw Hapi; reflexivity).
    rewrite Hnf. reflexivity.
  - intros runId -> ->. unfold viewError.
    erewrite try_throw by (run_throw Hapi; reflexivity).
    rewrite Hnf. reflexivity.
Qed.

(** X11.  A payload the normalizer cannot digest is never mistaken for a
    missing endpoint.  When the primary request succeeded and the
    conversion of its body raises (the body is [null], the item list is no
    array, an item is [null], an identifier cannot be converted to a
    string), the error text contains neither [404] nor [Not Found], so the
    fallback is not tried and the error is raised to the caller. *)
Theorem malformed_payload_is_reported :
  forall s data s1 e,
    (apiGet respond API.zaps None s = (Ok data, s1) ->
     (zaps <~ item_list data (VArr []) ;; js_map "zaps" zapInfo zaps) = Throw e ->
     notFound e = false
     /\ listZaps respond string_gt0 s = (Throw e, s1))
    /\ (forall options,
          apiGet respond API.zapRuns (Some (historyParams options)) s = (Ok data, s1) ->
          (runs <~ item_list data (VArr []) ;; js_map "runs" zapRun runs) = Throw e ->
          notFound e = false
          /\ viewHistory respond string_gt0 options s = (Throw e, s1))
    /\ (forall runId,
          apiGet respond (API.zapRunDetail runId) None s = (Ok data, s1) ->
          runDetail data = Throw e ->
          notFound e = false
          /\ viewError respond runId s = (Throw e, s1)).
Proof.
  intros s data s1 e.
  assert (Hlist : forall B what (f : value -> result B),
             (forall x err, f x = Throw err -> notFound err = false) ->
             notFound (TypeError (what ++ ".map is not a function")) = false ->
             (items <~ item_list data (VArr []) ;; js_map what f items) = Throw e ->
             notFound e = false).
  { intros B what f Hf Hwhat H.
    destruct (item_list data (VArr [])) as [items|err] eqn:Hitems; cbn [rbind] in H.
    - apply js_map_throw in H. destruct H as [-> | (x & Hx)]; [exact Hwhat | eauto].
    - inversion H; subst. eapply item_list_throw; eauto. }
  split; [ | split].
  - intros Hapi Hbad.
    assert (Hnf : notFound e = false)
      by (apply (Hlist _ "zaps" zapInfo zapInfo_throw eq_refl Hbad)).
    split; [exact Hnf | ].
    unfold listZaps. erewrite try_throw.
    2:{ run_ok Hapi. unfold lift. rewrite Hbad. reflexivity. }
    rewrite Hnf. reflexivity.
  - intros options Hapi Hbad.
    assert (Hnf : notFound e = false)
      by (apply (Hlist _ "runs" zapRun zapRun_throw eq_refl Hbad)).
    split; [exact Hnf | ].
    unfold viewHistory. erewrite try_throw.
    2:{ run_ok Hapi. unfold lift. rewrite Hbad. reflexivity. }
    rewrite Hnf. reflexivity.
  - intros runId Hapi Hbad.
    assert (Hnf : notFound e = false) by (eapply runDetail_throw; eauto).
    split; [exact Hnf | ].
    unfold viewError. erewrite try_throw.
    2:{ run_ok Hapi. unfold lift. rewrite Hbad. reflexivity. }
    rewrite Hnf. reflexivity.
Qed.

Lemma substring0_length n s : (String.length (substring0 n s) <= n)%nat.
Proof.
  unfold substring0. revert s. induction n as [|n IH]; intros [|c s]; cbn; auto.
  - apply Nat.le_0_l.
  - apply le_n_S. apply IH.
Qed.

(** X12.  A request the server rejects with a status other than 401 and
    403 raises one error that carries the status, the status text and at
    most the first 500 characters of the body; a body that cannot be read
    counts as empty.  The session files are left alone. *)
Theorem rejected_request_reports_status_and_body :
  forall s s1, ensureLoggedIn respond s = (Ok tt, s1) ->
  forall path params resp w2,
    respond (RequestGet (getUrl path params)) (world s1) = (Ok resp, w2) ->
    ok resp = false ->
    resp_status resp <> 401%Z -> resp_status resp <> 403%Z ->
    exists shown s2,
      apiGet respond path params s
      = (Throw (Error ("API request failed: " ++ string_of_Z (resp_status resp) ++ " "
                       ++ resp_statusText resp ++ " — " ++ shown)), s2)
      /\ (String.length shown <= 500)%nat
      /\ (forall body, resp_text resp = Ok body -> shown = substring0 500 body)
      /\ (forall err, resp_text resp = Throw err -> shown = "")
      /\ files s2 = files s1.
Proof.
  intros s s1 Hlogin path params resp w2 Hget Hok H401 H403.
  exists (substring0 500 match resp_text resp with Ok b => b | Throw _ => "" end).
  eexists. split; [ | split; [ | split; [ | split]]].
  - erewrite apiGet_run by eassumption. rewrite Hok. cbn [negb].
    unfold rejectResponse.
    apply Z.eqb_neq in H401. apply Z.eqb_neq in H403. rewrite H401, H403.
    cbn [orb]. reflexivity.
  - apply substring0_length.
  - intros body ->. reflexivity.
  - intros err ->. reflexivity.
  - reflexivity.
Qed.

(** ** The fallback listeners *)

(** X13.  What a fallback listener resolves its promise with is a payload
    the primary path would have read the same way.  An accepted response
    has status 200 and a URL with the listener's keywords, its body is
    JSON, and the value handed on is the item list the primary path
    extracts from that body, which is truthy; for a run detail it is the
    body itself. *)
Theorem accepted_response_is_a_primary_payload :
  forall r v,
    (zapsListener string_gt0 r = Some v ->
     resp_status r = 200%Z
     /\ includes (resp_url r) "/zap" = true /\ includes (resp_url r) "api" = true
     /\ exists json, resp_json r = Ok json
                     /\ item_list json (VArr []) = Ok v /\ truthy v = true)
    /\ (runsListener string_gt0 r = Some v ->
        resp_status r = 200%Z
        /\ (includes (resp_url r) "run" = true \/ includes (resp_url r) "history" = true)
        /\ includes (resp_url r) "api" = true
        /\ exists json, resp_json r = Ok json
                        /\ item_list json (VArr []) = Ok v /\ truthy v = true)
    /\ (forall runId,
          detailListener runId r = Some v ->
          resp_status r = 200%Z /\ includes (resp_url r) runId = true
          /\ resp_json r = Ok v
          /\ (truthy (opt_get v "id") = true \/ truthy (opt_get v "status") = true)).
Proof.
  intros r v. split; [ | split].
  - intros H. apply list_listener_accepts in H.
    destruct H as (Hurl & Hs & json & Hj & Hi & Ht).
    apply andb_prop in Hurl. destruct Hurl as (Hzap & Hapi).
    repeat split; auto. exists json. auto.
  - intros H. apply list_listener_accepts in H.
    destruct H as (Hurl & Hs & json & Hj & Hi & Ht).
    apply andb_prop in Hurl. destruct Hurl as (Hrun & Hapi).
    apply orb_prop in Hrun.
    repeat split; auto. exists json. auto.
  - intros runId. unfold detailListener, listener.
    destruct (includes (resp_url r) runId); [ | discriminate].
    destruct (resp_status r =? 200)%Z eqn:Hs; [ | discriminate].
    apply Z.eqb_eq in Hs. cbn [andb].
    destruct (resp_json r) as [json|]; cbn [rbind]; [ | discriminate].
    destruct (get json "id") as [id|] eqn:Hid; cbn [rbind]; [ | discriminate].
    destruct (get json "status") as [status|] eqn:Hst; cbn [rbind]; [ | discriminate].
    destruct (truthy (id ||| status)) eqn:Ht; [ | discriminate].
    intros H. inversion H; subst. repeat split; auto.
    assert (Hoid : opt_get v "id" = id) by (destruct v; cbn in *; congruence).
    assert (Host : opt_get v "status" = status) by (destruct v; cbn in *; congruence).
    rewrite Hoid, Host. unfold js_or in Ht.
    destruct (truthy id); [left; reflexivity | right; exact Ht].
Qed.

(** ** The mutating operations *)


(** X15.  [replayRun] reads nothing but the status of the answer to its
    POST request.  A 2xx status is a success, reported without a
    screenshot; any other status, and a request that fails outright, lead
    to the UI fallback, and neither raises an error nor touches the session
    files. *)
Theorem replay_via_api_outcomes :
  forall s s1, ensureLoggedIn respond s = (Ok tt, s1) ->
  forall runId answer w2,
    respond (RequestPost (ZAPIER_BASE ++ API.zapRunDetail runId ++ "/replay")) (world s1)
    = (answer, w2) ->
    let s2 := answered s1 (Ev (RequestPost (ZAPIER_BASE ++ API.zapRunDetail runId
                                            ++ "/replay"))) w2 in
    (forall resp, answer = Ok resp -> ok resp = true ->
       replayRun respond runId s
       = (Ok {| OpResult.success := true;
                OpResult.message := "Run " ++ runId ++ " replayed successfully via API.";
                OpResult.screenshot := None |}, s2))
    /\ ((forall resp, answer = Ok resp -> ok resp = false) ->
        replayRun respond runId s = replayViaUi respond runId s2)
    /\ files s2 = files s1.
Proof.
  intros s s1 Hlogin runId answer w2 Hpost s2.
  pose proof (ensureLoggedIn_page _ _ Hlogin) as Hpage.
  assert (Hvia : replayViaApi respond runId s1
                 = (Ok match answer with
                       | Ok resp =>
                           if ok resp
                           then Some {| OpResult.success := true;
                                        OpResult.message :=
                                          "Run " ++ runId ++ " replayed successfully via API.";
                                        OpResult.screenshot := None |}
                           else None
                       | Throw _ => None
                       end, s2)).
  { unfold replayViaApi. destruct answer as [resp|err].
    - apply await_ok in Hpost. erewrite try_ok; [reflexivity | ].
      erewrite bind_ok by (apply the_page_ok; exact Hpage).
      run_ok Hpost. destruct (ok resp); reflexivity.
    - apply await_throw in Hpost. erewrite try_throw; [reflexivity | ].
      erewrite bind_ok by (apply the_page_ok; exact Hpage).
      run_throw Hpost. reflexivity. }
  split; [ | split; [ | reflexivity]].
  - intros resp -> Hok. unfold replayRun. run_ok Hlogin. run_ok Hvia.
    rewrite Hok. reflexivity.
  - intros Hbad. unfold replayRun. run_ok Hlogin. run_ok Hvia.
    destruct answer as [resp|err]; [rewrite (Hbad resp eq_refl) | ]; reflexivity.
Qed.

(** X16.  The loops over candidate selectors never raise: whatever the
    page answers, and whichever calls reject, looking for the e-mail field,
    for the Replay control and for the toggle returns, with a result that
    says whether a candidate was found. *)
Theorem selector_loops_never_raise :
  forall selectors s,
    (exists found s', findEmailField respond selectors s = (Ok found, s'))
    /\ (exists clicked s', clickReplay respond selectors s = (Ok clicked, s'))
    /\ (exists toggled s', clickToggle respond selectors s = (Ok toggled, s')).
Proof.
  induction selectors as [|selector rest IH]; intros s.
  - repeat split; eexists; eexists; reflexivity.
  - split; [ | split].
    + cbn [findEmailField].
      destruct (await_any _ (WaitForSelector selector 8000) s) as (r & w & Ha).
      set (s1 := answered s (Ev (WaitForSelector selector 8000)) w) in *.
      assert (Htry : exists found,
                 try_catch (await respond (WaitForSelector selector 8000))
                           (fun _ => ret None) s = (Ok found, s1)).
      { unfold try_catch. rewrite Ha. destruct r; eexists; reflexivity. }
      destruct Htry as (found & Htry). run_ok Htry.
      destruct found; [eexists; eexists; reflexivity | apply IH].
    + cbn [clickReplay].
      assert (Htry : exists clicked s1,
                 try_catch
                   (btn <- await respond (Query selector) ;;
                    match btn with
                    | Some b =>
                        visible <- await respond (IsVisible b) ;;
                        if visible then await respond (Click b) ;; ret true else ret false
                    | None => ret false
                    end)
                   (fun _ => ret false) s = (Ok clicked, s1)).
      { unfold try_catch.
        match goal with
        | |- context [match ?m s with _ => _ end] => destruct (m s) as [[b|e] s1]
        end; eexists; eexists; reflexivity. }
      destruct Htry as (clicked & s1 & Htry). run_ok Htry.
      destruct clicked; [eexists; eexists; reflexivity | apply IH].
    + cbn [clickToggle].
      assert (Htry : exists toggled s1,
                 try_catch
                   (toggle <- await respond (Query selector) ;;
                    match toggle with
                    | Some t => await respond (Click t) ;; ret true
                    | None => ret false
                    end)
                   (fun _ => ret false) s = (Ok toggled, s1)).
      { unfold try_catch.
        match goal with
        | |- context [match ?m s with _ => _ end] => destruct (m s) as [[b|e] s1]
        end; eexists; eexists; reflexivity. }
      destruct Htry as (toggled & s1 & Htry). run_ok Htry.
      destruct toggled; [eexists; eexists; reflexivity | apply IH].
Qed.

(** X17.  The last resort of [viewError].  When the run page is reached
    and no response is accepted as the run detail, the operation still
    returns: a detail with the run identifier asked for, status [unknown],
    and a single step, named [Page content] and marked [error], whose
    message is at most the first 2000 characters of the page text.  A page
    text that cannot be read is taken as empty and raises nothing. *)
Theorem error_detail_last_resort :
  forall s s1, ensureLoggedIn respond s = (Ok tt, s1) ->
  forall runId w2 w3 rs w4 t w5 w6 content w7,
    respond (Goto (ZAPIER_BASE ++ "/app/history/run/" ++ runId) 30000) (world s1)
    = (Ok tt, w2) ->
    respond (WaitForTimeout 5000) w2 = (Ok tt, w3) ->
    respond (Responses 15000) w3 = (rs, w4) ->
    Forall (fun r => detailListener runId r = None) rs ->
    respond DateNow w4 = (t, w5) ->
    respond (Screenshot (screenshot_path "zapier-error-detail-" t)) w5 = (Ok tt, w6) ->
    respond (TextContent "body") w6 = (content, w7) ->
    exists text s',
      viewErrorFromPage respond runId s
      = (Ok {| ZapRunDetail.id := runId;
               ZapRunDetail.zapId := "";
               ZapRunDetail.zapTitle := VStr "";
               ZapRunDetail.status := VStr "unknown";
               ZapRunDetail.startedAt := VStr "";
               ZapRunDetail.finishedAt := VUndefined;
               ZapRunDetail.steps :=
                 [ {| Step.name := VStr "Page content";
                      Step.app := VStr "";
                      Step.status := VStr "error";
                      Step.errorMessage := VStr text;
                      Step.inputData := VUndefined;
                      Step.outputData := VUndefined |} ] |}, s')
      /\ (String.length text <= 2000)%nat
      /\ (forall c, content = Ok (Some c) -> text = substring0 2000 c)
      /\ (content = Ok None \/ (exists err, content = Throw err) -> text = "")
      /\ files s' = files s1.
Proof.
  intros s s1 Hlogin runId w2 w3 rs w4 t w5 w6 content w7
         Hgoto Hwait Hrs Hnone Hnow Hshot Htext.
  exists (substring0 2000 match content with Ok (Some c) => c | _ => "" end).
  eexists. split; [ | split; [ | split; [ | split]]].
  - unfold viewErrorFromPage. run_ok Hlogin. run_page Hlogin.
    run_await. run_await. run_intercept.
    rewrite (firstResolved_none _ _ Hnone).
    assert (Hs : shot respond "zapier-error-detail-"
                   (answered (answered (answered s1
                      (Ev (Goto (ZAPIER_BASE ++ "/app/history/run/" ++ runId) 30000)) w2)
                      (Ev (WaitForTimeout 5000)) w3) (Ev (Responses 15000)) w4)
                 = (Ok (screenshot_path "zapier-error-detail-" t),
                    answered (answered (answered (answered (answered s1
                      (Ev (Goto (ZAPIER_BASE ++ "/app/history/run/" ++ runId) 30000)) w2)
                      (Ev (WaitForTimeout 5000)) w3) (Ev (Responses 15000)) w4)
                      (Ev DateNow) w5)
                      (Ev (Screenshot (screenshot_path "zapier-error-detail-" t))) w6)).
    { unfold shot. run_perform. run_await. reflexivity. }
    run_ok Hs. run_perform.
    unfold ret, pageContentDetail. destruct content as [[c|]|err]; reflexivity.
  - apply substring0_length.
  - intros c ->. reflexivity.
  - intros [-> | (err & ->)]; reflexivity.
  - reflexivity.
Qed.

(** ** Every operation is steady *)

#[local] Hint Resolve keeps_ensureLoggedIn : steady.

Lemma keeps_clickReplay sels : keeps (clickReplay respond sels).
Proof. induction sels as [|sel rest IH]; cbn [clickReplay]; keeps. Qed.

Lemma keeps_clickToggle sels : keeps (clickToggle respond sels).
Proof. induction sels as [|sel rest IH]; cbn [clickToggle]; keeps. Qed.

#[local] Hint Resolve keeps_clickReplay keeps_clickToggle : steady.

Lemma keeps_rejectResponse what resp : keeps (W := W) (rejectResponse what resp).
Proof. unfold rejectResponse. cbv zeta. keeps. Qed.

Lemma keeps_apiGet path params : keeps (apiGet respond path params).
Proof. unfold apiGet. cbv zeta. pose proof keeps_rejectResponse. keeps. Qed.

Lemma keeps_apiPatch path data : keeps (apiPatch respond path data).
Proof. unfold apiPatch. pose proof keeps_rejectResponse. keeps. Qed.

Lemma keeps_awaitIntercepted l : keeps (awaitIntercepted respond l).
Proof. unfold awaitIntercepted. keeps. Qed.

#[local] Hint Resolve keeps_rejectResponse keeps_apiGet keeps_apiPatch
  keeps_awaitIntercepted : steady.

(** X18.  No public operation changes the configuration or the debug
    flag, none drops a page the client holds, and none rewrites what was
    recorded of the calls on the environment: whatever the environment
    answers and however the operation ends, a run only adds calls. *)
Theorem operations_are_steady :
  keeps (listZaps respond string_gt0)
  /\ (forall options, keeps (viewHistory respond string_gt0 options))
  /\ (forall runId, keeps (viewError respond runId))
  /\ (forall runId, keeps (replayRun respond runId))
  /\ (forall zapId enable, keeps (toggleZap respond zapId enable)).
Proof.
  split; [ | split; [ | split; [ | split]]].
  - unfold listZaps, listZapsFromPage. keeps.
  - intros options. unfold viewHistory, viewHistoryFromPage. cbv zeta. keeps.
  - intros runId. unfold viewError, viewErrorFromPage. keeps.
  - intros runId.
    unfold replayRun, replayViaApi, replayViaUi, replayLocate, replayReport, confirmDialog.
    keeps.
  - intros zapId enable.
    unfold toggleZap, toggleViaApi, toggleViaUi, toggleLocate, toggleReport, confirmDialog.
    keeps.
Qed.

(** ** What is typed into the page *)

Section Typed.

Variable P : value -> Prop.

Lemma typed_refl (s : state W) : types_only P s s.
Proof. exists []. split; [symmetry; apply app_nil_r | intros ev text []]. Qed.

Lemma typed_trans (s1 s2 s3 : state W) :
  types_only P s1 s2 -> types_only P s2 s3 -> types_only P s1 s3.
Proof.
  intros (m1 & H1 & F1) (m2 & H2 & F2). exists (m1 ++ m2)%list. split.
  - rewrite H2, H1. symmetry. apply app_assoc.
  - intros ev text Hin. apply in_app_or in Hin. destruct Hin; eauto.
Qed.

Lemma typed_perform T (e : browserE T) :
  (forall text, filled (Ev e) = Some text -> P text) ->
  respects (types_only P) (perform respond e).
Proof.
  intros He s r s' H. unfold perform in H.
  destruct (respond e (world s)) as [t w]. inversion H; subst.
  exists [Ev e]. split; [reflexivity | ].
  intros ev text [<- | []]. apply He.
Qed.

Lemma typed_modify f :
  (forall s : state W, trace (f s) = trace s) -> respects (types_only P) (modify f).
Proof.
  intros Hf. apply respects_modify. intros s. exists []. split.
  - rewrite Hf. symmetry. apply app_nil_r.
  - intros ev text [].
Qed.

End Typed.

Lemma typed_weaken (P Q : value -> Prop) (s s' : state W) :
  (forall text, P text -> Q text) -> types_only P s s' -> types_only Q s s'.
Proof. intros HPQ (more & Ht & HF). exists more. split; eauto. Qed.

(** Walks down a computation, checking each text typed against [P]. *)
Ltac typed_walk :=
  repeat first
    [ progress intros
    | progress cbv beta zeta
    | apply (respects_bind _ (typed_trans _))
    | apply (respects_try _ (typed_trans _))
    | apply (respects_ret _ (typed_refl _))
    | apply (respects_throw _ (typed_refl _))
    | apply (respects_lift _ (typed_refl _))
    | apply (respects_gets _ (typed_refl _))
    | apply typed_modify; reflexivity
    | apply typed_perform;
      let text := fresh "text" in
      let H := fresh "H" in
      intros text H; cbn [filled] in H;
      first [discriminate H | inversion H; subst; auto]
    | match goal with
      | |- respects _ (match ?x with _ => _ end) => destruct x
      | |- respects _ (when ?b _) => unfold when
      | |- respects _ (await _ _) => unfold await
      | |- respects _ (shot _ _) => unfold shot
      | |- respects _ (set_files _) => unfold set_files
      | |- respects _ (set_browser _) => unfold set_browser
      | |- respects _ (set_context _) => unfold set_context
      | |- respects _ (set_page _) => unfold set_page
      | |- respects _ (saveStorageState _) => unfold saveStorageState
      | |- respects _ (findEmailField _ ?sels) =>
          induction sels; cbn [findEmailField]
      end ].

Lemma typed_login creds :
  respects (types_only (fun text => text = fst creds \/ text = snd creds))
           (login respond creds).
Proof.
  unfold login, dismissCookieBanner, submitStep, loginStuck, emailSelectors.
  typed_walk.
Qed.

Lemma typed_ensureBrowser P : respects (types_only P) (ensureBrowser respond).
Proof.
  unfold ensureBrowser, loadCDPSession, reconnect, launchBrowser, saveCDPSession,
    cleanupSessionFiles.
  typed_walk.
Qed.

Lemma typed_isSessionValid P : respects (types_only P) (isSessionValid respond).
Proof. unfold isSessionValid. typed_walk. Qed.

(** X19.  The only texts the client ever types into a page while it
    ensures the session are the configured e-mail address and password,
    and it types them only when the configuration has both. *)
Theorem only_credentials_are_typed :
  forall s r s', ensureLoggedIn respond s = (r, s') ->
    types_only (fun text =>
                  has_credentials (config_zapier s) = true
                  /\ (text = opt_get (config_zapier s) "email"
                      \/ text = opt_get (config_zapier s) "password")) s s'.
Proof.
  intros s r s' H.
  set (P := fun text => has_credentials (config_zapier s) = true
                        /\ (text = opt_get (config_zapier s) "email"
                            \/ text = opt_get (config_zapier s) "password")).
  unfold ensureLoggedIn in H. unfold bind at 1 in H.
  destruct (ensureBrowser respond s) as [[[]|e] s1] eqn:E1.
  2:{ inversion H; subst. exact (typed_ensureBrowser P _ _ _ E1). }
  pose proof (typed_ensureBrowser P _ _ _ E1) as T1.
  destruct (keeps_ensureBrowser _ _ _ E1) as (C1 & _).
  apply (typed_trans _ _ _ _ T1).
  unfold bind at 1 in H.
  destruct (isSessionValid respond s1) as [[valid|e] s2] eqn:E2.
  2:{ inversion H; subst. exact (typed_isSessionValid P _ _ _ E2). }
  pose proof (typed_isSessionValid P _ _ _ E2) as T2.
  destruct (keeps_isSessionValid _ _ _ E2) as (C2 & _).
  apply (typed_trans _ _ _ _ T2).
  destruct valid.
  - inversion H; subst. apply typed_refl.
  - unfold bind at 1 in H. unfold getCredentials in H.
    unfold bind at 1 in H. unfold gets at 1 in H.
    rewrite C2, C1 in H.
    destruct (has_credentials (config_zapier s)) eqn:Hc.
    + unfold ret at 1 in H.
      apply typed_login in H. revert H. apply typed_weaken.
      intros text Htext. split; [reflexivity | exact Htext].
    + inversion H; subst. apply typed_refl.
Qed.

(** ** [reset] *)

Section ResetRuns.

Variable close : W -> result unit * W.

(** X20.  [reset] never raises.  When the client holds no browser, or the
    browser closes, it reports success: the client holds no browser any
    more (and after a close no context and no page either) and both
    session files are gone, so a second [reset] succeeds too and changes
    nothing.  When closing the browser fails it reports
    the failure with the text of the error: the client still holds what it
    held, and the session files are still there. *)
Theorem reset_outcomes :
  forall s, exists r s',
    reset close s = (Ok r, s')
    /\ config_zapier s' = config_zapier s /\ debug s' = debug s
    /\ (ResetResult.success r = true ->
        ResetResult.message r = "Browser session closed and cleared."
        /\ browser s' = false /\ files s' = no_files
        /\ (browser s = true -> context s' = false)
        /\ (browser s = true -> page s' = false)
        /\ reset close s' = (Ok r, s'))
    /\ (ResetResult.success r = false ->
        browser s = true
        /\ (exists e w, close (world s) = (Throw e, w)
                        /\ ResetResult.message r = "Reset failed: " ++ message e)
        /\ browser s' = true /\ context s' = context s /\ page s' = page s
        /\ files s' = files s).
Proof.
  intros s. unfold reset.
  destruct (browser s) eqn:Hb.
  - destruct (close (world s)) as [[[]|e] w] eqn:Hclose.
    + assert (Hcb : closeBrowser close s = (Ok tt, with_world w s))
        by (unfold closeBrowser; rewrite Hclose; reflexivity).
      eexists. eexists. split; [ | split; [ | split; [ | split]]].
      * erewrite try_ok; [reflexivity | ].
        unfold bind at 1. unfold gets at 1. rewrite Hb. unfold when.
        erewrite bind_ok; [reflexivity | ].
        run_ok Hcb. reflexivity.
      * reflexivity.
      * reflexivity.
      * intros _. repeat split; reflexivity.
      * discriminate.
    + assert (Hcb : closeBrowser close s = (Throw e, with_world w s))
        by (unfold closeBrowser; rewrite Hclose; reflexivity).
      eexists. eexists. split; [ | split; [ | split; [ | split]]].
      * erewrite try_throw; [reflexivity | ].
        unfold bind at 1. unfold gets at 1. rewrite Hb. unfold when.
        erewrite bind_throw; [reflexivity | ].
        run_throw Hcb. reflexivity.
      * reflexivity.
      * reflexivity.
      * discriminate.
      * intros _. repeat split; auto. exists e, w. split; reflexivity.
  - assert (Hrun : forall s0 : state W, browser s0 = false ->
               try_catch
                 (b <- gets (@browser W) ;;
                  when b (closeBrowser close ;; set_browser false ;;
                          set_context false ;; set_page false) ;;
                  @cleanupSessionFiles W ;;
                  ret {| ResetResult.success := true;
                         ResetResult.message := "Browser session closed and cleared." |})
                 (fun error =>
                    ret {| ResetResult.success := false;
                           ResetResult.message := "Reset failed: " ++ message error |}) s0
               = (Ok {| ResetResult.success := true;
                        ResetResult.message := "Browser session closed and cleared." |},
                  with_files no_files s0)).
    { intros s0 H0. erewrite try_ok; [reflexivity | ].
      unfold bind at 1. unfold gets at 1. rewrite H0. reflexivity. }
    eexists. eexists. split; [apply Hrun; exact Hb | ].
    split; [reflexivity | split; [reflexivity | split; [ | discriminate]]].
    intros _. repeat split; try exact Hb.
    + discriminate.
    + discriminate.
    + rewrite Hrun by exact Hb. reflexivity.
Qed.

End ResetRuns.

End Runs.


(* ===================================================================== *)
(** * Sample runs                                                         *)
(* ===================================================================== *)

(** The theorems above at concrete inputs, in the scripted environment,
    and the inputs on which the specification and the code part ways. *)

(** ** The JavaScript fragment on sample values *)

Example string_of_9 : js_String (VNum 9) = Ok "9".
Proof. reflexivity. Qed.

Example string_of_array :
  js_String (VArr [VNum 1; VNull; VStr "a"; VArr [VNum (-2); VBool true]]) = Ok "1,,a,-2,true".
Proof. reflexivity. Qed.

Example includes_404 :
  includes "API request failed: 404 Not Found — " "404" = true
  /\ includes "Authentication failed (401). Session cleared — retry to re-login." "404" = false.
Proof. split; reflexivity. Qed.

Example search_params_history :
  search_params [("zap", "12 3/x"); ("limit", "10")] = "zap=12+3%2Fx&limit=10".
Proof. reflexivity. Qed.

(** ** C1 *)

Lemma zap_status_witness :
  let R := Sim.respond Sim.paused_primary in
  let st := Sim.warm Sim.credentials in
  let info := {| ZapInfo.id := "1"; ZapInfo.title := VStr "Leads to CRM";
                 ZapInfo.status := VStr "paused"; ZapInfo.lastRun := VUndefined;
                 ZapInfo.stepCount := VUndefined; ZapInfo.updatedAt := VUndefined |} in
  fst (listZaps R Sim.digits_gt0 st) = Ok [info]
  /\ Forall2 status_rule [Sim.paused_zap] [info].
Proof.
  intros R st info.
  destruct (zap_status_passes_vendor_value Z R Sim.digits_gt0)
    as (Hprimary & _ & Hrule & _).
  split.
  - rewrite (Hprimary st (Sim.probed st)
               (Sim.reply 200 "OK" (Ok (VObj [("objects", VArr [Sim.paused_zap])])))
               (world st) (VObj [("objects", VArr [Sim.paused_zap])]) [Sim.paused_zap]
               eq_refl eq_refl eq_refl eq_refl eq_refl).
    reflexivity.
  - exact (Hrule [Sim.paused_zap] [info] eq_refl).
Defined.

(** The claim as stated fails: a vendor status outside the four lifecycle
    values comes out as it went in, on either path. *)
Lemma zap_status_counterexample :
  let st := Sim.warm Sim.credentials in
  let paused := {| ZapInfo.id := "1"; ZapInfo.title := VStr "Leads to CRM";
                   ZapInfo.status := VStr "paused"; ZapInfo.lastRun := VUndefined;
                   ZapInfo.stepCount := VUndefined; ZapInfo.updatedAt := VUndefined |} in
  fst (listZaps (Sim.respond Sim.paused_primary) Sim.digits_gt0 st) = Ok [paused]
  /\ fst (listZaps (Sim.respond Sim.paused_fallback) Sim.digits_gt0 st) = Ok [paused]
  /\ ~ lifecycle (ZapInfo.status paused)
  /\ ZapInfo.status paused <> VStr "unknown".
Proof.
  intros st paused. split; [ | split; [ | split]].
  - vm_compute. reflexivity.
  - vm_compute. reflexivity.
  - intros [H | [H | [H | H]]]; discriminate H.
  - discriminate.
Qed.

(** ** C2 *)

Lemma session_expiry_witness :
  let R := Sim.respond Sim.expired in
  let st := Sim.warm Sim.credentials in
  let unauthorized := Sim.reply 401 "Unauthorized" Sim.not_json in
  (exists s2, listZaps R Sim.digits_gt0 st = (Throw (authentication_failed 401), s2)
              /\ files s2 = no_files)
  /\ (exists s3, toggleZap R "55" false st = toggleViaUi R "55" false s3
                 /\ files s3 = no_files)
  /\ (exists s2, replayRun R "9" st = replayViaUi R "9" s2).
Proof.
  intros R st unauthorized.
  assert (Hlogin : ensureLoggedIn R st = (Ok tt, Sim.probed st)) by reflexivity.
  destruct (session_expiry_on_primary_path Z R Sim.digits_gt0 st (Sim.probed st) Hlogin 401%Z
              (or_introl eq_refl)) as (Hreads & Htoggle & Hreplay).
  split; [ | split].
  - destruct (Hreads API.zaps None unauthorized (world st) eq_refl eq_refl)
      as (Hfiles & Hlist & _).
    eexists. split; [exact (Hlist eq_refl eq_refl) | exact Hfiles].
  - assert (Hlogin2 : ensureLoggedIn R (Sim.probed st) = (Ok tt, Sim.probed (Sim.probed st)))
      by reflexivity.
    destruct (Htoggle "55" false (Sim.probed (Sim.probed st)) unauthorized (world st)
                Hlogin2 eq_refl eq_refl) as (Hfiles & Hrun).
    eexists. split; [exact Hrun | exact Hfiles].
  - eexists. exact (Hreplay "9" unauthorized (world st) eq_refl eq_refl).
Defined.

(** The claim as stated fails for the mutating operations: with the PATCH,
    respectively the POST, answered 401, neither raises anything; each
    returns the structured failure of its UI fallback, and [replayRun]
    leaves both session files in place. *)
Lemma session_expiry_counterexample :
  let R := Sim.respond Sim.expired in
  let st := Sim.warm Sim.credentials in
  fst (toggleZap R "55" false st)
  = Ok {| OpResult.success := false;
          OpResult.message := "Could not find toggle for Zap 55. See screenshot.";
          OpResult.screenshot :=
            Some "/home/USER/biz/.playwright-mcp/zapier-toggle-1700000000000.png" |}
  /\ fst (replayRun R "9" st)
     = Ok {| OpResult.success := false;
             OpResult.message := "Could not find Replay button for run 9. See screenshot.";
             OpResult.screenshot :=
               Some "/home/USER/biz/.playwright-mcp/zapier-replay-1700000000000.png" |}
  /\ files (snd (replayRun R "9" st)) = files st
  /\ files st <> no_files.
Proof.
  intros R st. split; [ | split; [ | split]].
  - vm_compute. reflexivity.
  - vm_compute. reflexivity.
  - vm_compute. reflexivity.
  - discriminate.
Qed.

(** ** C3 *)

Lemma missing_credentials_witness :
  let R := Sim.respond Sim.no_session in
  let st := Sim.cold VUndefined in
  let s2 := Sim.probed (Sim.launched st) in
  ensureLoggedIn R st = (Throw credentials_missing, s2)
  /\ toggleZap R "55" false st = (Throw credentials_missing, s2)
  /\ exists more, trace s2 = (trace st ++ Ev (Launch true) :: more)%list.
Proof.
  intros R st s2.
  assert (Hnone : has_credentials (config_zapier st) = false) by reflexivity.
  assert (Hbrowser : ensureBrowser R st = (Ok tt, Sim.launched st)) by reflexivity.
  assert (Hprobe : isSessionValid R (Sim.launched st) = (Ok false, s2)) by reflexivity.
  destruct (missing_credentials_after_probe Z R Sim.digits_gt0 st (Sim.launched st) s2
              Hnone Hbrowser Hprobe)
    as ((Hlogin & _ & _ & _ & _ & Htoggle) & _ & _ & Hlaunch).
  split; [exact Hlogin | split; [exact (Htoggle "55" false) | ]].
  exact (Hlaunch eq_refl eq_refl).
Defined.

(** The claim as stated fails: on a freshly constructed client the browser
    is launched, and the session probed through it, before the missing
    credentials are reported. *)
Lemma missing_credentials_counterexample :
  let run := ensureLoggedIn (Sim.respond Sim.no_session) (Sim.cold VUndefined) in
  fst run = Throw credentials_missing
  /\ trace (snd run)
     = [ Ev (Launch true); Ev (NewContext None); Ev NewPage; Ev WsEndpoint;
         Ev (RequestGet "https://zapier.com/api/v3/me") ].
Proof. intros run. split; vm_compute; reflexivity. Qed.

(** ** C4 *)

Lemma not_found_witness :
  let R := Sim.respond Sim.quiet in
  let st := Sim.warm Sim.credentials in
  let s2 := answered (Sim.probed st) (Ev (RequestGet "https://zapier.com/api/v4/zaps"))
                     (world st) in
  listZaps R Sim.digits_gt0 st = listZapsFromPage R Sim.digits_gt0 s2
  /\ viewError R "9" st
     = viewErrorFromPage R "9"
         (answered (Sim.probed st) (Ev (RequestGet "https://zapier.com/api/v4/zap-runs/9"))
                   (world st))
  /\ files s2 = files st.
Proof.
  intros R st s2.
  assert (Hlogin : ensureLoggedIn R st = (Ok tt, Sim.probed st)) by reflexivity.
  pose (absent := Sim.reply 404 "Not Found" Sim.not_json).
  split; [ | split].
  - destruct (not_found_hands_over_to_fallback Z R Sim.digits_gt0 st (Sim.probed st) Hlogin
                API.zaps None absent (world st) eq_refl eq_refl) as (_ & Hlist & _).
    exact (Hlist eq_refl eq_refl).
  - destruct (not_found_hands_over_to_fallback Z R Sim.digits_gt0 st (Sim.probed st) Hlogin
                (API.zapRunDetail "9") None absent (world st) eq_refl eq_refl)
      as (_ & _ & _ & Herror).
    exact (Herror "9" eq_refl eq_refl).
  - destruct (not_found_hands_over_to_fallback Z R Sim.digits_gt0 st (Sim.probed st) Hlogin
                API.zaps None absent (world st) eq_refl eq_refl) as (Hfiles & _).
    exact Hfiles.
Defined.

(** ** C5 *)

Lemma history_scenario_witness :
  fst (viewHistory (Sim.respond Sim.history_scenario) Sim.digits_gt0 Sim.scenario_history_options
                   (Sim.warm Sim.credentials))
  = Ok [ {| ZapRun.id := "9"; ZapRun.zapId := "123"; ZapRun.zapTitle := VStr "";
            ZapRun.status := VStr "error";
            ZapRun.startedAt := VStr "2024-01-01T00:00:00Z";
            ZapRun.finishedAt := VUndefined; ZapRun.errorMessage := VUndefined |} ].
Proof.
  pose (st := Sim.warm Sim.credentials).
  assert (Hlogin : ensureLoggedIn (Sim.respond Sim.history_scenario) st
                   = (Ok tt, Sim.probed st)) by reflexivity.
  exact (proj1 (history_scenario_one_record Z (Sim.respond Sim.history_scenario) Sim.digits_gt0)
           st (Sim.probed st)
           (Sim.reply 200 "OK" (Ok Sim.scenario_history_payload)) (world st)
           Hlogin eq_refl eq_refl eq_refl).
Defined.

(** ** C6 *)

Lemma toggle_scenario_witness :
  fst (toggleZap (Sim.respond Sim.toggle_in_ui) "55" false (Sim.warm Sim.credentials))
  = Ok {| OpResult.success := true;
          OpResult.message := "Zap 55 disabled via UI.";
          OpResult.screenshot :=
            Some "/home/USER/biz/.playwright-mcp/zapier-toggle-confirm-1700000000001.png" |}.
Proof.
  pose (R := Sim.respond Sim.toggle_in_ui).
  pose (st := Sim.warm Sim.credentials).
  pose (s1 := Sim.probed st).
  pose (patch := apiPatch R (API.toggleZap "55") (VObj [("status", VStr "off")]) s1).
  pose (s2 := snd patch).
  pose (s3 := snd (toggleLocate R "55" s2)).
  pose (s4 := snd (await R (WaitForTimeout 3000) s3)).
  pose (s5 := snd (shot R "zapier-toggle-" s4)).
  pose (s6 := snd (confirmDialog R toggleConfirmSelector s5)).
  pose (s7 := snd (shot R "zapier-toggle-confirm-" s6)).
  assert (H1 : ensureLoggedIn R st = (Ok tt, s1)) by reflexivity.
  assert (H2 : patch
               = (Throw (Error "API PATCH failed: 500 Internal Server Error — "), s2))
    by (vm_compute; reflexivity).
  assert (H3 : toggleLocate R "55" s2 = (Ok true, s3)) by (vm_compute; reflexivity).
  assert (H4 : await R (WaitForTimeout 3000) s3 = (Ok tt, s4)) by (vm_compute; reflexivity).
  assert (H5 : shot R "zapier-toggle-" s4
               = (Ok "/home/USER/biz/.playwright-mcp/zapier-toggle-1700000000000.png", s5))
    by (vm_compute; reflexivity).
  assert (H6 : confirmDialog R toggleConfirmSelector s5 = (Ok tt, s6))
    by (vm_compute; reflexivity).
  assert (H7 : shot R "zapier-toggle-confirm-" s6
               = (Ok "/home/USER/biz/.playwright-mcp/zapier-toggle-confirm-1700000000001.png",
                  s7))
    by (vm_compute; reflexivity).
  destruct (toggle_scenario_disabled_via_ui Z R st s1 _ s2 s3 s4 _ s5 s6 _ s7
              H1 H2 H3 H4 H5 H6 H7) as (Hrun & _).
  unfold R, st in Hrun. rewrite Hrun. reflexivity.
Defined.

(** ** C7 *)

Lemma interception_timeout_witness :
  let R := Sim.respond Sim.nothing_accepted in
  let st := Sim.warm Sim.credentials in
  fst (listZapsFromPage R Sim.digits_gt0 st) = Ok []
  /\ fst (viewHistoryFromPage R Sim.digits_gt0 Sim.scenario_history_options st) = Ok [].
Proof.
  intros R st.
  assert (Hlogin : ensureLoggedIn R st = (Ok tt, Sim.probed st)) by reflexivity.
  destruct (interception_timeout_is_empty Z R Sim.digits_gt0 st (Sim.probed st) Hlogin)
    as (Hzaps & Hruns).
  split.
  - apply (Hzaps (world st) (world st) (Sim.intercepted Sim.nothing_accepted) (world st));
      try reflexivity.
    repeat (constructor; [reflexivity | ]). constructor.
  - apply (Hruns Sim.scenario_history_options
                 (world st) (world st) (Sim.intercepted Sim.nothing_accepted) (world st));
      try reflexivity.
    repeat (constructor; [reflexivity | ]). constructor.
Defined.

(** ** C8 *)

Lemma no_control_witness :
  let R := Sim.respond Sim.quiet in
  let st := Sim.warm Sim.credentials in
  fst (replayRun R "9" st)
  = Ok {| OpResult.success := false;
          OpResult.message := "Could not find Replay button for run 9. See screenshot.";
          OpResult.screenshot :=
            Some "/home/USER/biz/.playwright-mcp/zapier-replay-1700000000000.png" |}
  /\ fst (toggleZap R "55" true st)
     = Ok {| OpResult.success := false;
             OpResult.message := "Could not find toggle for Zap 55. See screenshot.";
             OpResult.screenshot :=
               Some "/home/USER/biz/.playwright-mcp/zapier-toggle-1700000000000.png" |}.
Proof.
  intros R st.
  pose (s1 := Sim.probed st).
  assert (Hlogin : ensureLoggedIn R st = (Ok tt, s1)) by reflexivity.
  destruct (no_control_is_a_reported_failure Z R st s1 Hlogin) as (Hreplay & Htoggle).
  split.
  - pose (s2 := snd (replayViaApi R "9" s1)).
    pose (s3 := snd (replayLocate R "9" s2)).
    pose (s4 := snd (await R (WaitForTimeout 3000) s3)).
    pose (s5 := snd (shot R "zapier-replay-" s4)).
    assert (H2 : replayViaApi R "9" s1 = (Ok None, s2)) by (vm_compute; reflexivity).
    assert (H3 : replayLocate R "9" s2 = (Ok false, s3)) by (vm_compute; reflexivity).
    assert (H4 : await R (WaitForTimeout 3000) s3 = (Ok tt, s4)) by (vm_compute; reflexivity).
    assert (H5 : shot R "zapier-replay-" s4
                 = (Ok "/home/USER/biz/.playwright-mcp/zapier-replay-1700000000000.png", s5))
      by (vm_compute; reflexivity).
    destruct (Hreplay "9" s2 s3 s4 _ s5 H2 H3 H4 H5) as (Hrun & _).
    rewrite Hrun. reflexivity.
  - pose (s2 := snd (toggleViaApi R "55" true s1)).
    pose (s3 := snd (toggleLocate R "55" s2)).
    pose (s4 := snd (await R (WaitForTimeout 3000) s3)).
    pose (s5 := snd (shot R "zapier-toggle-" s4)).
    assert (H2 : toggleViaApi R "55" true s1 = (Ok None, s2)) by (vm_compute; reflexivity).
    assert (H3 : toggleLocate R "55" s2 = (Ok false, s3)) by (vm_compute; reflexivity).
    assert (H4 : await R (WaitForTimeout 3000) s3 = (Ok tt, s4)) by (vm_compute; reflexivity).
    assert (H5 : shot R "zapier-toggle-" s4
                 = (Ok "/home/USER/biz/.playwright-mcp/zapier-toggle-1700000000000.png", s5))
      by (vm_compute; reflexivity).
    destruct (Htoggle "55" true s2 s3 s4 _ s5 H2 H3 H4 H5) as (Hrun & _).
    rewrite Hrun. reflexivity.
Defined.

(** ** C9 *)

Lemma synonyms_witness :
  let nested := VObj [("id", VNum 1); ("status", VStr "error");
                      ("zap", VObj [("id", VNum 7); ("title", VStr "Leads to CRM")])] in
  let flat := VObj [("id", VNum 1); ("status", VStr "error"); ("zap_id", VNum 7);
                    ("zap", VObj [("title", VStr "Leads to CRM")])] in
  normalize RunRecord nested = normalize RunRecord flat
  /\ normalize RunRecord nested
     = Ok (RRun {| ZapRun.id := "1"; ZapRun.zapId := "7";
                   ZapRun.zapTitle := VStr "Leads to CRM"; ZapRun.status := VStr "error";
                   ZapRun.startedAt := VStr ""; ZapRun.finishedAt := VUndefined;
                   ZapRun.errorMessage := VUndefined |}).
Proof.
  intros nested flat. split; [ | reflexivity].
  apply (proj1 synonyms_normalize_alike RunRecord [["zap"; "id"]; ["zap_id"]])
    with (f1 := ["zap"; "id"]) (f2 := ["zap_id"]) (v := VNum 7).
  - simpl. left. reflexivity.
  - simpl. left. reflexivity.
  - simpl. right. left. reflexivity.
  - reflexivity.
  - simpl. repeat split.
  - simpl. repeat split.
  - simpl. repeat split.
Defined.

(** The claim as stated fails in three ways.  A synonym of one normalizer
    is none for another: [state] stands in for [status] in a Zap, not in
    a run.  A value that is present but falsy (the number 0) is skipped
    by [||], so the last field of a chain keeps it and an earlier one does
    not.  And [updated_at], the last source of [lastRun], is also the
    source of [updatedAt]. *)
Lemma synonyms_counterexample :
  let t := VStr "2024-01-01T00:00:00Z" in
  (* [status] and [state] of a run *)
  (carries [["status"]; ["state"]] ["status"] (VStr "error")
           (VObj [("id", VNum 1); ("status", VStr "error")])
   /\ carries [["status"]; ["state"]] ["state"] (VStr "error")
              (VObj [("id", VNum 1); ("state", VStr "error")])
   /\ agree (reads RunRecord) [["status"]; ["state"]]
            (VObj [("id", VNum 1); ("status", VStr "error")])
            (VObj [("id", VNum 1); ("state", VStr "error")])
   /\ rmap ZapRun.status (zapRun (VObj [("id", VNum 1); ("status", VStr "error")]))
      = Ok (VStr "error")
   /\ rmap ZapRun.status (zapRun (VObj [("id", VNum 1); ("state", VStr "error")]))
      = Ok (VStr "unknown")
   /\ normalize RunRecord (VObj [("id", VNum 1); ("status", VStr "error")])
      <> normalize RunRecord (VObj [("id", VNum 1); ("state", VStr "error")]))
  (* the value 0 under [error_message] and under [error.message] *)
  /\ (rmap ZapRun.errorMessage (zapRun (VObj [("id", VNum 1); ("error_message", VNum 0)]))
      = Ok VUndefined
      /\ rmap ZapRun.errorMessage
           (zapRun (VObj [("id", VNum 1); ("error", VObj [("message", VNum 0)])]))
         = Ok (VNum 0)
      /\ normalize RunRecord (VObj [("id", VNum 1); ("error_message", VNum 0)])
         <> normalize RunRecord (VObj [("id", VNum 1); ("error", VObj [("message", VNum 0)])]))
  (* [last_run_at] and [updated_at] of a Zap *)
  /\ (carries lastRun_fields ["last_run_at"] t (VObj [("id", VNum 1); ("last_run_at", t)])
      /\ carries lastRun_fields ["updated_at"] t (VObj [("id", VNum 1); ("updated_at", t)])
      /\ normalize ZapSummary (VObj [("id", VNum 1); ("last_run_at", t)])
         = Ok (RZap {| ZapInfo.id := "1"; ZapInfo.title := VStr "Untitled";
                       ZapInfo.status := VStr "unknown"; ZapInfo.lastRun := t;
                       ZapInfo.stepCount := VUndefined; ZapInfo.updatedAt := VUndefined |})
      /\ normalize ZapSummary (VObj [("id", VNum 1); ("updated_at", t)])
         = Ok (RZap {| ZapInfo.id := "1"; ZapInfo.title := VStr "Untitled";
                       ZapInfo.status := VStr "unknown"; ZapInfo.lastRun := t;
                       ZapInfo.stepCount := VUndefined; ZapInfo.updatedAt := t |})
      /\ normalize ZapSummary (VObj [("id", VNum 1); ("last_run_at", t)])
         <> normalize ZapSummary (VObj [("id", VNum 1); ("updated_at", t)])).
Proof.
  intros t. split; [ | split].
  - repeat split. vm_compute. intros H. discriminate H.
  - split; [reflexivity | split; [reflexivity | ]].
    vm_compute. intros H. discriminate H.
  - split; [simpl; repeat split | ].
    split; [simpl; repeat split | ].
    split; [reflexivity | ].
    split; [reflexivity | ].
    vm_compute. intros H. discriminate H.
Qed.

(** ** C10 *)

Lemma history_truncation_witness :
  let R := Sim.respond Sim.three_runs_served in
  let st := Sim.warm Sim.credentials in
  (exists recs, fst (viewHistoryFromPage R Sim.digits_gt0 Sim.limit_two st) = Ok recs
                /\ List.length recs = 2%nat)
  /\ (exists recs, fst (viewHistory R Sim.digits_gt0 Sim.limit_two st) = Ok recs
                   /\ List.length recs = 3%nat).
Proof.
  intros R st.
  assert (Hlogin : ensureLoggedIn R st = (Ok tt, Sim.probed st)) by reflexivity.
  destruct (history_truncation_by_path Z R Sim.digits_gt0 Sim.limit_two st (Sim.probed st) Hlogin)
    as (Hfallback & Hprimary).
  split.
  - destruct (Hfallback (world st) (world st) (Sim.intercepted Sim.three_runs_served)
                        (world st) Sim.three_runs eq_refl eq_refl eq_refl eq_refl)
      as (kept & Hrun & _ & Hkept & _).
    destruct (Hkept 2%Z eq_refl eq_refl) as (-> & _).
    eexists. split; [exact Hrun | reflexivity].
  - destruct (Hprimary (Sim.reply 200 "OK" (Ok (VObj [("results", VArr Sim.three_runs)])))
                       (world st) (VObj [("results", VArr Sim.three_runs)]) Sim.three_runs
                       _ eq_refl eq_refl eq_refl eq_refl eq_refl) as (Hrun & Hlen).
    eexists. split; [exact Hrun | reflexivity].
Defined.

(** The claim as stated fails for [limit: 0]: the fallback path treats it
    as no limit at all and returns the three intercepted runs. *)
Lemma history_truncation_counterexample :
  exists recs,
    fst (viewHistory (Sim.respond Sim.three_runs_intercepted) Sim.digits_gt0 Sim.limit_zero
                     (Sim.warm Sim.credentials)) = Ok recs
    /\ List.length recs = 3%nat
    /\ ~ (Z.of_nat (List.length recs) <= 0)%Z.
Proof.
  eexists. split; [vm_compute; reflexivity | ].
  split; [reflexivity | simpl; lia].
Qed.

(** ** Sample runs of the further properties *)

(** X1: the login page shows no e-mail field; the failed login leaves the
    session as it was. *)
Lemma login_is_calm_witness :
  let R := Sim.respond Sim.quiet in
  let st := Sim.warm Sim.credentials in
  let creds := (VStr "ops@example.com", VStr "hunter2") in
  fst (login R creds st)
  = Throw (Error ("Could not find email field. Screenshot: "
                  ++ screenshot_path "zapier-login-error-no-email-" 1700000000001))
  /\ calm st (snd (login R creds st)).
Proof.
  intros R st creds. split; [vm_compute; reflexivity | ].
  apply (login_is_calm Z R creds st (fst (login R creds st))).
  vm_compute. reflexivity.
Defined.




(** X5: a valid session and a configuration without credentials. *)
Lemma probe_witness :
  let R := Sim.respond Sim.quiet in
  let st := Sim.warm VUndefined in
  has_credentials (config_zapier st) = false
  /\ ensureLoggedIn R st = (Ok tt, Sim.probed st).
Proof.
  intros R st. split; [reflexivity | ].
  destruct (probe_decides_login Z R st st eq_refl
              (Ok (Sim.reply 200 "OK" (Ok (VObj [])))) (world st) eq_refl)
    as (Hvalid & _).
  exact (Hvalid _ eq_refl eq_refl).
Defined.

(** X6: the browser of the CDP session file is gone: the snapshot that
    was there is not passed to the new context. *)
Lemma failed_reconnection_witness :
  let R := Sim.respond Sim.quiet in
  let st := Cases.restarted (Sim.warm Sim.credentials) in
  storage_state (files st) = Some "cookies"
  /\ exists more,
       trace (snd (ensureBrowser R st))
       = Ev (ConnectOverCDP (VStr "ws://127.0.0.1:9222"))
         :: Ev (Launch true) :: Ev (NewContext None) :: more.
Proof.
  intros R st. split; [reflexivity | ].
  destruct (failed_reconnection_discards_snapshot Z R st
              (VObj [("wsEndpoint", VStr "ws://127.0.0.1:9222")])
              (Error "connect ECONNREFUSED") (world st)
              eq_refl eq_refl eq_refl eq_refl eq_refl) as (_ & Htrace).
  exact (Htrace (snd (ensureBrowser R st)) eq_refl).
Defined.

(** X7: the browser of the CDP session file is still there. *)
Lemma reconnection_witness :
  let R := Sim.respond Cases.attached in
  let st := Cases.restarted (Sim.warm Sim.credentials) in
  exists s', ensureBrowser R st = (Ok tt, s')
             /\ page s' = true /\ files s' = files st
             /\ trace s' = [Ev (ConnectOverCDP (VStr "ws://127.0.0.1:9222"))].
Proof.
  intros R st.
  destruct (reconnection_outcomes Z R st
              (VObj [("wsEndpoint", VStr "ws://127.0.0.1:9222")])
              ContextWithPage (world st) eq_refl eq_refl eq_refl eq_refl)
    as (Hadopt & _).
  destruct (Hadopt eq_refl) as (s' & Hrun & _ & _ & Hp & Hf & _ & Ht).
  exists s'. split; [exact Hrun | split; [exact Hp | split; [exact Hf | exact Ht]]].
Defined.

(** X8: a second call after a launch. *)
Lemma ensureBrowser_settles_witness :
  let R := Sim.respond Sim.quiet in
  let st := Sim.cold Sim.credentials in
  ensureBrowser R st = (Ok tt, Sim.launched st)
  /\ ensureBrowser R (Sim.launched st) = (Ok tt, Sim.launched st).
Proof.
  intros R st. split; [reflexivity | ].
  destruct (ensureBrowser_settles Z R st (Sim.launched st)
              (fun H : page st = true => False_ind _ (diff_false_true H)) eq_refl)
    as (_ & _ & Hagain).
  exact Hagain.
Defined.

(** X9: the launched browser exposes an endpoint. *)
Lemma launch_records_endpoint_witness :
  let R := Sim.respond Cases.exposed in
  let st := Sim.cold Sim.credentials in
  exists s1,
    launchBrowser R st = (Ok tt, s1)
    /\ cdp_session (files s1)
       = Some (Some (VObj [("wsEndpoint", VStr "ws://127.0.0.1:9333");
                           ("createdAt", VStr "2024-01-01T00:00:00.000Z")])).
Proof.
  intros R st.
  destruct (launch_records_endpoint_for_reconnection Z R st
              (world st) (world st) (world st) (world st) (world st)
              "ws://127.0.0.1:9333" "2024-01-01T00:00:00.000Z"
              eq_refl eq_refl eq_refl eq_refl
              (fun H => eq_ind "ws://127.0.0.1:9333"
                               (fun x => match x with EmptyString => False | _ => True end)
                               I "" H)
              eq_refl) as (s1 & Hrun & Hfiles & _).
  exists s1. split; [exact Hrun | ]. rewrite Hfiles. reflexivity.
Defined.

(** X10: the Zap list endpoint answers 500, and the body says
    [Not Found]. *)
Lemma rejection_text_witness :
  let R := Sim.respond Cases.misleading_error in
  let st := Sim.warm Sim.credentials in
  listZaps R Sim.digits_gt0 st
  = listZapsFromPage R Sim.digits_gt0
      (answered (Sim.probed st) (Ev (RequestGet (ZAPIER_BASE ++ API.zaps))) (world st)).
Proof.
  intros R st.
  destruct (rejection_text_triggers_fallback Z R Sim.digits_gt0 st (Sim.probed st) eq_refl
              API.zaps None
              (Cases.reply_text 500 "Internal Server Error" "Resource Not Found")
              (world st) eq_refl eq_refl) as (Hlist & _).
  - discriminate.
  - discriminate.
  - right. right. left. reflexivity.
  - exact (Hlist eq_refl eq_refl).
Defined.

(** X11: the Zap list endpoint answers [null]. *)
Lemma malformed_payload_witness :
  let R := Sim.respond Cases.null_payload in
  let st := Sim.warm Sim.credentials in
  fst (listZaps R Sim.digits_gt0 st)
  = Throw (TypeError "Cannot read properties of null (reading 'objects')").
Proof.
  intros R st.
  destruct (malformed_payload_is_reported Z R Sim.digits_gt0 st VNull
              (answered (Sim.probed st) (Ev (RequestGet (ZAPIER_BASE ++ API.zaps))) (world st))
              (TypeError "Cannot read properties of null (reading 'objects')"))
    as (Hlist & _).
  destruct (Hlist eq_refl eq_refl) as (_ & Hrun).
  rewrite Hrun. reflexivity.
Defined.

(** X12: the Zap list endpoint answers 500 with a short body. *)
Lemma rejected_request_witness :
  let R := Sim.respond Cases.server_error in
  let st := Sim.warm Sim.credentials in
  fst (apiGet R API.zaps None st)
  = Throw (Error "API request failed: 500 Internal Server Error — upstream timeout").
Proof.
  intros R st.
  destruct (rejected_request_reports_status_and_body Z R st (Sim.probed st) eq_refl
              API.zaps None
              (Cases.reply_text 500 "Internal Server Error" "upstream timeout")
              (world st) eq_refl eq_refl)
    as (shown & s2 & Hrun & _ & Hbody & _).
  - discriminate.
  - discriminate.
  - rewrite Hrun, (Hbody _ eq_refl). reflexivity.
Defined.

(** X13: a response the Zap list listener accepts. *)
Lemma accepted_response_witness :
  let r := Sim.reply_at "https://zapier.com/api/v4/zaps?page=1"
                        (VObj [("results", VArr [Sim.paused_zap])]) in
  zapsListener Sim.digits_gt0 r = Some (VArr [Sim.paused_zap])
  /\ exists json, resp_json r = Ok json
                  /\ item_list json (VArr []) = Ok (VArr [Sim.paused_zap]).
Proof.
  intros r. split; [reflexivity | ].
  destruct (accepted_response_is_a_primary_payload Sim.digits_gt0 r (VArr [Sim.paused_zap]))
    as (Hzaps & _).
  destruct (Hzaps eq_refl) as (_ & _ & _ & json & Hjson & Hitems & _).
  exists json. split; [exact Hjson | exact Hitems].
Defined.


(** X15: the replay endpoint answers 202. *)
Lemma replay_via_api_witness :
  let R := Sim.respond Cases.replay_accepted in
  let st := Sim.warm Sim.credentials in
  fst (replayRun R "9" st)
  = Ok {| OpResult.success := true;
          OpResult.message := "Run 9 replayed successfully via API.";
          OpResult.screenshot := None |}.
Proof.
  intros R st.
  destruct (replay_via_api_outcomes Z R st (Sim.probed st) eq_refl "9"
              (Ok (Sim.reply 202 "Accepted" Sim.not_json)) (world st) eq_refl)
    as (Hok & _).
  rewrite (Hok _ eq_refl eq_refl). reflexivity.
Defined.

(** X17: the run page shows a text and no run detail is intercepted. *)
Lemma error_detail_witness :
  let R := Sim.respond Cases.plain_page in
  let st := Sim.warm Sim.credentials in
  fst (viewErrorFromPage R "9" st)
  = Ok (pageContentDetail "9" "This run could not be loaded.").
Proof.
  intros R st.
  destruct (error_detail_last_resort Z R st (Sim.probed st) eq_refl "9"
              (world st) (world st) [] (world st) 1700000000000%Z
              1700000000001%Z 1700000000001%Z
              (Ok (Some "This run could not be loaded.")) 1700000000001%Z
              eq_refl eq_refl eq_refl (Forall_nil _) eq_refl eq_refl eq_refl)
    as (text & s' & Hrun & _ & Htext & _).
  rewrite Hrun, (Htext _ eq_refl). reflexivity.
Defined.

(** X19: a login that lands types the two credentials, and nothing else. *)
Lemma only_credentials_witness :
  let R := Sim.respond Cases.login_page in
  let st := Sim.launched (Sim.cold Sim.credentials) in
  fst (ensureLoggedIn R st) = Ok tt
  /\ types_only (fun text => text = VStr "ops@example.com" \/ text = VStr "hunter2")
                st (snd (ensureLoggedIn R st)).
Proof.
  intros R st. split; [vm_compute; reflexivity | ].
  destruct (only_credentials_are_typed Z R st (fst (ensureLoggedIn R st))
              (snd (ensureLoggedIn R st)))
    as (more & Htrace & Htyped).
  - vm_compute. reflexivity.
  - exists more. split; [exact Htrace | ].
    intros ev text Hin Hfilled. destruct (Htyped ev text Hin Hfilled) as (_ & Hor).
    exact Hor.
Defined.
